(** * pytest-otel: outcome tracking, span lifecycle and stdio artifacts

    A shallow embedding of [pytest_otel/plugin.py] and
    [pytest_otel/logging_handler.py].

    Python values are modelled as follows: [int] as [Z], [str] as [string],
    [dict] as stdpp's [gmap], an attribute that may be [None] as [option].
    The module globals [_enabled] and [_test_outcomes] live in an explicit
    [State] that every hook threads through; calls into the tracing backend
    ([pytest_otel.tracer], [pytest_otel.config], the OpenTelemetry logger)
    go through a [Backend] record, and each call is also appended to a
    chronological [trace] so that theorems can speak about what the hooks
    handed to their collaborators. *)

From Stdlib Require Import ZArith String List Lia.
From stdpp Require Import base option gmap strings pretty.

Local Open Scope string_scope.

(** ** Python helpers *)

(** [d.get(k, default)]. *)
Definition dict_get {V} (d : gmap string V) (k : string) (default : V) : V :=
  match d !! k with
  | Some v => v
  | None => default
  end.

(** [d.pop(k, None)], used as a statement: the popped value is discarded. *)
Definition dict_pop {V} (d : gmap string V) (k : string) : gmap string V :=
  delete k d.

(** [s[:n]] for a non-negative bound [n]. *)
Fixpoint slice_to (n : nat) (s : string) : string :=
  match n, s with
  | S n', String c s' => String c (slice_to n' s')
  | _, _ => EmptyString
  end.

(** Truthiness of an optional text: [None] and [""] are both falsy.  A missing
    attribute ([hasattr] false) is modelled as [None] as well. *)
Definition truthy_text (t : option string) : option string :=
  match t with
  | Some s => if decide (s = "") then None else Some s
  | None => None
  end.

(** ** logging_handler.py *)

Module logging.
Definition DEBUG : Z := 10.
Definition INFO : Z := 20.
Definition WARNING : Z := 30.
Definition ERROR : Z := 40.
Definition CRITICAL : Z := 50.
End logging.

(** The members of OpenTelemetry's [SeverityNumber] that the handler uses,
  with their numeric values. *)
Module SeverityNumber.
Inductive t := DEBUG | INFO | WARN | ERROR | FATAL.

Definition value (s : t) : Z :=
  match s with
  | DEBUG => 5
  | INFO => 9
  | WARN => 13
  | ERROR => 17
  | FATAL => 21
  end.
End SeverityNumber.

Definition _get_severity (level : Z) : SeverityNumber.t :=
  if (level >=? logging.CRITICAL)%Z then SeverityNumber.FATAL
  else if (level >=? logging.ERROR)%Z then SeverityNumber.ERROR
  else if (level >=? logging.WARNING)%Z then SeverityNumber.WARN
  else if (level >=? logging.INFO)%Z then SeverityNumber.INFO
  else SeverityNumber.DEBUG.

Definition STDIO_STREAM_STDOUT : Z := 1.
Definition STDIO_STREAM_STDERR : Z := 2.
Definition STDIO_STREAM_ATTR : string := "stdio.stream".
Definition STDIO_EOF_ATTR : string := "stdio.eof".

(** A span handle.  [is_recording] is the answer of [span.is_recording()]. *)
Record Span := { span_name : string; is_recording : bool }.

(** The context a log record is associated with: either the ambient one
    ([context.get_current()]) or a fresh one that holds just the given span
    ([trace.set_span_in_context(span)]). *)
Inductive Context :=
| context_get_current
| set_span_in_context (span : Span).

Inductive AttrValue :=
| AInt (z : Z)
| ABool (b : bool).

Record LogRecord := {
  timestamp : Z;
  observed_timestamp : Z;
  body : string;
  attributes : gmap string AttrValue;
  context : Context
}.

(** ** Exceptions and results *)

(** A raised exception.  [exn_is_exception] tells whether it is an instance
    of [Exception], which is what [except Exception] catches; a
    [KeyboardInterrupt] is not. *)
Record Exn := { exn_is_exception : bool; exn_msg : string }.

Definition Exception (msg : string) : Exn :=
  {| exn_is_exception := true; exn_msg := msg |}.

Inductive Result (A : Type) :=
| Ok (a : A)
| Raise (e : Exn).
Arguments Ok {A} a.
Arguments Raise {A} e.

(** ** plugin.py: data *)

Record Item := { nodeid : string }.

(** [report.longrepr]: a plain text (truthy when non-empty) or a
    representation object (always truthy); [str(...)] gives the text. *)
Inductive LongRepr :=
| ReprText (s : string)
| ReprObject (s : string).

Definition str (l : LongRepr) : string :=
  match l with
  | ReprText s => s
  | ReprObject s => s
  end.

Definition truthy_longrepr (l : option LongRepr) : option LongRepr :=
  match l with
  | Some (ReprText s) => if decide (s = "") then None else l
  | Some (ReprObject _) => l
  | None => None
  end.

Record TestReport := {
  when : string;
  outcome : string;
  failed : bool;
  skipped : bool;
  capstdout : option string;
  capstderr : option string;
  longrepr : option LongRepr
}.

Record CallInfo := { excinfo : option Exn }.

Inductive Level := LDEBUG | LWARNING.

(** What the hooks hand to their collaborators, in chronological order. *)
Inductive Event :=
| Diag (lvl : Level) (msg : string)
| StartTest (nodeid : string)
| EndTest (nodeid : string) (outcome : string)
| RecordException (nodeid : string) (e : Exn)
| LoggerEmit (r : LogRecord).

(** The collaborators whose code is outside this module.  Each operation
    works on the backend's own state [B]; [Some msg] as a result means the
    call raised [Exception(msg)]. *)
Record Backend (B : Type) := {
  tracer_start_test : Item -> B -> option string * B;
  tracer_end_test : Item -> string -> B -> option string * B;
  tracer_record_exception : Item -> Exn -> B -> option string * B;
  tracer_get_test_span : Item -> B -> (string + option Span) * B;
  config_get_logger : B -> option string * B;
  logger_emit : LogRecord -> B -> option string * B;
  (** [int(time.time() * 1e9)] *)
  time_ns : B -> Z * B
}.
Arguments tracer_start_test {B} _ _ _.
Arguments tracer_end_test {B} _ _ _ _.
Arguments tracer_record_exception {B} _ _ _ _.
Arguments tracer_get_test_span {B} _ _ _.
Arguments config_get_logger {B} _ _.
Arguments logger_emit {B} _ _ _.
Arguments time_ns {B} _ _.

Record State (B : Type) := {
  _enabled : bool;
  _test_outcomes : gmap string string;
  backend_state : B;
  trace : list Event
}.
Arguments _enabled {B} _.
Arguments _test_outcomes {B} _.
Arguments backend_state {B} _.
Arguments trace {B} _.
Arguments Build_State {B} _ _ _ _.

(** ** The state-and-exception monad of the hooks *)

Definition M (B A : Type) : Type := State B -> Result A * State B.

Definition ret {B A} (a : A) : M B A := fun st => (Ok a, st).

Definition raise {B A} (e : Exn) : M B A := fun st => (Raise e, st).

Definition bind {B A C} (c : M B A) (k : A -> M B C) : M B C :=
  fun st =>
    match c st with
    | (Ok a, st') => k a st'
    | (Raise e, st') => (Raise e, st')
    end.

Declare Scope hook_scope.
Delimit Scope hook_scope with hook.
Notation "x <~ c ;; k" := (bind c (fun x => k))
  (at level 100, c at next level, right associativity) : hook_scope.
Notation "c ;;; k" := (bind c (fun _ => k))
  (at level 100, right associativity) : hook_scope.

(** [try: c  except Exception as e: handler e]. *)
Definition try_except {B A} (c : M B A) (handler : Exn -> M B A) : M B A :=
  fun st =>
    match c st with
    | (Raise e, st') =>
        if exn_is_exception e then handler e st' else (Raise e, st')
    | r => r
    end.

(** Runs [c] and hands back how it ended instead of propagating. *)
Definition attempt {B A} (c : M B A) : M B (Result A) :=
  fun st => let (r, st') := c st in (Ok r, st').

(** Continues the way a reified result says. *)
Definition resume {B A} (r : Result A) : M B A :=
  match r with
  | Ok a => ret a
  | Raise e => raise e
  end.

Definition log_event {B} (e : Event) : M B unit :=
  fun st =>
    (Ok tt, {| _enabled := _enabled st;
               _test_outcomes := _test_outcomes st;
               backend_state := backend_state st;
               trace := trace st ++ [e] |}).

Definition set_test_outcomes {B} (m : gmap string string) : M B unit :=
  fun st =>
    (Ok tt, {| _enabled := _enabled st;
               _test_outcomes := m;
               backend_state := backend_state st;
               trace := trace st |}).

Definition get_test_outcomes {B} : M B (gmap string string) :=
  fun st => (Ok (_test_outcomes st), st).

Definition get_enabled {B} : M B bool :=
  fun st => (Ok (_enabled st), st).

(** A backend call that answers "raised or not". *)
Definition backend_call {B} (op : B -> option string * B) : M B unit :=
  fun st =>
    let (r, b') := op (backend_state st) in
    let st' := {| _enabled := _enabled st;
                  _test_outcomes := _test_outcomes st;
                  backend_state := b';
                  trace := trace st |} in
    match r with
    | None => (Ok tt, st')
    | Some msg => (Raise (Exception msg), st')
    end.

(** A backend call that answers with a value or raises. *)
Definition backend_query {B A} (op : B -> (string + A) * B) : M B A :=
  fun st =>
    let (r, b') := op (backend_state st) in
    let st' := {| _enabled := _enabled st;
                  _test_outcomes := _test_outcomes st;
                  backend_state := b';
                  trace := trace st |} in
    match r with
    | inr a => (Ok a, st')
    | inl msg => (Raise (Exception msg), st')
    end.

(** A backend read that cannot fail. *)
Definition backend_read {B A} (op : B -> A * B) : M B A :=
  fun st =>
    let (a, b') := op (backend_state st) in
    (Ok a, {| _enabled := _enabled st;
              _test_outcomes := _test_outcomes st;
              backend_state := b';
              trace := trace st |}).

Local Open Scope hook_scope.

Section Hooks.
Context {B : Type} (backend : Backend B).

(** *** logging_handler.py: emit_stdio_log *)

Definition stdio_attributes (stream : Z) (eof : bool) : gmap string AttrValue :=
  let attributes := {[ STDIO_STREAM_ATTR := AInt stream ]} in
  if eof then <[ STDIO_EOF_ATTR := ABool true ]> attributes else attributes.

Definition log_context (span : option Span) : Context :=
  match span with
  | Some sp => if is_recording sp then set_span_in_context sp
               else context_get_current
  | None => context_get_current
  end.

Definition emit_stdio_log (body : string) (stream : Z)
    (span : option Span) (eof : bool) : M B unit :=
  backend_call (config_get_logger backend) ;;;
  let attributes := stdio_attributes stream eof in
  let log_context := log_context span in
  try_except
    (t1 <~ backend_read (time_ns backend) ;;
     t2 <~ backend_read (time_ns backend) ;;
     let record := {| timestamp := t1;
                      observed_timestamp := t2;
                      body := body;
                      attributes := attributes;
                      context := log_context |} in
     log_event (LoggerEmit record) ;;;
     backend_call (logger_emit backend record))
    (fun _ => ret tt).

(** *** plugin.py: pytest_runtest_makereport and _capture_test_output *)

Definition _capture_test_output (item : Item) (report : TestReport) : M B unit :=
  if negb (bool_decide (when report = "call")) && negb (failed report)
  then ret tt
  else
    test_span <~ backend_query (tracer_get_test_span backend item) ;;
    (match test_span with
     | None =>
         log_event (Diag LDEBUG ("No active span for test " ++ nodeid item
                                 ++ ", logs may be misattributed"))
     | Some _ => ret tt
     end) ;;;
    (match truthy_text (capstdout report) with
     | Some out =>
         let stdout := slice_to (N.to_nat 8192) out in
         emit_stdio_log stdout STDIO_STREAM_STDOUT test_span false
     | None => ret tt
     end) ;;;
    (match truthy_text (capstderr report) with
     | Some err =>
         let stderr := slice_to (N.to_nat 8192) err in
         emit_stdio_log stderr STDIO_STREAM_STDERR test_span false
     | None => ret tt
     end) ;;;
    (match (if failed report then truthy_longrepr (longrepr report) else None) with
     | Some l =>
         let longrepr_str := slice_to (N.to_nat 16384) (str l) in
         emit_stdio_log longrepr_str STDIO_STREAM_STDERR test_span false
     | None => ret tt
     end).

(** Lines 168-180: the update of [_test_outcomes] for one report. *)
Definition track_outcome (nodeid : string) (report : TestReport)
    (outcomes : gmap string string) : gmap string string :=
  let current_outcome := dict_get outcomes nodeid "passed" in
  if failed report then <[ nodeid := "failed" ]> outcomes
  else if skipped report && bool_decide (current_outcome = "passed")
  then <[ nodeid := "skipped" ]> outcomes
  else if bool_decide (when report = "call")
          && bool_decide (current_outcome = "passed")
  then <[ nodeid := outcome report ]> outcomes
  else outcomes.

(** The hook wraps the runner's own report construction; [report] is what
    the wrapped call yielded. *)
Definition pytest_runtest_makereport (item : Item) (call : CallInfo)
    (report : TestReport) : M B TestReport :=
  enabled <~ get_enabled ;;
  if negb enabled then ret report
  else
    outcomes <~ get_test_outcomes ;;
    set_test_outcomes (track_outcome (nodeid item) report outcomes) ;;;
    (match excinfo call with
     | Some value =>
         if bool_decide (when report = "call") then
           try_except
             (log_event (RecordException (nodeid item) value) ;;;
              backend_call (tracer_record_exception backend item value))
             (fun e => log_event
                (Diag LWARNING ("Failed to record exception for "
                                ++ nodeid item ++ ": " ++ exn_msg e)))
         else ret tt
     | None => ret tt
     end) ;;;
    try_except
      (_capture_test_output item report)
      (fun e => log_event
         (Diag LWARNING ("Failed to capture test output for "
                         ++ nodeid item ++ ": " ++ exn_msg e))) ;;;
    ret report.

(** *** plugin.py: pytest_runtest_protocol *)

(** Lines 139-155: what the hook does once the wrapped execution has ended
    the way [yielded] says.  The [try] and [except] branches set the local
    [outcome]; the [finally] block pops the tracked outcome and ends the
    span; then the result is returned or the exception propagates. *)
Definition protocol_after_yield {V} (item : Item) (yielded : Result V)
    : M B V :=
  guarded <~
    (match yielded with
     | Ok result =>
         outcomes <~ get_test_outcomes ;;
         ret (dict_get outcomes (nodeid item) "passed", Ok result)
     | Raise e =>
         if exn_is_exception e then
           recorded <~ attempt
             (log_event (RecordException (nodeid item) e) ;;;
              backend_call (tracer_record_exception backend item e)) ;;
           match recorded with
           | Ok _ => ret ("error", Raise e)
           | Raise e' => ret ("error", Raise e')
           end
         else ret ("passed", Raise e)
     end) ;;
  let '(outcome, ending) := guarded in
  (* finally *)
  outcomes <~ get_test_outcomes ;;
  set_test_outcomes (dict_pop outcomes (nodeid item)) ;;;
  try_except
    (log_event (EndTest (nodeid item) outcome) ;;;
     backend_call (tracer_end_test backend item outcome))
    (fun e => log_event
       (Diag LWARNING ("Failed to end test span for "
                       ++ nodeid item ++ ": " ++ exn_msg e))) ;;;
  resume ending.

(** The hook wraps the rest of the runner's protocol for one test; [body]
    is that wrapped execution (the [yield]), of result type [V]. *)
Definition pytest_runtest_protocol {V} (item : Item) (body : M B V) : M B V :=
  enabled <~ get_enabled ;;
  if negb enabled then body
  else
    outcomes <~ get_test_outcomes ;;
    set_test_outcomes (dict_pop outcomes (nodeid item)) ;;;
    started <~ attempt (log_event (StartTest (nodeid item)) ;;;
                        backend_call (tracer_start_test backend item)) ;;
    match started with
    | Raise e =>
        if exn_is_exception e then
          log_event (Diag LWARNING ("Failed to start test span for "
                                    ++ nodeid item ++ ": " ++ exn_msg e)) ;;;
          body
        else raise e
    | Ok _ =>
        yielded <~ attempt body ;;
        protocol_after_yield item yielded
    end.

End Hooks.

(** ** Properties of hook computations *)

(** [c] changes neither [_enabled] nor [_test_outcomes]. *)
Definition keeps_globals {B A} (c : M B A) : Prop :=
  forall st, _enabled (snd (c st)) = _enabled st /\
             _test_outcomes (snd (c st)) = _test_outcomes st.

(** [c] only appends to the trace, and only events satisfying [P]. *)
Definition adds {B A} (P : Event -> Prop) (c : M B A) : Prop :=
  forall st, exists evs,
    trace (snd (c st)) = (trace st ++ evs)%list /\ Forall P evs.

(** [c] always returns normally, with a value satisfying [Q]. *)
Definition returns {B A} (Q : A -> Prop) (c : M B A) : Prop :=
  forall st, exists a, fst (c st) = Ok a /\ Q a.

(** Whatever [c] raises is an [Exception], so [except Exception] catches it. *)
Definition catchable {B A} (c : M B A) : Prop :=
  forall st e, fst (c st) = Raise e -> exn_is_exception e = true.

(** ** The runner's side of one test *)

(** The values of the module globals when the plugin is imported. *)
Definition initial_state {B} (b : B) : State B :=
  {| _enabled := false; _test_outcomes := ∅; backend_state := b; trace := [] |}.

(** One phase as the runner hands it to [pytest_runtest_makereport]: the call
    information and the report that the wrapped hook call yields. *)
Record Phase := { phase_call : CallInfo; phase_report : TestReport }.

(** How the wrapped execution of a test ends: with a result, or with an
    exception that escapes the runner's own protocol. *)
Inductive Ending (V : Type) :=
| Completes (result : V)
| Aborts (e : Exn).
Arguments Completes {V} result.
Arguments Aborts {V} e.

(** The execution that [pytest_runtest_protocol] wraps, as far as this plugin
    observes it: the runner calls the report hook once per phase and then
    ends. *)
Fixpoint runtestprotocol {B V} (backend : Backend B) (item : Item)
    (phases : list Phase) (ending : Ending V) : M B V :=
  match phases with
  | [] => match ending with
          | Completes result => ret result
          | Aborts e => raise e
          end
  | p :: rest =>
      pytest_runtest_makereport backend item (phase_call p) (phase_report p) ;;;
      runtestprotocol backend item rest ending
  end.

(** The state after the report hook has been called for each phase in turn. *)
Definition record_reports {B} (backend : Backend B) (item : Item)
    (phases : list Phase) (st : State B) : State B :=
  fold_left
    (fun st p => snd (pytest_runtest_makereport backend item
                        (phase_call p) (phase_report p) st))
    phases st.

(** The tracked outcome of a test as both hooks read it:
    [_test_outcomes.get(item.nodeid, "passed")]. *)
Definition resolve {B} (st : State B) (item : Item) : string :=
  dict_get (_test_outcomes st) (nodeid item) "passed".

(** ** Observations on the trace *)

(** The [(nodeid, outcome)] arguments of the calls to [tracer.end_test]. *)
Definition end_test_calls (tr : list Event) : list (string * string) :=
  omap (fun e => match e with
                 | EndTest n o => Some (n, o)
                 | _ => None
                 end) tr.

(** Whether an event is a call to [tracer.end_test]. *)
Definition is_end_test (e : Event) : bool :=
  match e with
  | EndTest _ _ => true
  | _ => false
  end.

(** The result with which a wrapped execution ends. *)
Definition ending_result {V} (ending : Ending V) : Result V :=
  match ending with
  | Completes result => Ok result
  | Aborts e => Raise e
  end.

(** An artifact as the log pipeline receives it: body, attributes, context. *)
Definition Artifact : Type := string * gmap string AttrValue * Context.

Definition stdio_artifacts (tr : list Event) : list Artifact :=
  omap (fun e => match e with
                 | LoggerEmit r => Some (body r, attributes r, context r)
                 | _ => None
                 end) tr.

(** [c] returns normally and hands exactly the artifacts [arts] to the
    logger, in that order. *)
Definition emits {B} (c : M B unit) (arts : list Artifact) : Prop :=
  forall st, exists st',
    c st = (Ok tt, st') /\
    stdio_artifacts (trace st') = (stdio_artifacts (trace st) ++ arts)%list.

(** ** Reference definitions that follow the specification *)

(** The precedence of section 3: failed > error > skipped > passed. *)
Definition precedence (outcome : string) : nat :=
  if decide (outcome = "failed") then 3
  else if decide (outcome = "error") then 2
  else if decide (outcome = "skipped") then 1
  else 0.

(** The highest-precedence outcome among a test's phase reports. *)
Definition worst_outcome (reports : list TestReport) : string :=
  if existsb failed reports then "failed"
  else if existsb skipped reports then "skipped"
  else "passed".

(** The outcome resolved after a run of reports, from the outcome resolved
    before it. *)
Definition folded_outcome (current : string) (rs : list TestReport) : string :=
  if existsb failed rs then "failed"
  else if decide (current = "passed")
       then (if existsb skipped rs then "skipped" else "passed")
       else current.

(** A report as pytest builds it: [outcome] is one of "passed", "failed" and
    "skipped", and [failed] and [skipped] are the properties
    [outcome == "failed"] and [outcome == "skipped"] of the report. *)
Definition is_pytest_report (report : TestReport) : Prop :=
  (outcome report = "passed" \/ outcome report = "failed"
   \/ outcome report = "skipped") /\
  failed report = bool_decide (outcome report = "failed") /\
  skipped report = bool_decide (outcome report = "skipped").

(** A call report that is neither failed nor skipped carries the raw outcome
    ["passed"], as the reports of pytest itself do. *)
Definition plain_call_passed (report : TestReport) : Prop :=
  failed report = false -> skipped report = false ->
  when report = "call" -> outcome report = "passed".

(** The artifact for one optional text: the text cut to [cap] units, tagged
    with the stream, against the context [ctx]. *)
Definition stream_artifact (cap : nat) (stream : Z) (text : option string)
    (ctx : Context) : list Artifact :=
  match text with
  | Some s => [(slice_to cap s, stdio_attributes stream false, ctx)]
  | None => []
  end.

(** The artifacts that section 4.5 prescribes for a report that is eligible
    for capture, each against the context [ctx]. *)
Definition expected_artifacts (report : TestReport) (ctx : Context)
    : list Artifact :=
  (stream_artifact (N.to_nat 8192) STDIO_STREAM_STDOUT
     (truthy_text (capstdout report)) ctx ++
   stream_artifact (N.to_nat 8192) STDIO_STREAM_STDERR
     (truthy_text (capstderr report)) ctx ++
   stream_artifact (N.to_nat 16384) STDIO_STREAM_STDERR
     (if failed report then str <$> truthy_longrepr (longrepr report)
      else None) ctx)%list.

(** The local diagnostic that marks a capture without a span. *)
Definition no_span_diagnostic (item : Item) : Event :=
  Diag LDEBUG ("No active span for test " ++ nodeid item
               ++ ", logs may be misattributed").

(** The same report presented as a call-phase report. *)
Definition as_call_report (report : TestReport) : TestReport :=
  {| when := "call";
     outcome := outcome report;
     failed := failed report;
     skipped := skipped report;
     capstdout := capstdout report;
     capstderr := capstderr report;
     longrepr := longrepr report |}.

(** ** A concrete backend *)

(** Modelled from the spec: [pytest_otel/tracer.py] and
    [pytest_otel/config.py] are not among the sources.  Section 4.2 describes
    the span registry they keep ([register] at test start, [lookup] by
    identifier, [unregister] at test end) and section 7 the failure of an
    unavailable backend.  [backend_up] says whether spans can be started;
    [clock] is the wall clock in nanoseconds. *)
Record Registry := {
  backend_up : bool;
  spans : gmap string Span;
  clock : Z
}.

Definition registry_backend : Backend Registry :=
  {| tracer_start_test item b :=
       if backend_up b
       then (None,
             {| backend_up := backend_up b;
                spans := <[ nodeid item :=
                              {| span_name := nodeid item;
                                 is_recording := true |} ]> (spans b);
                clock := clock b |})
       else (Some "tracing backend unavailable", b);
     tracer_end_test item _ b :=
       (None, {| backend_up := backend_up b;
                 spans := delete (nodeid item) (spans b);
                 clock := clock b |});
     tracer_record_exception _ _ b := (None, b);
     tracer_get_test_span item b := (inr (spans b !! nodeid item), b);
     config_get_logger b := (None, b);
     logger_emit _ b := (None, b);
     time_ns b :=
       (clock b, {| backend_up := backend_up b;
                    spans := spans b;
                    clock := (clock b + 1)%Z |}) |}.

(** An enabled plugin over a fresh registry. *)
Definition enabled_state (up : bool) : State Registry :=
  {| _enabled := true;
     _test_outcomes := ∅;
     backend_state := {| backend_up := up; spans := ∅; clock := 0 |};
     trace := [] |}.

Definition plain_report (phase outcome : string) : TestReport :=
  {| when := phase;
     outcome := outcome;
     failed := bool_decide (outcome = "failed");
     skipped := bool_decide (outcome = "skipped");
     capstdout := None;
     capstderr := None;
     longrepr := None |}.

Definition plain_phase (phase outcome : string) : Phase :=
  {| phase_call := {| excinfo := None |};
     phase_report := plain_report phase outcome |}.

(** ** Further observations on the trace *)

(** The node ids of the calls to [tracer.start_test]. *)
Definition start_test_calls (tr : list Event) : list string :=
  omap (fun e => match e with
                 | StartTest n => Some n
                 | _ => None
                 end) tr.

(** The [(nodeid, exception)] arguments of the calls to
    [tracer.record_exception]. *)
Definition record_exception_calls (tr : list Event) : list (string * Exn) :=
  omap (fun e => match e with
                 | RecordException n x => Some (n, x)
                 | _ => None
                 end) tr.

(** The events that capturing a report's output can produce: local
    diagnostics and records for the logger. *)
Definition is_capture_event (e : Event) : bool :=
  match e with
  | Diag _ _ | LoggerEmit _ => true
  | _ => false
  end.

(** The events that the report hook can produce. *)
Definition is_report_event (e : Event) : bool :=
  match e with
  | Diag _ _ | LoggerEmit _ | RecordException _ _ => true
  | _ => false
  end.

(** The same state with another dictionary of tracked outcomes. *)
Definition with_test_outcomes {B} (st : State B) (m : gmap string string)
    : State B :=
  {| _enabled := _enabled st;
     _test_outcomes := m;
     backend_state := backend_state st;
     trace := trace st |}.

(** The exceptions that the report hook hands to [tracer.record_exception]
    over the phases of one test: those of the call phase. *)
Definition phase_exceptions (item : Item) (phases : list Phase)
    : list (string * Exn) :=
  flat_map
    (fun p => match excinfo (phase_call p) with
              | Some value =>
                  if bool_decide (when (phase_report p) = "call")
                  then [(nodeid item, value)] else []
              | None => []
              end) phases.

(** Whether an event hands a record to the logger. *)
Definition is_logger_emit (e : Event) : bool :=
  match e with
  | LoggerEmit _ => true
  | _ => false
  end.

(** ** plugin.py: configuration and session hooks *)

(** The collaborators of the configuration and session hooks:
    [otel_config.configure], [otel_config.shutdown], [tracer.start_session]
    and [tracer.end_session].  [Some msg] as a result means the call raised
    [Exception(msg)]; [S] is the type of pytest's session object. *)
Record SessionBackend (B S : Type) := {
  otel_config_configure : B -> option string * B;
  otel_config_shutdown : B -> option string * B;
  tracer_start_session : S -> B -> option string * B;
  tracer_end_session : Z -> B -> option string * B
}.
Arguments otel_config_configure {B S} _ _.
Arguments otel_config_shutdown {B S} _ _.
Arguments tracer_start_session {B S} _ _ _.
Arguments tracer_end_session {B S} _ _ _.

Definition set_enabled {B} (enabled : bool) : M B unit :=
  fun st =>
    (Ok tt, {| _enabled := enabled;
               _test_outcomes := _test_outcomes st;
               backend_state := backend_state st;
               trace := trace st |}).

Definition pytest_sessionstart {B S} (sb : SessionBackend B S) (session : S)
    : M B unit :=
  enabled <~ get_enabled ;;
  if negb enabled then ret tt
  else
    try_except
      (backend_call (tracer_start_session sb session) ;;;
       log_event (Diag LDEBUG "Started session span"))
      (fun e => log_event
         (Diag LWARNING ("Failed to start session span: " ++ exn_msg e))).

Definition pytest_sessionfinish {B S} (sb : SessionBackend B S) (session : S)
    (exitstatus : Z) : M B unit :=
  enabled <~ get_enabled ;;
  if negb enabled then ret tt
  else
    try_except
      (backend_call (tracer_end_session sb exitstatus) ;;;
       log_event (Diag LDEBUG ("Ended session span with exit status "
                               ++ pretty exitstatus)))
      (fun e => log_event
         (Diag LWARNING ("Failed to end session span: " ++ exn_msg e))).

(** The plugin module as a whole: the state of the per-test hooks, the
    global [_log_handler], and the handler list of the root logger.  Handler
    objects are identified by the order of their allocation; [next_object]
    is the identity that the next allocated object gets. *)
Record Plugin (B : Type) := {
  hooks : State B;
  _log_handler : option nat;
  root_handlers : list nat;
  next_object : nat
}.
Arguments hooks {B} _.
Arguments _log_handler {B} _.
Arguments root_handlers {B} _.
Arguments next_object {B} _.
Arguments Build_Plugin {B} _ _ _ _.

(** [list.remove(x)] for an [x] that is in the list: the first occurrence
    goes. *)
Fixpoint remove_first (x : nat) (l : list nat) : list nat :=
  match l with
  | [] => []
  | y :: l' => if decide (x = y) then l' else y :: remove_first x l'
  end.

(** [Logger.addHandler]: appends the handler unless it is already there. *)
Definition addHandler (hdlr : nat) (handlers : list nat) : list nat :=
  if decide (hdlr ∈ handlers) then handlers else (handlers ++ [hdlr])%list.

(** [Logger.removeHandler]: removes the handler if it is there. *)
Definition removeHandler (hdlr : nat) (handlers : list nat) : list nat :=
  if decide (hdlr ∈ handlers) then remove_first hdlr handlers else handlers.

Definition PM (B A : Type) : Type := Plugin B -> Result A * Plugin B.

Definition pret {B A} (a : A) : PM B A := fun p => (Ok a, p).

Definition pbind {B A C} (c : PM B A) (k : A -> PM B C) : PM B C :=
  fun p =>
    match c p with
    | (Ok a, p') => k a p'
    | (Raise e, p') => (Raise e, p')
    end.

Definition ptry_except {B A} (c : PM B A) (handler : Exn -> PM B A) : PM B A :=
  fun p =>
    match c p with
    | (Raise e, p') =>
        if exn_is_exception e then handler e p' else (Raise e, p')
    | r => r
    end.

(** A computation of the per-test hooks' monad, run on the plugin. *)
Definition plift {B A} (c : M B A) : PM B A :=
  fun p =>
    let (r, st) := c (hooks p) in
    (r, {| hooks := st;
           _log_handler := _log_handler p;
           root_handlers := root_handlers p;
           next_object := next_object p |}).

(** [OtelLogHandler()]: a new handler object. *)
Definition new_OtelLogHandler {B} : PM B nat :=
  fun p =>
    (Ok (next_object p),
     {| hooks := hooks p;
        _log_handler := _log_handler p;
        root_handlers := root_handlers p;
        next_object := S (next_object p) |}).

Definition set_log_handler {B} (h : option nat) : PM B unit :=
  fun p =>
    (Ok tt, {| hooks := hooks p;
               _log_handler := h;
               root_handlers := root_handlers p;
               next_object := next_object p |}).

Definition update_root_handlers {B} (f : list nat -> list nat) : PM B unit :=
  fun p =>
    (Ok tt, {| hooks := hooks p;
               _log_handler := _log_handler p;
               root_handlers := f (root_handlers p);
               next_object := next_object p |}).

Declare Scope plugin_scope.
Delimit Scope plugin_scope with plugin.
Notation "x <~ c ;; k" := (pbind c (fun x => k))
  (at level 100, c at next level, right associativity) : plugin_scope.
Notation "c ;;; k" := (pbind c (fun _ => k))
  (at level 100, right associativity) : plugin_scope.

Definition pytest_configure {B S} (sb : SessionBackend B S) (no_otel : bool)
    : PM B unit :=
  (if no_otel then
     plift (log_event
              (Diag LDEBUG "OpenTelemetry instrumentation disabled via --no-otel"))
   else
     ptry_except
       (plift (backend_call (otel_config_configure sb)) ;;;
        plift (set_enabled true) ;;;
        plift (log_event (Diag LDEBUG "OpenTelemetry instrumentation enabled")) ;;;
        handler <~ new_OtelLogHandler ;;
        set_log_handler (Some handler) ;;;
        update_root_handlers (addHandler handler))
       (fun e =>
          plift (log_event (Diag LWARNING ("Failed to initialize OpenTelemetry: "
                                           ++ exn_msg e))) ;;;
          plift (set_enabled false)))%plugin.

Definition pytest_unconfigure {B S} (sb : SessionBackend B S) : PM B unit :=
  (fun p =>
     if negb (_enabled (hooks p)) then pret tt p
     else
       ((match _log_handler p with
         | Some handler =>
             update_root_handlers (removeHandler handler) ;;;
             set_log_handler None
         | None => pret tt
         end) ;;;
        ptry_except
          (plift (backend_call (otel_config_shutdown sb)) ;;;
           plift (log_event
                    (Diag LDEBUG "OpenTelemetry instrumentation shut down")))
          (fun e =>
             plift (log_event (Diag LWARNING ("Error shutting down OpenTelemetry: "
                                              ++ exn_msg e)))) ;;;
        plift (set_enabled false)) p)%plugin.

(** The plugin module right after import. *)
Definition initial_plugin {B} (b : B) (handlers : list nat) (next : nat)
    : Plugin B :=
  {| hooks := initial_state b;
     _log_handler := None;
     root_handlers := handlers;
     next_object := next |}.

(** Modelled from the spec: [pytest_otel/config.py] and the session part of
    [pytest_otel/tracer.py] are not among the sources.  Section 7 has the
    telemetry backend fail as a whole when it is unavailable; here
    [configure] and [start_session] raise exactly when the registry's
    backend is down, and [shutdown] and [end_session] return. *)
Definition registry_session_backend : SessionBackend Registry string :=
  {| otel_config_configure b :=
       if backend_up b then (None, b)
       else (Some "telemetry backend unavailable", b);
     otel_config_shutdown b := (None, b);
     tracer_start_session _ b :=
       if backend_up b then (None, b)
       else (Some "telemetry backend unavailable", b);
     tracer_end_session _ b := (None, b) |}.

(** ** logging_handler.py: OtelLogHandler *)

Module Handler.

(** The exception of a log record's [exc_info]: [type(exc).__name__] and
    [str(exc)]. *)
Record PyException := { type_name : string; message : string }.

(** A [logging.LogRecord] as far as [emit] reads it.  [funcName] may be
    [None]; [exc_info] is [None], a tuple without an exception, or a tuple
    with one; [created_ns] stands for [int(record.created * 1e9)]. *)
Record LoggingRecord := {
  name : string;
  levelname : string;
  levelno : Z;
  pathname : string;
  lineno : Z;
  funcName : option string;
  exc_info : option (option PyException);
  created_ns : Z
}.

Inductive Value :=
| VStr (s : string)
| VInt (z : Z).

(** The SDK's [LogRecord] as [emit] builds it. *)
Record LogRecord := {
  timestamp : Z;
  observed_timestamp : Z;
  severity_text : string;
  severity_number : SeverityNumber.t;
  body : string;
  resource : option string;
  attributes : gmap string Value;
  context : Context
}.

(** What the handler hands to its collaborators, in chronological order;
    [L] is the type of logger objects. *)
Inductive Event (L : Type) :=
| AddEvent (span : Span) (event_name : string) (attributes : gmap string Value)
| GetLogger
| Emit (logger : L) (record : LogRecord)
| HandleError (record : LoggingRecord).
Arguments AddEvent {L} span event_name attributes.
Arguments GetLogger {L}.
Arguments Emit {L} logger record.
Arguments HandleError {L} record.

(** The collaborators of the handler, over their own state [B]:
    [self.format], [str.lower], [trace.get_current_span], [span.add_event],
    [get_logger], the logger's [resource] attribute and its [emit].  [inl msg]
    and [Some msg] mean that the call raised [Exception(msg)]. *)
Record Env (B L : Type) := {
  format : LoggingRecord -> B -> (string + string) * B;
  lower : string -> string;
  get_current_span : B -> Span * B;
  add_event : Span -> string -> gmap string Value -> B -> option string * B;
  get_logger : B -> (string + L) * B;
  logger_resource : L -> option string;
  logger_emit : L -> LogRecord -> B -> option string * B
}.
Arguments format {B L} _ _ _.
Arguments lower {B L} _ _.
Arguments get_current_span {B L} _ _.
Arguments add_event {B L} _ _ _ _ _.
Arguments get_logger {B L} _ _.
Arguments logger_resource {B L} _ _.
Arguments logger_emit {B L} _ _ _ _.

(** The handler object and its surroundings: the level it was created with,
    the cached [_otel_logger], the collaborators' state and the trace. *)
Record State (B L : Type) := {
  level : Z;
  _otel_logger : option L;
  env_state : B;
  events : list (Event L)
}.
Arguments level {B L} _.
Arguments _otel_logger {B L} _.
Arguments env_state {B L} _.
Arguments events {B L} _.
Arguments Build_State {B L} _ _ _ _.

(** [logging.NOTSET] *)
Definition NOTSET : Z := 0.

(** [OtelLogHandler(level)] *)
Definition __init__ {B L} (level : Z) (b : B) : State B L :=
  {| level := level; _otel_logger := None; env_state := b; events := [] |}.

(** Lines 79-96: the attributes built from the log record. *)
Definition build_attributes (record : LoggingRecord) (msg : string)
    : gmap string Value :=
  let attributes : gmap string Value :=
    <[ "log.message" := VStr msg ]>
      (<[ "log.level" := VStr (levelname record) ]>
         {[ "log.logger" := VStr (name record) ]}) in
  let attributes :=
    if decide (pathname record = "") then attributes
    else <[ "code.filepath" := VStr (pathname record) ]> attributes in
  let attributes :=
    if decide (lineno record = 0%Z) then attributes
    else <[ "code.lineno" := VInt (lineno record) ]> attributes in
  let attributes :=
    match funcName record with
    | Some f => if decide (f = "") then attributes
                else <[ "code.function" := VStr f ]> attributes
    | None => attributes
    end in
  match exc_info record with
  | Some (Some exc) =>
      <[ "exception.message" := VStr (message exc) ]>
        (<[ "exception.type" := VStr (type_name exc) ]> attributes)
  | _ => attributes
  end.

Definition log_record (record : LoggingRecord) (msg : string)
    (attributes : gmap string Value) (resource : option string) : LogRecord :=
  {| timestamp := created_ns record;
     observed_timestamp := created_ns record;
     severity_text := levelname record;
     severity_number := _get_severity (levelno record);
     body := msg;
     resource := resource;
     attributes := attributes;
     context := context_get_current |}.

Definition with_env {B L} (h : State B L) (b : B) (evs : list (Event L))
    : State B L :=
  {| level := level h;
     _otel_logger := _otel_logger h;
     env_state := b;
     events := (events h ++ evs)%list |}.

(** [self.handleError(record)] *)
Definition handleError {B L} (record : LoggingRecord) (h : State B L)
    : State B L :=
  with_env h (env_state h) [HandleError record].

(** Lines 105-123: the inner [try]; every exception in it is passed over. *)
Definition emit_to_pipeline {B L} (env : Env B L) (record : LoggingRecord)
    (msg : string) (attributes : gmap string Value) (h : State B L)
    : State B L :=
  let send (logger : L) (h : State B L) : State B L :=
    let r := log_record record msg attributes (logger_resource env logger) in
    let (_, b) := logger_emit env logger r (env_state h) in
    with_env h b [Emit logger r] in
  match _otel_logger h with
  | Some logger => send logger h
  | None =>
      match get_logger env (env_state h) with
      | (inr logger, b) =>
          send logger {| level := level h;
                         _otel_logger := Some logger;
                         env_state := b;
                         events := (events h ++ [GetLogger])%list |}
      | (inl _, b) => with_env h b [GetLogger]
      end
  end.

(** [OtelLogHandler.emit] *)
Definition emit {B L} (env : Env B L) (record : LoggingRecord)
    (h : State B L) : State B L :=
  match format env record (env_state h) with
  | (inl _, b) => handleError record (with_env h b [])
  | (inr msg, b) =>
      let attributes := build_attributes record msg in
      let (span, b) := get_current_span env b in
      if is_recording span then
        let event_name := "log." ++ lower env (levelname record) in
        match add_event env span event_name attributes b with
        | (Some _, b) =>
            handleError record
              (with_env h b [AddEvent span event_name attributes])
        | (None, b) =>
            emit_to_pipeline env record msg attributes
              (with_env h b [AddEvent span event_name attributes])
        end
      else emit_to_pipeline env record msg attributes (with_env h b [])
  end.

(** The handler's life: [emit] for each record in turn. *)
Definition emit_all {B L} (env : Env B L) (records : list LoggingRecord)
    (h : State B L) : State B L :=
  fold_left (fun h record => emit env record h) records h.

(** The records that reached the log pipeline. *)
Definition emitted {L} (evs : list (Event L)) : list LogRecord :=
  omap (fun e => match e with
                 | Emit _ r => Some r
                 | _ => None
                 end) evs.

(** The span events that were added. *)
Definition span_events {L} (evs : list (Event L))
    : list (Span * string * gmap string Value) :=
  omap (fun e => match e with
                 | AddEvent sp n a => Some (sp, n, a)
                 | _ => None
                 end) evs.

(** How often [get_logger] was called. *)
Definition get_logger_calls {L} (evs : list (Event L)) : nat :=
  length (omap (fun e => match e with
                         | GetLogger => Some tt
                         | _ => None
                         end) evs).

(** The records for which [handleError] was called. *)
Definition handled_errors {L} (evs : list (Event L)) : list LoggingRecord :=
  omap (fun e => match e with
                 | HandleError r => Some r
                 | _ => None
                 end) evs.

End Handler.

(** A concrete environment for the handler: formatting gives the logger
    name, a colon and the level name; the current span is a recording one;
    the log pipeline is available exactly when the state says so. *)
Definition ascii_lower (c : Ascii.ascii) : Ascii.ascii :=
  let n := Ascii.nat_of_ascii c in
  if (65 <=? n)%nat && (n <=? 90)%nat then Ascii.ascii_of_nat (n + 32) else c.

Fixpoint str_lower (s : string) : string :=
  match s with
  | EmptyString => EmptyString
  | String c s' => String (ascii_lower c) (str_lower s')
  end.

Definition example_env : Handler.Env bool string :=
  {| Handler.format := fun (r : Handler.LoggingRecord) (b : bool) =>
       (inr (Handler.name r ++ ":" ++ Handler.levelname r), b);
     Handler.lower := str_lower;
     Handler.get_current_span := fun b : bool =>
       ({| span_name := "test"; is_recording := true |}, b);
     Handler.add_event := fun _ _ _ (b : bool) => (None, b);
     Handler.get_logger := fun b : bool =>
       if b then (inr "otel", b) else (inl "no logger provider", b);
     Handler.logger_resource := fun _ => None;
     Handler.logger_emit := fun _ _ (b : bool) => (None, b) |}.

Definition example_record : Handler.LoggingRecord :=
  {| Handler.name := "app.db";
     Handler.levelname := "WARNING";
     Handler.levelno := 30;
     Handler.pathname := "/src/db.py";
     Handler.lineno := 42;
     Handler.funcName := Some "connect";
     Handler.exc_info := None;
     Handler.created_ns := 1700000000000000000 |}.

(** logging_handler.py, lines 35-41: the table from Python logging levels to
    OpenTelemetry severities. *)
Definition _SEVERITY_MAP : gmap Z SeverityNumber.t :=
  <[ logging.CRITICAL := SeverityNumber.FATAL ]>
    (<[ logging.ERROR := SeverityNumber.ERROR ]>
       (<[ logging.WARNING := SeverityNumber.WARN ]>
          (<[ logging.INFO := SeverityNumber.INFO ]>
             {[ logging.DEBUG := SeverityNumber.DEBUG ]}))).

(** * Verification *)

(** ** Severity mapping *)

Lemma _get_severity_cases (level : Z) :
  ((level < 20)%Z /\ _get_severity level = SeverityNumber.DEBUG) \/
  ((20 <= level < 30)%Z /\ _get_severity level = SeverityNumber.INFO) \/
  ((30 <= level < 40)%Z /\ _get_severity level = SeverityNumber.WARN) \/
  ((40 <= level < 50)%Z /\ _get_severity level = SeverityNumber.ERROR) \/
  ((50 <= level)%Z /\ _get_severity level = SeverityNumber.FATAL).
Proof.
  unfold _get_severity, logging.CRITICAL, logging.ERROR, logging.WARNING,
    logging.INFO.
  repeat match goal with
         | |- context [(?a >=? ?b)%Z] =>
             let H := fresh "H" in destruct (Z.geb_spec a b) as [H | H]
         end; intuition lia.
Qed.

(** C7. [_get_severity] is defined on every integer level, is monotone (a
    higher level never gets a lower severity number), sends a level at or
    above a named threshold to that threshold's tier along the ladder
    DEBUG < INFO < WARN < ERROR < FATAL, and sends every level below the
    lowest named threshold to DEBUG, the lowest severity. *)
Theorem C7_get_severity_total_monotone :
  (forall level : Z, exists s, _get_severity level = s) /\
  (forall l1 l2 : Z, (l1 <= l2)%Z ->
     (SeverityNumber.value (_get_severity l1)
      <= SeverityNumber.value (_get_severity l2))%Z) /\
  (forall level : Z,
     ((logging.CRITICAL <= level)%Z ->
        _get_severity level = SeverityNumber.FATAL) /\
     ((logging.ERROR <= level < logging.CRITICAL)%Z ->
        _get_severity level = SeverityNumber.ERROR) /\
     ((logging.WARNING <= level < logging.ERROR)%Z ->
        _get_severity level = SeverityNumber.WARN) /\
     ((logging.INFO <= level < logging.WARNING)%Z ->
        _get_severity level = SeverityNumber.INFO) /\
     ((logging.DEBUG <= level < logging.INFO)%Z ->
        _get_severity level = SeverityNumber.DEBUG) /\
     ((level < logging.DEBUG)%Z ->
        _get_severity level = SeverityNumber.DEBUG)) /\
  (SeverityNumber.value SeverityNumber.DEBUG
   < SeverityNumber.value SeverityNumber.INFO
   < SeverityNumber.value SeverityNumber.WARN)%Z /\
  (SeverityNumber.value SeverityNumber.WARN
   < SeverityNumber.value SeverityNumber.ERROR
   < SeverityNumber.value SeverityNumber.FATAL)%Z.
Proof.
  split; [ intros level; eexists; reflexivity | ].
  split.
  { intros l1 l2 Hle.
    destruct (_get_severity_cases l1) as [[? ->] | [[? ->] | [[? ->] | [[? ->] | [? ->]]]]];
    destruct (_get_severity_cases l2) as [[? ->] | [[? ->] | [[? ->] | [[? ->] | [? ->]]]]];
    cbn; lia. }
  split.
  { intros level.
    unfold logging.CRITICAL, logging.ERROR, logging.WARNING, logging.INFO,
      logging.DEBUG.
    destruct (_get_severity_cases level) as [[? ->] | [[? ->] | [[? ->] | [[? ->] | [? ->]]]]];
    repeat split; intros; solve [ reflexivity | lia ]. }
  cbn; lia.
Qed.

(** Witness for C7 at the levels 25 and 45. *)
Lemma C7_get_severity_witness :
  (25 <= 45)%Z /\
  (SeverityNumber.value (_get_severity 25)
   <= SeverityNumber.value (_get_severity 45))%Z.
Proof.
  split; [ lia | ].
  apply (proj1 (proj2 C7_get_severity_total_monotone) 25%Z 45%Z). lia.
Defined.

(** ** Slicing *)

Lemma slice_to_length (n : nat) (s : string) :
  String.length (slice_to n s) = Nat.min n (String.length s).
Proof.
  revert s; induction n as [| n IH]; intros [| c s]; cbn; auto.
Qed.

Lemma slice_to_short (n : nat) (s : string) :
  String.length s <= n -> slice_to n s = s.
Proof.
  revert s; induction n as [| n IH]; intros [| c s]; cbn; intros Hlen;
    try reflexivity; try lia.
  f_equal. apply IH. lia.
Qed.

Lemma slice_to_prefix (n : nat) (s : string) :
  exists rest, s = slice_to n s ++ rest.
Proof.
  revert s; induction n as [| n IH]; intros s.
  - exists s. destruct s; reflexivity.
  - destruct s as [| c s].
    + exists "". reflexivity.
    + destruct (IH s) as [rest Hrest]. exists rest.
      change (String c s = String c (slice_to n s ++ rest)).
      f_equal. exact Hrest.
Qed.

(** ** What a hook leaves alone *)

Local Open Scope list_scope.

Section Frames.
Context {B : Type}.

Lemma keeps_ret {A} (a : A) : keeps_globals (ret (B:=B) a).
Proof. intros st; cbn; auto. Qed.

Lemma keeps_raise {A} (e : Exn) : keeps_globals (raise (B:=B) (A:=A) e).
Proof. intros st; cbn; auto. Qed.

Lemma keeps_bind {A C} (c : M B A) (k : A -> M B C) :
  keeps_globals c -> (forall a, keeps_globals (k a)) -> keeps_globals (bind c k).
Proof.
  intros Hc Hk st. unfold bind.
  specialize (Hc st). destruct (c st) as [[a | e] st']; cbn in *.
  - destruct Hc as [Hc1 Hc2], (Hk a st') as [H1 H2]. split; congruence.
  - exact Hc.
Qed.

Lemma keeps_try_except {A} (c : M B A) (h : Exn -> M B A) :
  keeps_globals c -> (forall e, keeps_globals (h e)) ->
  keeps_globals (try_except c h).
Proof.
  intros Hc Hh st. unfold try_except.
  specialize (Hc st). destruct (c st) as [[a | e] st']; cbn in *.
  - exact Hc.
  - destruct (exn_is_exception e); cbn; [ | exact Hc ].
    destruct Hc as [Hc1 Hc2], (Hh e st') as [H1 H2]. split; congruence.
Qed.

Lemma keeps_attempt {A} (c : M B A) : keeps_globals c -> keeps_globals (attempt c).
Proof.
  intros Hc st. unfold attempt. specialize (Hc st).
  destruct (c st) as [r st']; cbn in *. exact Hc.
Qed.

Lemma keeps_resume {A} (r : Result A) : keeps_globals (resume (B:=B) r).
Proof. destruct r; intros st; cbn; auto. Qed.

Lemma keeps_log_event (e : Event) : keeps_globals (log_event (B:=B) e).
Proof. intros st; cbn; auto. Qed.

Lemma keeps_get_enabled : keeps_globals (get_enabled (B:=B)).
Proof. intros st; cbn; auto. Qed.

Lemma keeps_get_test_outcomes : keeps_globals (get_test_outcomes (B:=B)).
Proof. intros st; cbn; auto. Qed.

Lemma keeps_backend_call (op : B -> option string * B) :
  keeps_globals (backend_call op).
Proof.
  intros st. unfold backend_call.
  destruct (op (backend_state st)) as [[msg |] b']; cbn; auto.
Qed.

Lemma keeps_backend_query {A} (op : B -> (string + A) * B) :
  keeps_globals (backend_query op).
Proof.
  intros st. unfold backend_query.
  destruct (op (backend_state st)) as [[msg | a] b']; cbn; auto.
Qed.

Lemma keeps_backend_read {A} (op : B -> A * B) :
  keeps_globals (backend_read op).
Proof.
  intros st. unfold backend_read.
  destruct (op (backend_state st)) as [a b']; cbn; auto.
Qed.

Lemma adds_ret {A} P (a : A) : adds P (ret (B:=B) a).
Proof. intros st. exists []. cbn. rewrite app_nil_r. auto. Qed.

Lemma adds_raise {A} P (e : Exn) : adds P (raise (B:=B) (A:=A) e).
Proof. intros st. exists []. cbn. rewrite app_nil_r. auto. Qed.

Lemma adds_bind {A C} P (c : M B A) (k : A -> M B C) :
  adds P c -> (forall a, adds P (k a)) -> adds P (bind c k).
Proof.
  intros Hc Hk st. unfold bind.
  destruct (Hc st) as (evs & Htr & Hall).
  destruct (c st) as [[a | e] st']; cbn in *.
  - destruct (Hk a st') as (evs' & Htr' & Hall').
    exists (evs ++ evs'). rewrite Htr', Htr, app_assoc. split; [ reflexivity | ].
    apply Forall_app; auto.
  - exists evs. auto.
Qed.

Lemma adds_try_except {A} P (c : M B A) (h : Exn -> M B A) :
  adds P c -> (forall e, adds P (h e)) -> adds P (try_except c h).
Proof.
  intros Hc Hh st. unfold try_except.
  destruct (Hc st) as (evs & Htr & Hall).
  destruct (c st) as [[a | e] st']; cbn in *.
  - exists evs. auto.
  - destruct (exn_is_exception e); cbn; [ | exists evs; auto ].
    destruct (Hh e st') as (evs' & Htr' & Hall').
    exists (evs ++ evs'). rewrite Htr', Htr, app_assoc. split; [ reflexivity | ].
    apply Forall_app; auto.
Qed.

Lemma adds_attempt {A} P (c : M B A) : adds P c -> adds P (attempt c).
Proof.
  intros Hc st. unfold attempt. specialize (Hc st).
  destruct (c st) as [r st']; cbn in *. exact Hc.
Qed.

Lemma adds_resume {A} P (r : Result A) : adds P (resume (B:=B) r).
Proof. destruct r; [ apply adds_ret | apply adds_raise ]. Qed.

Lemma adds_log_event (P : Event -> Prop) (e : Event) :
  P e -> adds P (log_event (B:=B) e).
Proof. intros He st. exists [e]. cbn. auto. Qed.

Lemma adds_get_enabled P : adds P (get_enabled (B:=B)).
Proof. intros st. exists []. cbn. rewrite app_nil_r. auto. Qed.

Lemma adds_get_test_outcomes P : adds P (get_test_outcomes (B:=B)).
Proof. intros st. exists []. cbn. rewrite app_nil_r. auto. Qed.

Lemma adds_set_test_outcomes P m : adds P (set_test_outcomes (B:=B) m).
Proof. intros st. exists []. cbn. rewrite app_nil_r. auto. Qed.

Lemma adds_backend_call P (op : B -> option string * B) :
  adds P (backend_call op).
Proof.
  intros st. exists []. unfold backend_call.
  destruct (op (backend_state st)) as [[msg |] b']; cbn;
    rewrite app_nil_r; auto.
Qed.

Lemma adds_backend_query {A} P (op : B -> (string + A) * B) :
  adds P (backend_query op).
Proof.
  intros st. exists []. unfold backend_query.
  destruct (op (backend_state st)) as [[msg | a] b']; cbn;
    rewrite app_nil_r; auto.
Qed.

Lemma adds_backend_read {A} P (op : B -> A * B) :
  adds P (backend_read op).
Proof.
  intros st. exists []. unfold backend_read.
  destruct (op (backend_state st)) as [a b']; cbn; rewrite app_nil_r; auto.
Qed.

End Frames.

Create HintDb hooks.
#[export] Hint Resolve keeps_ret keeps_raise keeps_bind keeps_try_except
  keeps_attempt keeps_resume keeps_log_event keeps_get_enabled
  keeps_get_test_outcomes keeps_backend_call keeps_backend_query
  keeps_backend_read : hooks.
#[export] Hint Resolve adds_ret adds_raise adds_bind adds_try_except
  adds_attempt adds_resume adds_log_event adds_get_enabled
  adds_get_test_outcomes adds_set_test_outcomes adds_backend_call
  adds_backend_query adds_backend_read : hooks.

Lemma bind_run {B A C} (c : M B A) (k : A -> M B C) (st : State B) :
  bind c k st =
  match c st with
  | (Ok a, st') => k a st'
  | (Raise e, st') => (Raise e, st')
  end.
Proof. reflexivity. Qed.

Ltac frame_hooks :=
  repeat first
    [ progress eauto with hooks
    | apply keeps_bind | apply keeps_try_except
    | apply adds_bind | apply adds_try_except
    | intros ? ].

(** ** The outcome tracker *)

Section Tracker.
Context {B : Type} (backend : Backend B).

Lemma emit_stdio_log_keeps body stream span eof :
  keeps_globals (emit_stdio_log backend body stream span eof).
Proof. unfold emit_stdio_log. frame_hooks. Qed.

Lemma _capture_test_output_keeps item report :
  keeps_globals (_capture_test_output backend item report).
Proof.
  unfold _capture_test_output.
  destruct (negb (bool_decide (when report = "call")) && negb (failed report));
    [ apply keeps_ret | ].
  apply keeps_bind; [ apply keeps_backend_query | intros test_span ].
  apply keeps_bind; [ destruct test_span; frame_hooks | intros _ ].
  apply keeps_bind;
    [ destruct (truthy_text (capstdout report));
      [ apply emit_stdio_log_keeps | apply keeps_ret ] | intros _ ].
  apply keeps_bind;
    [ destruct (truthy_text (capstderr report));
      [ apply emit_stdio_log_keeps | apply keeps_ret ] | intros _ ].
  destruct (if failed report then truthy_longrepr (longrepr report) else None);
    [ apply emit_stdio_log_keeps | apply keeps_ret ].
Qed.

(** The hook's whole effect on the two module globals. *)
Lemma pytest_runtest_makereport_globals item call report st :
  let st' := snd (pytest_runtest_makereport backend item call report st) in
  _enabled st' = _enabled st /\
  _test_outcomes st' =
    if _enabled st
    then track_outcome (nodeid item) report (_test_outcomes st)
    else _test_outcomes st.
Proof.
  unfold pytest_runtest_makereport.
  rewrite bind_run. cbn [get_enabled].
  destruct (_enabled st) eqn:Hen; cbn [negb]; [ | cbn; auto ].
  rewrite bind_run. cbn [get_test_outcomes].
  rewrite bind_run. cbn [set_test_outcomes].
  match goal with
  | |- context [ bind ?c ?k ?s ] =>
      assert (Hk : keeps_globals (bind c k)); [ | destruct (Hk s) as [H1 H2] ]
  end.
  { apply keeps_bind.
    - destruct (excinfo call); [ | apply keeps_ret ].
      destruct (bool_decide (when report = "call")); frame_hooks.
    - intros _. apply keeps_bind; [ | frame_hooks ].
      apply keeps_try_except;
        [ apply _capture_test_output_keeps | frame_hooks ]. }
  cbn zeta. rewrite H1, H2. cbn. rewrite Hen. auto.
Qed.

End Tracker.

(** ** Hooks that cannot raise *)

Section Returns.
Context {B : Type}.

Lemma returns_catchable {A} Q (c : M B A) : returns Q c -> catchable c.
Proof.
  intros Hc st e He. destruct (Hc st) as (a & Ha & _). congruence.
Qed.

Lemma returns_ret {A} (Q : A -> Prop) (a : A) : Q a -> returns Q (ret (B:=B) a).
Proof. intros Ha st. exists a. auto. Qed.

Lemma returns_bind {A C} P (Q : C -> Prop) (c : M B A) (k : A -> M B C) :
  returns P c -> (forall a, returns Q (k a)) -> returns Q (bind c k).
Proof.
  intros Hc Hk st. rewrite bind_run.
  destruct (Hc st) as (a & Ha & _).
  destruct (c st) as [[a' | e] st']; cbn in Ha; [ | discriminate ].
  apply Hk.
Qed.

Lemma returns_try_except {A} (Q : A -> Prop) (c : M B A) (h : Exn -> M B A) :
  catchable c ->
  (forall st a, fst (c st) = Ok a -> Q a) ->
  (forall e, returns Q (h e)) ->
  returns Q (try_except c h).
Proof.
  intros Hc Hok Hh st. unfold try_except.
  specialize (Hc st). specialize (Hok st).
  destruct (c st) as [[a | e] st']; cbn in *.
  - exists a. auto.
  - rewrite (Hc e eq_refl). apply Hh.
Qed.

Lemma returns_log_event (e : Event) :
  returns (fun _ => True) (log_event (B:=B) e).
Proof. intros st. exists tt. auto. Qed.

Lemma catchable_ret {A} (a : A) : catchable (ret (B:=B) a).
Proof. intros st e; cbn; discriminate. Qed.

Lemma catchable_log_event (e : Event) : catchable (log_event (B:=B) e).
Proof. intros st e'; cbn; discriminate. Qed.

Lemma catchable_bind {A C} (c : M B A) (k : A -> M B C) :
  catchable c -> (forall a, catchable (k a)) -> catchable (bind c k).
Proof.
  intros Hc Hk st e. rewrite bind_run. specialize (Hc st).
  destruct (c st) as [[a | e'] st']; cbn in *.
  - apply Hk.
  - intros [= <-]. auto.
Qed.

Lemma catchable_try_except {A} (c : M B A) (h : Exn -> M B A) :
  catchable c -> (forall e, catchable (h e)) -> catchable (try_except c h).
Proof.
  intros Hc Hh st e. unfold try_except. specialize (Hc st).
  destruct (c st) as [[a | e'] st']; cbn in *; [ discriminate | ].
  rewrite (Hc e' eq_refl). apply Hh.
Qed.

Lemma catchable_backend_call (op : B -> option string * B) :
  catchable (backend_call op).
Proof.
  intros st e. unfold backend_call.
  destruct (op (backend_state st)) as [[msg |] b']; cbn;
    [ intros [= <-]; reflexivity | discriminate ].
Qed.

Lemma catchable_backend_query {A} (op : B -> (string + A) * B) :
  catchable (backend_query op).
Proof.
  intros st e. unfold backend_query.
  destruct (op (backend_state st)) as [[msg | a] b']; cbn;
    [ intros [= <-]; reflexivity | discriminate ].
Qed.

Lemma catchable_backend_read {A} (op : B -> A * B) :
  catchable (backend_read op).
Proof.
  intros st e. unfold backend_read.
  destruct (op (backend_state st)) as [a b']; cbn; discriminate.
Qed.

End Returns.

#[export] Hint Resolve catchable_ret catchable_log_event catchable_bind
  catchable_try_except catchable_backend_call catchable_backend_query
  catchable_backend_read : hooks.

Ltac catch_hooks :=
  repeat first
    [ progress eauto with hooks
    | apply catchable_bind | apply catchable_try_except
    | intros ? ].

Section Capture.
Context {B : Type} (backend : Backend B).

Lemma emit_stdio_log_catchable body stream span eof :
  catchable (emit_stdio_log backend body stream span eof).
Proof. unfold emit_stdio_log. catch_hooks. Qed.

Lemma _capture_test_output_catchable item report :
  catchable (_capture_test_output backend item report).
Proof.
  unfold _capture_test_output.
  destruct (negb (bool_decide (when report = "call")) && negb (failed report));
    [ apply catchable_ret | ].
  apply catchable_bind; [ apply catchable_backend_query | intros test_span ].
  apply catchable_bind; [ destruct test_span; catch_hooks | intros _ ].
  apply catchable_bind;
    [ destruct (truthy_text (capstdout report));
      [ apply emit_stdio_log_catchable | apply catchable_ret ] | intros _ ].
  apply catchable_bind;
    [ destruct (truthy_text (capstderr report));
      [ apply emit_stdio_log_catchable | apply catchable_ret ] | intros _ ].
  destruct (if failed report then truthy_longrepr (longrepr report) else None);
    [ apply emit_stdio_log_catchable | apply catchable_ret ].
Qed.

(** The report hook never raises: whatever the backend does, the runner gets
    its report back. *)
Lemma pytest_runtest_makereport_returns item call report :
  returns (fun r => r = report)
    (pytest_runtest_makereport backend item call report).
Proof.
  intros st. unfold pytest_runtest_makereport.
  rewrite bind_run. cbn [get_enabled].
  destruct (_enabled st); cbn [negb]; [ | exists report; auto ].
  rewrite bind_run. cbn [get_test_outcomes].
  rewrite bind_run. cbn [set_test_outcomes].
  match goal with
  | |- context [ bind ?c ?k ?s ] =>
      assert (Hk : returns (fun r => r = report) (bind c k)); [ | apply Hk ]
  end.
  apply returns_bind with (P := fun _ => True).
  - destruct (excinfo call); [ | apply returns_ret; exact I ].
    destruct (bool_decide (when report = "call"));
      [ | apply returns_ret; exact I ].
    apply returns_try_except; [ catch_hooks | auto | ].
    intros e0. apply returns_log_event.
  - intros _. apply returns_bind with (P := fun _ => True).
    + apply returns_try_except;
        [ apply _capture_test_output_catchable | auto | ].
      intros e. apply returns_log_event.
    + intros _. apply returns_ret. reflexivity.
Qed.

End Capture.

(** ** The outcome tracker: precedence, order, isolation *)

Section TrackOutcome.
Implicit Types (m : gmap string string) (r : TestReport) (id : string).

Lemma dict_get_insert {V} (d : gmap string V) k v default :
  dict_get (<[ k := v ]> d) k default = v.
Proof. unfold dict_get. by rewrite lookup_insert_eq. Qed.

Lemma dict_get_pop {V} (d : gmap string V) k default :
  dict_get (dict_pop d k) k default = default.
Proof. unfold dict_get, dict_pop. by rewrite lookup_delete_eq. Qed.

Lemma track_outcome_other id id' r m :
  id <> id' -> track_outcome id r m !! id' = m !! id'.
Proof.
  intros Hne. unfold track_outcome.
  repeat match goal with
         | |- context [ if ?b then _ else _ ] => destruct b
         end; rewrite ?lookup_insert_ne by done; reflexivity.
Qed.

(** The five cases of one update, by what the report says and what is
    tracked so far. *)
Lemma track_outcome_cases id r m :
  let current := dict_get m id "passed" in
  (failed r = true -> track_outcome id r m = <[ id := "failed" ]> m) /\
  (failed r = false -> skipped r = true -> current = "passed" ->
     track_outcome id r m = <[ id := "skipped" ]> m) /\
  (failed r = false -> skipped r = false -> when r = "call" ->
     current = "passed" ->
     track_outcome id r m = <[ id := outcome r ]> m) /\
  (failed r = false -> current <> "passed" -> track_outcome id r m = m) /\
  (failed r = false -> skipped r = false -> when r <> "call" ->
     track_outcome id r m = m).
Proof.
  cbn zeta. unfold track_outcome.
  repeat split; intros;
    repeat match goal with
           | H : _ = true |- _ => rewrite H
           | H : _ = false |- _ => rewrite H
           end; cbn [andb];
    repeat case_bool_decide; cbn [andb]; try reflexivity; try congruence;
    destruct (skipped r); cbn [andb]; try reflexivity; congruence.
Qed.

Lemma precedence_le_failed (o : string) : precedence o <= precedence "failed".
Proof.
  unfold precedence. repeat case_decide; try congruence; cbn; lia.
Qed.

Lemma precedence_passed : precedence "passed" = 0.
Proof. reflexivity. Qed.

Lemma track_outcome_monotone id r m :
  precedence (dict_get m id "passed")
  <= precedence (dict_get (track_outcome id r m) id "passed").
Proof.
  unfold track_outcome.
  destruct (failed r).
  { rewrite dict_get_insert. apply precedence_le_failed. }
  destruct (skipped r && bool_decide (dict_get m id "passed" = "passed")) eqn:Hs.
  { apply andb_true_iff in Hs as [_ Hc]. apply bool_decide_eq_true in Hc.
    rewrite Hc, precedence_passed. lia. }
  destruct (bool_decide (when r = "call")
            && bool_decide (dict_get m id "passed" = "passed")) eqn:Hc.
  { apply andb_true_iff in Hc as [_ Hc]. apply bool_decide_eq_true in Hc.
    rewrite Hc, precedence_passed. lia. }
  reflexivity.
Qed.

Lemma track_outcome_fold id (rs : list TestReport) m :
  Forall plain_call_passed rs ->
  dict_get (fold_left (fun m r => track_outcome id r m) rs m) id "passed"
  = folded_outcome (dict_get m id "passed") rs.
Proof.
  intros Hrs. revert m.
  induction Hrs as [| r rs Hr Hrs IH]; intros m.
  { cbn. unfold folded_outcome. cbn. case_decide; congruence. }
  cbn [fold_left]. rewrite IH. clear IH.
  destruct (track_outcome_cases id r m) as (Hf & Hsk & Hcall & Hkeep & Hside).
  unfold folded_outcome. cbn [existsb].
  destruct (failed r) eqn:Ef.
  { rewrite Hf by done. rewrite dict_get_insert. cbn [orb].
    destruct (existsb failed rs); [ done | ]. by rewrite decide_False. }
  cbn [orb]. destruct (existsb failed rs); [ done | ].
  destruct (decide (dict_get m id "passed" = "passed")) as [Hcur | Hcur].
  - destruct (skipped r) eqn:Es.
    + rewrite Hsk by done. rewrite dict_get_insert. cbn [orb].
      by rewrite decide_False.
    + cbn [orb]. destruct (decide (when r = "call")) as [Hw | Hw].
      * rewrite Hcall by done. rewrite dict_get_insert.
        rewrite (Hr Ef Es Hw). by rewrite decide_True.
      * rewrite Hside by done. by rewrite decide_True.
  - rewrite Hkeep by done. by rewrite decide_False.
Qed.

Lemma existsb_Permutation {A} (f : A -> bool) (l l' : list A) :
  l ≡ₚ l' -> existsb f l = existsb f l'.
Proof.
  induction 1 as [| x l l' _ IH | x y l | l1 l2 l3 _ IH1 _ IH2]; cbn.
  - reflexivity.
  - by rewrite IH.
  - destruct (f x), (f y); reflexivity.
  - congruence.
Qed.

Lemma worst_outcome_Permutation (rs rs' : list TestReport) :
  rs ≡ₚ rs' -> worst_outcome rs = worst_outcome rs'.
Proof.
  intros Hp. unfold worst_outcome.
  by rewrite (existsb_Permutation failed _ _ Hp),
             (existsb_Permutation skipped _ _ Hp).
Qed.

End TrackOutcome.

Section Recording.
Context {B : Type} (backend : Backend B).

Lemma record_reports_globals item (phases : list Phase) (st : State B) :
  _enabled st = true ->
  _enabled (record_reports backend item phases st) = true /\
  _test_outcomes (record_reports backend item phases st)
  = fold_left (fun m r => track_outcome (nodeid item) r m)
      (map phase_report phases) (_test_outcomes st).
Proof.
  revert st. induction phases as [| p phases IH]; intros st Hen; [ by cbn | ].
  cbn [record_reports fold_left map].
  destruct (pytest_runtest_makereport_globals backend item (phase_call p)
              (phase_report p) st) as [H1 H2].
  cbn zeta in H1, H2. rewrite Hen in H1, H2.
  destruct (IH _ H1) as [IH1 IH2]. unfold record_reports in IH1, IH2.
  rewrite IH1, IH2, H2. done.
Qed.

End Recording.

Section TrackerClaims.
Context {B : Type} (backend : Backend B).

(** C1. With the plugin enabled, one call of the report hook updates the
    tracked outcome of the test by the precedence rule: a failed report sets
    "failed" whatever was tracked; otherwise a skipped report sets "skipped"
    when "passed" is still tracked; otherwise a call report adopts the
    report's raw outcome when "passed" is still tracked; in every other case
    nothing changes, so a setup or teardown report that is neither failed nor
    skipped leaves a "passed" default as it is. *)
Theorem C1_record_precedence (item : Item) (call : CallInfo)
    (report : TestReport) (st : State B) :
  _enabled st = true ->
  let st' := snd (pytest_runtest_makereport backend item call report st) in
  (failed report = true ->
     _test_outcomes st' = <[ nodeid item := "failed" ]> (_test_outcomes st)) /\
  (failed report = false -> skipped report = true ->
     resolve st item = "passed" ->
     _test_outcomes st' = <[ nodeid item := "skipped" ]> (_test_outcomes st)) /\
  (failed report = false -> skipped report = false -> when report = "call" ->
     resolve st item = "passed" ->
     _test_outcomes st'
     = <[ nodeid item := outcome report ]> (_test_outcomes st)) /\
  (failed report = false -> resolve st item <> "passed" ->
     _test_outcomes st' = _test_outcomes st) /\
  (failed report = false -> skipped report = false ->
     when report = "setup" \/ when report = "teardown" ->
     _test_outcomes st' = _test_outcomes st /\
     (resolve st item = "passed" -> resolve st' item = "passed")).
Proof.
  intros Hen st'.
  destruct (pytest_runtest_makereport_globals backend item call report st)
    as [_ Hout].
  cbn zeta in Hout. rewrite Hen in Hout. fold st' in Hout.
  destruct (track_outcome_cases (nodeid item) report (_test_outcomes st))
    as (Hf & Hsk & Hcall & Hkeep & Hside).
  unfold resolve. rewrite Hout.
  repeat split; intros; auto.
  - apply Hside; auto. intros Hw. destruct H1; congruence.
  - rewrite Hside; auto. intros Hw. destruct H1; congruence.
Qed.

(** C8. A test for which nothing was recorded resolves to "passed": in the
    freshly imported module, after the hook has recorded reports of other
    tests only, and right after the test's entry was popped.  One call of the
    report hook for a test A leaves the resolved outcome of every other test
    B as it was. *)
Theorem C8_default_and_isolation :
  (forall (b : B) (item : Item), resolve (initial_state b) item = "passed") /\
  (forall (st : State B) (item : Item) (others : list (Item * Phase)),
     _test_outcomes st !! nodeid item = None ->
     Forall (fun x => nodeid (fst x) <> nodeid item) others ->
     resolve
       (fold_left
          (fun st x => snd (pytest_runtest_makereport backend (fst x)
                              (phase_call (snd x)) (phase_report (snd x)) st))
          others st) item = "passed") /\
  (forall (outcomes : gmap string string) (id : string),
     dict_get (dict_pop outcomes id) id "passed" = "passed") /\
  (forall (st : State B) (A B' : Item) (call : CallInfo) (report : TestReport),
     nodeid A <> nodeid B' ->
     resolve (snd (pytest_runtest_makereport backend A call report st)) B'
     = resolve st B').
Proof.
  assert (Hframe : forall (st : State B) (A B' : Item) call report,
             nodeid A <> nodeid B' ->
             _test_outcomes
               (snd (pytest_runtest_makereport backend A call report st))
               !! nodeid B' = _test_outcomes st !! nodeid B').
  { intros st A B' call report Hne.
    destruct (pytest_runtest_makereport_globals backend A call report st)
      as [_ Hout].
    cbn zeta in Hout. rewrite Hout.
    destruct (_enabled st); [ | reflexivity ].
    by apply track_outcome_other. }
  split; [ | split; [ | split ] ].
  - intros b item. reflexivity.
  - intros st item others Hnone Hothers. revert st Hnone.
    induction Hothers as [| [A p] others Hne _ IH]; intros st Hnone.
    + cbn. unfold resolve, dict_get. by rewrite Hnone.
    + cbn [fold_left]. apply IH. cbn [fst snd].
      rewrite Hframe by exact Hne. exact Hnone.
  - intros outcomes id. apply dict_get_pop.
  - intros st A B' call report Hne. unfold resolve, dict_get.
    by rewrite Hframe.
Qed.

Lemma is_pytest_report_plain (report : TestReport) :
  is_pytest_report report -> plain_call_passed report.
Proof.
  intros (Ho & Hf & Hs) Ef Es _. rewrite Hf in Ef. rewrite Hs in Es.
  apply bool_decide_eq_false in Ef, Es.
  destruct Ho as [Ho | [Ho | Ho]]; congruence.
Qed.

(** The tracked outcomes after the report hook has seen a list of phases,
    in any state. *)
Lemma record_reports_outcomes item (phases : list Phase) (st : State B) :
  _test_outcomes (record_reports backend item phases st)
  = if _enabled st
    then fold_left (fun m r => track_outcome (nodeid item) r m)
           (map phase_report phases) (_test_outcomes st)
    else _test_outcomes st.
Proof.
  destruct (_enabled st) eqn:Hen.
  { by destruct (record_reports_globals backend item phases st Hen) as [_ ->]. }
  revert st Hen. induction phases as [| p phases IH]; intros st Hen;
    [ reflexivity | ].
  cbn [record_reports fold_left].
  destruct (pytest_runtest_makereport_globals backend item (phase_call p)
              (phase_report p) st) as [Hen' Hout].
  cbn zeta in Hen', Hout. rewrite Hen in Hen', Hout.
  unfold record_reports in IH. rewrite (IH _ Hen'). exact Hout.
Qed.

Lemma folded_outcome_Permutation current (rs rs' : list TestReport) :
  rs ≡ₚ rs' -> folded_outcome current rs = folded_outcome current rs'.
Proof.
  intros Hp. unfold folded_outcome.
  by rewrite (existsb_Permutation failed _ _ Hp),
             (existsb_Permutation skipped _ _ Hp).
Qed.

(** The worst outcome of pytest's reports is an outcome of highest
    precedence among them. *)
Lemma worst_outcome_highest (rs : list TestReport) :
  Forall is_pytest_report rs ->
  Forall (fun r => precedence (outcome r) <= precedence (worst_outcome rs)) rs /\
  (worst_outcome rs = "passed" \/
   Exists (fun r => outcome r = worst_outcome rs) rs).
Proof.
  intros Hrs. unfold worst_outcome.
  induction Hrs as [| r rs (Ho & Hf & Hs) _ [IHle IHex]];
    [ by split; [ | left ] | ].
  cbn [existsb]. rewrite Hf, Hs.
  destruct Ho as [Ho | [Ho | Ho]]; rewrite Ho.
  - (* passed *)
    rewrite !bool_decide_eq_false_2 by discriminate. cbn [orb].
    split.
    + constructor; [ | exact IHle ].
      rewrite Ho, precedence_passed. lia.
    + destruct IHex as [IHex | IHex]; [ by left | right; by apply Exists_cons_tl ].
  - (* failed *)
    rewrite bool_decide_eq_true_2 by reflexivity. cbn [orb].
    split.
    + constructor; [ rewrite Ho; reflexivity | ].
      eapply Forall_impl; [ exact IHle | ].
      intros x _. apply precedence_le_failed.
    + right. by apply Exists_cons_hd.
  - (* skipped *)
    rewrite bool_decide_eq_false_2 by discriminate.
    rewrite bool_decide_eq_true_2 by reflexivity. cbn [orb].
    destruct (existsb failed rs).
    + split.
      * constructor; [ apply precedence_le_failed | exact IHle ].
      * destruct IHex as [IHex | IHex]; [ discriminate | ].
        right. by apply Exists_cons_tl.
    + split.
      * constructor; [ rewrite Ho; reflexivity | ].
        eapply Forall_impl; [ exact IHle | ].
        intros x Hx. cbn beta in Hx |- *.
        destruct (existsb skipped rs); [ exact Hx | ].
        rewrite precedence_passed in Hx.
        assert (precedence (outcome x) = 0) as -> by lia.
        cbn. lia.
      * right. by apply Exists_cons_hd.
Qed.


(** C4. For the reports that pytest hands to the hook, the resolved outcome
    obeys the precedence failed > error > skipped > passed and does not
    depend on the order of the reports.  Every update keeps or raises the
    resolved outcome in the precedence.  For a test whose entry is clear at
    its start, the resolved outcome is the worst of the reports (failed,
    else skipped, else passed): no report's outcome has a higher
    precedence, and unless it is the default "passed" it is the outcome of
    one of the reports.  From any state, recording the reports in any other
    order resolves to the same outcome; in particular recording a teardown
    report and then a call report resolves as recording the call report and
    then the teardown report. *)
Theorem C4_order_invariance (item : Item) :
  (forall (st : State B) (call : CallInfo) (report : TestReport),
     precedence (resolve st item)
     <= precedence
          (resolve (snd (pytest_runtest_makereport backend item call report st))
             item)) /\
  (forall (st : State B) (phases : list Phase),
     _enabled st = true ->
     _test_outcomes st !! nodeid item = None ->
     Forall is_pytest_report (map phase_report phases) ->
     let resolved := resolve (record_reports backend item phases st) item in
     resolved = worst_outcome (map phase_report phases) /\
     Forall (fun r => precedence (outcome r) <= precedence resolved)
       (map phase_report phases) /\
     (resolved = "passed" \/
      Exists (fun r => outcome r = resolved) (map phase_report phases))) /\
  (forall (st : State B) (phases phases' : list Phase),
     Forall is_pytest_report (map phase_report phases) ->
     phases ≡ₚ phases' ->
     resolve (record_reports backend item phases' st) item
     = resolve (record_reports backend item phases st) item) /\
  (forall (st : State B) (call teardown : Phase),
     is_pytest_report (phase_report call) ->
     is_pytest_report (phase_report teardown) ->
     when (phase_report call) = "call" ->
     when (phase_report teardown) = "teardown" ->
     resolve (record_reports backend item [teardown; call] st) item
     = resolve (record_reports backend item [call; teardown] st) item).
Proof.
  assert (Hperm : forall (st : State B) (phases phases' : list Phase),
             Forall is_pytest_report (map phase_report phases) ->
             phases ≡ₚ phases' ->
             resolve (record_reports backend item phases' st) item
             = resolve (record_reports backend item phases st) item).
  { intros st phases phases' Hshape Hp. unfold resolve.
    rewrite !record_reports_outcomes.
    destruct (_enabled st); [ | reflexivity ].
    assert (Hplain : Forall plain_call_passed (map phase_report phases)).
    { eapply Forall_impl; [ exact Hshape | apply is_pytest_report_plain ]. }
    rewrite !track_outcome_fold.
    - symmetry. apply folded_outcome_Permutation. by apply fmap_Permutation.
    - exact Hplain.
    - eapply Permutation_Forall; [ | exact Hplain ]. by apply fmap_Permutation. }
  split; [ | split; [ | split ] ].
  - intros st call report. unfold resolve.
    destruct (pytest_runtest_makereport_globals backend item call report st)
      as [_ Hout].
    cbn zeta in Hout. rewrite Hout.
    destruct (_enabled st); [ apply track_outcome_monotone | reflexivity ].
  - intros st phases Hen Hnone Hshape. cbn zeta.
    assert (Hworst : resolve (record_reports backend item phases st) item
                     = worst_outcome (map phase_report phases)).
    { unfold resolve. rewrite record_reports_outcomes, Hen.
      rewrite track_outcome_fold.
      - unfold folded_outcome, worst_outcome, dict_get. rewrite Hnone.
        by rewrite decide_True.
      - eapply Forall_impl; [ exact Hshape | apply is_pytest_report_plain ]. }
    rewrite Hworst. split; [ reflexivity | ].
    by apply worst_outcome_highest.
  - exact Hperm.
  - intros st call teardown Hc Ht _ _.
    apply (Hperm st [call; teardown] [teardown; call]).
    + cbn [map]. by repeat apply Forall_cons_2.
    + apply perm_swap.
Qed.

End TrackerClaims.

(** Witness for C1: a failed call report for a test that has no entry
    yet. *)
Lemma C1_record_precedence_witness :
  _enabled (enabled_state true) = true /\
  _test_outcomes
    (snd (pytest_runtest_makereport registry_backend {| nodeid := "t" |}
            {| excinfo := None |} (plain_report "call" "failed")
            (enabled_state true)))
  = <[ "t" := "failed" ]> (_test_outcomes (enabled_state true)).
Proof.
  split; [ reflexivity | ].
  apply (proj1 (C1_record_precedence registry_backend {| nodeid := "t" |}
                  {| excinfo := None |} (plain_report "call" "failed")
                  (enabled_state true) eq_refl)).
  reflexivity.
Defined.

(** Witness for C8: a failed report for test "a" leaves test "b" resolved
    as before. *)
Lemma C8_default_and_isolation_witness :
  "a" <> "b" /\
  resolve
    (snd (pytest_runtest_makereport registry_backend {| nodeid := "a" |}
            {| excinfo := None |} (plain_report "call" "failed")
            (enabled_state true))) {| nodeid := "b" |}
  = resolve (enabled_state true) {| nodeid := "b" |}.
Proof.
  split; [ discriminate | ].
  apply (proj2 (proj2 (proj2 (C8_default_and_isolation registry_backend)))
           (enabled_state true) {| nodeid := "a" |} {| nodeid := "b" |}).
  cbn. discriminate.
Defined.

(** Witness for C4: pytest's reports of a test whose setup and call pass
    and whose teardown is skipped, from a cleared entry.  The test resolves
    to "skipped", the worst of the three, and recording the teardown report
    before the call report resolves to the same outcome. *)
Lemma C4_order_invariance_witness :
  let item := {| nodeid := "t" |} in
  let setup := plain_phase "setup" "passed" in
  let call := plain_phase "call" "passed" in
  let teardown := plain_phase "teardown" "skipped" in
  Forall is_pytest_report (map phase_report [setup; call; teardown]) /\
  resolve (record_reports registry_backend item [setup; call; teardown]
             (enabled_state true)) item = "skipped" /\
  resolve (record_reports registry_backend item [setup; teardown; call]
             (enabled_state true)) item
  = resolve (record_reports registry_backend item [setup; call; teardown]
               (enabled_state true)) item /\
  resolve (record_reports registry_backend item [teardown; call]
             (enabled_state true)) item
  = resolve (record_reports registry_backend item [call; teardown]
               (enabled_state true)) item.
Proof.
  cbn zeta.
  assert (Hpassed : forall phase,
             is_pytest_report (phase_report (plain_phase phase "passed"))).
  { intros phase. split; [ left; reflexivity | split; reflexivity ]. }
  assert (Hskipped : forall phase,
             is_pytest_report (phase_report (plain_phase phase "skipped"))).
  { intros phase. split; [ right; right; reflexivity | split; reflexivity ]. }
  assert (Hshape : Forall is_pytest_report
                     (map phase_report
                        [plain_phase "setup" "passed";
                         plain_phase "call" "passed";
                         plain_phase "teardown" "skipped"])).
  { cbn [map]. repeat apply Forall_cons_2; auto. }
  destruct (C4_order_invariance registry_backend {| nodeid := "t" |})
    as (_ & Hworst & Hperm & Hswap).
  split; [ exact Hshape | split; [ | split ] ].
  - exact (proj1 (Hworst (enabled_state true) _ eq_refl eq_refl Hshape)).
  - apply (Hperm (enabled_state true)); [ exact Hshape | ].
    apply perm_skip, perm_swap.
  - apply (Hswap (enabled_state true)); auto.
Defined.

(** ** Emitting stdio artifacts *)

Section Emission.
Context {B : Type} (backend : Backend B).

Lemma stdio_artifacts_app (tr1 tr2 : list Event) :
  stdio_artifacts (tr1 ++ tr2) = stdio_artifacts tr1 ++ stdio_artifacts tr2.
Proof. apply omap_app. Qed.

(** One emission when the logger can be obtained: exactly one record reaches
    the logger, and the call returns even if the logger then fails. *)
Lemma emit_stdio_log_run text stream span eof (st : State B) :
  fst (config_get_logger backend (backend_state st)) = None ->
  exists st' r,
    emit_stdio_log backend text stream span eof st = (Ok tt, st') /\
    trace st' = trace st ++ [LoggerEmit r] /\
    body r = text /\
    attributes r = stdio_attributes stream eof /\
    context r = log_context span.
Proof.
  intros Hlogger.
  unfold emit_stdio_log, bind, try_except, backend_call, backend_read,
    log_event, ret.
  cbn [backend_state trace _enabled _test_outcomes].
  destruct (config_get_logger backend (backend_state st)) as [[msg |] b1];
    cbn in Hlogger; [ discriminate | ].
  cbn [backend_state trace _enabled _test_outcomes].
  destruct (time_ns backend b1) as [t1 b2].
  cbn [backend_state trace _enabled _test_outcomes].
  destruct (time_ns backend b2) as [t2 b3].
  cbn [backend_state trace _enabled _test_outcomes].
  destruct (logger_emit backend _ b3) as [[msg |] b4];
    cbn [exn_is_exception Exception]; eexists _, _; repeat split.
Qed.

Lemma emit_stdio_log_adds (P : Event -> Prop) text stream span eof :
  (forall r, body r = text -> attributes r = stdio_attributes stream eof ->
             context r = log_context span -> P (LoggerEmit r)) ->
  adds P (emit_stdio_log backend text stream span eof).
Proof.
  intros HP. unfold emit_stdio_log.
  apply adds_bind; [ apply adds_backend_call | intros _ ].
  apply adds_try_except; [ | intros e; apply adds_ret ].
  apply adds_bind; [ apply adds_backend_read | intros t1 ].
  apply adds_bind; [ apply adds_backend_read | intros t2 ].
  apply adds_bind; [ | intros _; apply adds_backend_call ].
  apply adds_log_event. apply HP; reflexivity.
Qed.

Lemma emits_ret : emits (ret (B:=B) tt) [].
Proof. intros st. exists st. by rewrite app_nil_r. Qed.

Lemma emits_bind (c : M B unit) (k : unit -> M B unit) arts1 arts2 :
  emits c arts1 -> emits (k tt) arts2 -> emits (bind c k) (arts1 ++ arts2).
Proof.
  intros Hc Hk st. rewrite bind_run.
  destruct (Hc st) as (st1 & -> & H1).
  destruct (Hk st1) as (st2 & -> & H2).
  exists st2. split; [ reflexivity | ]. by rewrite H2, H1, app_assoc.
Qed.

Lemma emits_log_diag lvl msg : emits (log_event (B:=B) (Diag lvl msg)) [].
Proof.
  intros st. eexists. split; [ reflexivity | ]. cbn.
  by rewrite stdio_artifacts_app.
Qed.

Lemma emit_stdio_log_emits text stream span eof :
  (forall b, fst (config_get_logger backend b) = None) ->
  emits (emit_stdio_log backend text stream span eof)
    [(text, stdio_attributes stream eof, log_context span)].
Proof.
  intros Hlogger st.
  destruct (emit_stdio_log_run text stream span eof st (Hlogger _))
    as (st' & r & Hrun & Htr & Hb & Ha & Hc).
  exists st'. split; [ exact Hrun | ].
  rewrite Htr, stdio_artifacts_app. cbn. by rewrite Hb, Ha, Hc.
Qed.

(** The gate of [_capture_test_output]. *)
Lemma capture_gate_open (report : TestReport) :
  when report = "call" \/ failed report = true ->
  negb (bool_decide (when report = "call")) && negb (failed report) = false.
Proof.
  intros [Hw | Hf].
  - by rewrite bool_decide_eq_true_2.
  - rewrite Hf. apply andb_false_r.
Qed.

Lemma capture_gate_closed (report : TestReport) :
  when report <> "call" -> failed report = false ->
  negb (bool_decide (when report = "call")) && negb (failed report) = true.
Proof.
  intros Hw Hf. by rewrite bool_decide_eq_false_2, Hf.
Qed.

(** What an eligible report hands to the logger once the span lookup has
    answered [test_span] and the logger is available. *)
Lemma _capture_test_output_emits item report test_span (st : State B) :
  when report = "call" \/ failed report = true ->
  fst (tracer_get_test_span backend item (backend_state st)) = inr test_span ->
  (forall b, fst (config_get_logger backend b) = None) ->
  exists st',
    _capture_test_output backend item report st = (Ok tt, st') /\
    stdio_artifacts (trace st')
    = stdio_artifacts (trace st)
      ++ expected_artifacts report (log_context test_span).
Proof.
  intros Hgate Hspan Hlogger.
  unfold _capture_test_output. rewrite (capture_gate_open _ Hgate).
  rewrite bind_run. unfold backend_query.
  destruct (tracer_get_test_span backend item (backend_state st))
    as [[msg | sp] b1]; cbn in Hspan; [ discriminate | ].
  injection Hspan as ->.
  match goal with
  | |- context [ bind ?c ?k ?s ] =>
      assert (Hk : emits (bind c k)
                     ([] ++ expected_artifacts report (log_context test_span)));
        [ | exact (Hk s) ]
  end.
  apply emits_bind; [ destruct test_span; [ apply emits_ret | apply emits_log_diag ] | ].
  unfold expected_artifacts.
  apply emits_bind.
  { destruct (truthy_text (capstdout report));
      [ by apply emit_stdio_log_emits | apply emits_ret ]. }
  apply emits_bind.
  { destruct (truthy_text (capstderr report));
      [ by apply emit_stdio_log_emits | apply emits_ret ]. }
  destruct (failed report); [ | apply emits_ret ].
  destruct (truthy_longrepr (longrepr report));
    [ by apply emit_stdio_log_emits | apply emits_ret ].
Qed.

(** Without a span, an eligible capture first records the diagnostic and
    then hands the logger nothing but records in the ambient context. *)
Lemma _capture_test_output_no_span item report (st : State B) :
  when report = "call" \/ failed report = true ->
  fst (tracer_get_test_span backend item (backend_state st)) = inr None ->
  exists evs,
    trace (snd (_capture_test_output backend item report st))
    = trace st ++ no_span_diagnostic item :: evs /\
    Forall (fun e => exists r, e = LoggerEmit r /\
                               context r = context_get_current) evs.
Proof.
  intros Hgate Hspan.
  unfold _capture_test_output. rewrite (capture_gate_open _ Hgate).
  rewrite bind_run. unfold backend_query.
  destruct (tracer_get_test_span backend item (backend_state st))
    as [[msg | sp] b1]; cbn in Hspan; [ discriminate | ].
  injection Hspan as ->.
  rewrite bind_run. cbn [log_event trace _enabled _test_outcomes backend_state].
  set (P := fun e => exists r, e = LoggerEmit r /\
                               context r = context_get_current).
  assert (Hemit : forall text stream,
             adds (B:=B) P (emit_stdio_log backend text stream None false)).
  { intros text stream. apply emit_stdio_log_adds.
    intros r _ _ Hc. exists r. auto. }
  match goal with
  | |- context [ bind ?c ?k ?s ] =>
      assert (Hk : adds P (bind c k)); [ | destruct (Hk s) as (evs & Htr & Hall) ]
  end.
  { apply adds_bind;
      [ destruct (truthy_text (capstdout report)); [ apply Hemit | apply adds_ret ]
      | intros _ ].
    apply adds_bind;
      [ destruct (truthy_text (capstderr report)); [ apply Hemit | apply adds_ret ]
      | intros _ ].
    destruct (if failed report then truthy_longrepr (longrepr report) else None);
      [ apply Hemit | apply adds_ret ]. }
  exists evs. split; [ | exact Hall ].
  rewrite Htr. cbn [trace]. by rewrite <- app_assoc.
Qed.

End Emission.

Section ArtifactClaims.
Context {B : Type} (backend : Backend B).

(** C10. A supplied span that is not recording is ignored by
    [emit_stdio_log]: the call behaves exactly as the call without a span.
    When the logger is available, exactly one record is emitted, and its
    context is the supplied span's only if that span is recording, and the
    ambient current context otherwise. *)
Theorem C10_non_recording_span_ignored (text : string) (stream : Z)
    (eof : bool) :
  (forall (sp : Span) (st : State B),
     is_recording sp = false ->
     emit_stdio_log backend text stream (Some sp) eof st
     = emit_stdio_log backend text stream None eof st) /\
  (forall (span : option Span) (st : State B),
     fst (config_get_logger backend (backend_state st)) = None ->
     exists st' r,
       emit_stdio_log backend text stream span eof st = (Ok tt, st') /\
       trace st' = trace st ++ [LoggerEmit r] /\
       body r = text /\
       attributes r = stdio_attributes stream eof /\
       context r = match span with
                   | Some sp => if is_recording sp
                                then set_span_in_context sp
                                else context_get_current
                   | None => context_get_current
                   end).
Proof.
  split.
  - intros sp st Hrec. unfold emit_stdio_log, log_context. by rewrite Hrec.
  - intros span st Hlogger. by apply emit_stdio_log_run.
Qed.

(** C5, as amended.  A setup or teardown report that is not itself failed
    emits nothing and changes nothing, whatever the outcome of the test.  A
    report that is itself failed is captured in whatever phase it arrives,
    exactly as the same report would be in the call phase, and it leaves the
    test tracked as "failed". *)
Theorem C5_capture_gate (item : Item) (report : TestReport) :
  (forall st : State B,
     when report = "setup" \/ when report = "teardown" ->
     failed report = false ->
     _capture_test_output backend item report st = (Ok tt, st)) /\
  (forall st : State B,
     failed report = true ->
     _capture_test_output backend item report st
     = _capture_test_output backend item (as_call_report report) st) /\
  (forall (st : State B) (call : CallInfo),
     _enabled st = true ->
     failed report = true ->
     resolve (snd (pytest_runtest_makereport backend item call report st)) item
     = "failed").
Proof.
  split; [ | split ].
  - intros st Hw Hf. unfold _capture_test_output.
    rewrite capture_gate_closed; [ reflexivity | | exact Hf ].
    destruct Hw as [-> | ->]; discriminate.
  - intros st Hf. unfold _capture_test_output.
    rewrite (capture_gate_open report (or_intror Hf)).
    rewrite (capture_gate_open (as_call_report report) (or_introl eq_refl)).
    reflexivity.
  - intros st call Hen Hf. unfold resolve.
    destruct (pytest_runtest_makereport_globals backend item call report st)
      as [_ Hout].
    cbn zeta in Hout. rewrite Hout, Hen.
    destruct (track_outcome_cases (nodeid item) report (_test_outcomes st))
      as (Hfailed & _).
    rewrite Hfailed by exact Hf. apply dict_get_insert.
Qed.

(** C6. For an eligible report, with the span lookup answering and the logger
    available, the records handed to the logger are, in order: the captured
    stdout cut to 8192 units on stream 1, the captured stderr cut to 8192
    units on stream 2, and, when the report is failed and has failure
    detail, that detail cut to 16384 units on stream 2.  Cutting to a cap
    gives exactly the cap's length, as a prefix, for a longer text, and
    gives back the text itself when it is at or under the cap. *)
Theorem C6_artifact_truncation (item : Item) (report : TestReport)
    (test_span : option Span) (st : State B) :
  when report = "call" \/ failed report = true ->
  fst (tracer_get_test_span backend item (backend_state st)) = inr test_span ->
  (forall b, fst (config_get_logger backend b) = None) ->
  (exists st',
     _capture_test_output backend item report st = (Ok tt, st') /\
     stdio_artifacts (trace st')
     = stdio_artifacts (trace st)
       ++ stream_artifact (N.to_nat 8192) STDIO_STREAM_STDOUT
            (truthy_text (capstdout report)) (log_context test_span)
       ++ stream_artifact (N.to_nat 8192) STDIO_STREAM_STDERR
            (truthy_text (capstderr report)) (log_context test_span)
       ++ stream_artifact (N.to_nat 16384) STDIO_STREAM_STDERR
            (if failed report then str <$> truthy_longrepr (longrepr report)
             else None) (log_context test_span)) /\
  (forall (cap : nat) (text : string),
     (cap < String.length text ->
        String.length (slice_to cap text) = cap /\
        exists rest, text = (slice_to cap text ++ rest)%string) /\
     (String.length text <= cap -> slice_to cap text = text)) /\
  stdio_attributes STDIO_STREAM_STDOUT false !! STDIO_STREAM_ATTR
  = Some (AInt 1) /\
  stdio_attributes STDIO_STREAM_STDERR false !! STDIO_STREAM_ATTR
  = Some (AInt 2).
Proof.
  intros Hgate Hspan Hlogger. split; [ | split; [ | split ] ].
  - destruct (_capture_test_output_emits backend item report test_span st
                Hgate Hspan Hlogger) as (st' & Hrun & Harts).
    exists st'. split; [ exact Hrun | exact Harts ].
  - intros cap text. split.
    + intros Hlong. split; [ | apply slice_to_prefix ].
      rewrite slice_to_length. lia.
    + apply slice_to_short.
  - reflexivity.
  - reflexivity.
Qed.

(** C9. When the span lookup finds no span for the test, the report hook
    still returns the report to the runner; an eligible capture records the
    local diagnostic first and after it hands the logger nothing but
    records in the ambient current context; and when the logger is
    available none of the report's artifacts is dropped and the capture
    itself returns normally. *)
Theorem C9_missing_span_degrades (item : Item) (call : CallInfo)
    (report : TestReport) (st : State B) :
  fst (tracer_get_test_span backend item (backend_state st)) = inr None ->
  when report = "call" \/ failed report = true ->
  (forall st0 : State B,
     fst (pytest_runtest_makereport backend item call report st0) = Ok report) /\
  (exists evs,
     trace (snd (_capture_test_output backend item report st))
     = trace st ++ no_span_diagnostic item :: evs /\
     Forall (fun e => exists r, e = LoggerEmit r /\
                                context r = context_get_current) evs) /\
  ((forall b, fst (config_get_logger backend b) = None) ->
   exists st',
     _capture_test_output backend item report st = (Ok tt, st') /\
     stdio_artifacts (trace st')
     = stdio_artifacts (trace st)
       ++ expected_artifacts report context_get_current).
Proof.
  intros Hspan Hgate. split; [ | split ].
  - intros st0.
    destruct (pytest_runtest_makereport_returns backend item call report st0)
      as (r & Hr & ->). exact Hr.
  - by apply _capture_test_output_no_span.
  - intros Hlogger.
    apply (_capture_test_output_emits backend item report None st Hgate
             Hspan Hlogger).
Qed.

End ArtifactClaims.

(** ** The lifecycle of one test *)

Section Protocol.
Context {B : Type} (backend : Backend B).

Lemma end_test_calls_app (tr1 tr2 : list Event) :
  end_test_calls (tr1 ++ tr2) = end_test_calls tr1 ++ end_test_calls tr2.
Proof. apply omap_app. Qed.

Lemma end_test_calls_others (tr evs : list Event) :
  Forall (fun e => is_end_test e = false) evs ->
  end_test_calls (tr ++ evs) = end_test_calls tr.
Proof.
  intros Hall. rewrite end_test_calls_app.
  induction Hall as [| e evs He _ IH]; [ apply app_nil_r | ].
  destruct e; cbn in *; (discriminate || exact IH).
Qed.

(** The block after the [yield]: the entry is popped, the span is ended
    exactly once with the outcome the branches chose, and the result of the
    wrapped execution is handed on. *)
Lemma protocol_after_yield_run {V} (item : Item) (yielded : Result V)
    (st2 : State B) :
  exists r st',
    protocol_after_yield backend item yielded st2 = (r, st') /\
    _enabled st' = _enabled st2 /\
    _test_outcomes st' = dict_pop (_test_outcomes st2) (nodeid item) /\
    end_test_calls (trace st')
    = end_test_calls (trace st2)
      ++ [(nodeid item,
           match yielded with
           | Ok _ => resolve st2 item
           | Raise e => if exn_is_exception e then "error" else "passed"
           end)] /\
    match yielded with
    | Ok v => r = Ok v
    | Raise e => exists e', r = Raise e' /\
                            (exn_is_exception e = false -> e' = e)
    end.
Proof.
  unfold protocol_after_yield.
  destruct yielded as [v | e]; [ | destruct (exn_is_exception e) eqn:He ].
  all: unfold bind, attempt, try_except, log_event, backend_call,
         get_test_outcomes, set_test_outcomes, ret, resume, raise;
       cbn [backend_state trace _enabled _test_outcomes].
  all: repeat match goal with
       | |- context [ tracer_record_exception backend ?i ?x ?b ] =>
           destruct (tracer_record_exception backend i x b) as [[? |] ?];
           cbn [backend_state trace _enabled _test_outcomes]
       | |- context [ tracer_end_test backend ?i ?x ?b ] =>
           destruct (tracer_end_test backend i x b) as [[? |] ?];
           cbn [backend_state trace _enabled _test_outcomes
                  exn_is_exception Exception]
       end.
  all: eexists _, _; split; [ reflexivity | ].
  all: cbn [backend_state trace _enabled _test_outcomes].
  all: rewrite ?end_test_calls_app.
  all: repeat match goal with
       | |- context [ end_test_calls [?e] ] =>
           let l := eval cbn in (end_test_calls [e]) in
           change (end_test_calls [e]) with l
       end.
  all: rewrite ?app_nil_r.
  all: repeat split; try reflexivity.
  all: eexists; split; [ reflexivity | ]; intros; congruence.
Qed.

(** The three ways into the wrapped execution. *)
Lemma protocol_disabled {V} (item : Item) (body : M B V) (st : State B) :
  _enabled st = false ->
  pytest_runtest_protocol backend item body st = body st.
Proof.
  intros Hen. unfold pytest_runtest_protocol.
  rewrite bind_run. cbn [get_enabled]. by rewrite Hen.
Qed.

Lemma protocol_start_failed {V} (item : Item) (body : M B V) (st : State B)
    msg b1 :
  _enabled st = true ->
  tracer_start_test backend item (backend_state st) = (Some msg, b1) ->
  pytest_runtest_protocol backend item body st
  = body {| _enabled := _enabled st;
            _test_outcomes := dict_pop (_test_outcomes st) (nodeid item);
            backend_state := b1;
            trace := (trace st ++ [StartTest (nodeid item)])
                     ++ [Diag LWARNING ("Failed to start test span for "
                                        ++ nodeid item ++ ": " ++ msg)] |}.
Proof.
  intros Hen Hstart. unfold pytest_runtest_protocol.
  rewrite bind_run. cbn [get_enabled]. rewrite Hen. cbn [negb].
  rewrite bind_run. cbn [get_test_outcomes].
  rewrite bind_run. cbn [set_test_outcomes].
  rewrite bind_run. unfold attempt at 1. rewrite bind_run.
  cbn [log_event]. unfold backend_call at 1.
  cbn [backend_state trace _enabled _test_outcomes].
  rewrite Hstart. cbn iota beta. cbn [exn_is_exception Exception].
  rewrite bind_run. cbn [log_event exn_msg Exception]. rewrite Hen.
  reflexivity.
Qed.

Lemma protocol_started {V} (item : Item) (body : M B V) (st : State B)
    b1 res st2 :
  _enabled st = true ->
  tracer_start_test backend item (backend_state st) = (None, b1) ->
  body {| _enabled := _enabled st;
          _test_outcomes := dict_pop (_test_outcomes st) (nodeid item);
          backend_state := b1;
          trace := trace st ++ [StartTest (nodeid item)] |} = (res, st2) ->
  pytest_runtest_protocol backend item body st
  = protocol_after_yield backend item res st2.
Proof.
  intros Hen Hstart Hbody. unfold pytest_runtest_protocol.
  rewrite bind_run. cbn [get_enabled]. rewrite Hen. cbn [negb].
  rewrite bind_run. cbn [get_test_outcomes].
  rewrite bind_run. cbn [set_test_outcomes].
  rewrite bind_run. unfold attempt at 1. rewrite bind_run.
  cbn [log_event]. unfold backend_call at 1.
  cbn [backend_state trace _enabled _test_outcomes].
  rewrite Hstart. cbn iota beta.
  rewrite bind_run. unfold attempt at 1. rewrite Hbody. reflexivity.
Qed.

(** Once the span has started, no entry for the test survives the hook,
    however the wrapped execution went. *)
Lemma protocol_started_clears {V} (item : Item) (body : M B V)
    (st : State B) :
  _enabled st = true ->
  fst (tracer_start_test backend item (backend_state st)) = None ->
  _test_outcomes (snd (pytest_runtest_protocol backend item body st))
    !! nodeid item = None.
Proof.
  intros Hen Hstart.
  destruct (tracer_start_test backend item (backend_state st))
    as [r b1] eqn:E. cbn in Hstart. subst r.
  destruct (body {| _enabled := _enabled st;
                    _test_outcomes := dict_pop (_test_outcomes st) (nodeid item);
                    backend_state := b1;
                    trace := trace st ++ [StartTest (nodeid item)] |})
    as [res st2] eqn:Hbody.
  rewrite (protocol_started item body st b1 res st2 Hen E Hbody).
  destruct (protocol_after_yield_run item res st2)
    as (r & st' & -> & _ & Hout & _).
  cbn [snd]. rewrite Hout. apply lookup_delete_eq.
Qed.

(** The wrapped execution calls the report hook for every phase and ends the
    way the runner says: the report hook itself never raises. *)
Lemma runtestprotocol_run {V} (item : Item) (phases : list Phase)
    (ending : Ending V) (st : State B) :
  runtestprotocol backend item phases ending st
  = (ending_result ending, record_reports backend item phases st).
Proof.
  revert st. induction phases as [| p phases IH]; intros st.
  - destruct ending; reflexivity.
  - cbn [runtestprotocol record_reports fold_left]. rewrite bind_run.
    destruct (pytest_runtest_makereport_returns backend item (phase_call p)
                (phase_report p) st) as (r & Hr & _).
    destruct (pytest_runtest_makereport backend item (phase_call p)
                (phase_report p) st) as [res st1].
    cbn in Hr. subst res. cbn [snd]. apply IH.
Qed.

Lemma pytest_runtest_makereport_no_end_test item call report :
  adds (fun e => is_end_test e = false)
    (pytest_runtest_makereport backend item call report).
Proof.
  unfold pytest_runtest_makereport.
  apply adds_bind; [ apply adds_get_enabled | intros enabled ].
  destruct (negb enabled); [ apply adds_ret | ].
  apply adds_bind; [ apply adds_get_test_outcomes | intros outcomes ].
  apply adds_bind; [ apply adds_set_test_outcomes | intros _ ].
  apply adds_bind.
  { destruct (excinfo call) as [value |]; [ | apply adds_ret ].
    destruct (bool_decide (when report = "call")); [ | apply adds_ret ].
    apply adds_try_except.
    - apply adds_bind; [ by apply adds_log_event | intros _ ].
      apply adds_backend_call.
    - intros e'. by apply adds_log_event. }
  intros _. apply adds_bind; [ | intros _; apply adds_ret ].
  apply adds_try_except; [ | intros e; by apply adds_log_event ].
  unfold _capture_test_output.
  destruct (negb (bool_decide (when report = "call")) && negb (failed report));
    [ apply adds_ret | ].
  apply adds_bind; [ apply adds_backend_query | intros test_span ].
  apply adds_bind;
    [ destruct test_span; [ apply adds_ret | by apply adds_log_event ]
    | intros _ ].
  apply adds_bind;
    [ destruct (truthy_text (capstdout report));
      [ by apply emit_stdio_log_adds | apply adds_ret ] | intros _ ].
  apply adds_bind;
    [ destruct (truthy_text (capstderr report));
      [ by apply emit_stdio_log_adds | apply adds_ret ] | intros _ ].
  destruct (if failed report then truthy_longrepr (longrepr report) else None);
    [ by apply emit_stdio_log_adds | apply adds_ret ].
Qed.

Lemma record_reports_end_test_calls item (phases : list Phase) (st : State B) :
  end_test_calls (trace (record_reports backend item phases st))
  = end_test_calls (trace st).
Proof.
  revert st. induction phases as [| p phases IH]; intros st; [ reflexivity | ].
  cbn [record_reports fold_left].
  unfold record_reports in IH. rewrite IH.
  destruct (pytest_runtest_makereport_no_end_test item (phase_call p)
              (phase_report p) st) as (evs & -> & Hall).
  by apply end_test_calls_others.
Qed.

(** A failed report makes the tracked outcome "failed" for the rest of the
    test. *)
Lemma track_outcome_failed_absorbs id (rs : list TestReport)
    (m : gmap string string) :
  dict_get m id "passed" = "failed" \/ Exists (fun r => failed r = true) rs ->
  dict_get (fold_left (fun m r => track_outcome id r m) rs m) id "passed"
  = "failed".
Proof.
  revert m. induction rs as [| r rs IH]; intros m Hm.
  { destruct Hm as [Hm | Hm]; [ exact Hm | inversion Hm ]. }
  cbn [fold_left]. apply IH.
  destruct (track_outcome_cases id r m) as (Hf & _ & _ & Hkeep & _).
  destruct (failed r) eqn:Ef.
  { left. rewrite Hf by done. apply dict_get_insert. }
  destruct Hm as [Hm | Hm].
  - left. rewrite Hkeep; [ exact Hm | done | ]. rewrite Hm. discriminate.
  - right. inversion Hm; subst; [ congruence | assumption ].
Qed.

End Protocol.

Section LifecycleClaims.
Context {B : Type} (backend : Backend B).

(** C3, as amended.  Once the span has started and at least one report with
    failed=true is recorded for the test, the span is ended exactly once:
    with "failed" when the wrapped execution returns normally, and with
    "error" when an [Exception] escapes it, whatever the reports said. *)
Theorem C3_closing_outcome (V : Type) (item : Item) (phases : list Phase)
    (st : State B) :
  _enabled st = true ->
  fst (tracer_start_test backend item (backend_state st)) = None ->
  Exists (fun p => failed (phase_report p) = true) phases ->
  (forall result : V,
     end_test_calls
       (trace (snd (pytest_runtest_protocol backend item
                      (runtestprotocol backend item phases (Completes result))
                      st)))
     = end_test_calls (trace st) ++ [(nodeid item, "failed")]) /\
  (forall e : Exn,
     exn_is_exception e = true ->
     end_test_calls
       (trace (snd (pytest_runtest_protocol backend item
                      (runtestprotocol (V:=V) backend item phases (Aborts e))
                      st)))
     = end_test_calls (trace st) ++ [(nodeid item, "error")]).
Proof.
  intros Hen Hstart Hfailed.
  destruct (tracer_start_test backend item (backend_state st))
    as [r b1] eqn:E. cbn in Hstart. subst r.
  set (st1 := {| _enabled := _enabled st;
                 _test_outcomes := dict_pop (_test_outcomes st) (nodeid item);
                 backend_state := b1;
                 trace := trace st ++ [StartTest (nodeid item)] |}).
  assert (Hcalls : end_test_calls
                     (trace (record_reports backend item phases st1))
                   = end_test_calls (trace st)).
  { rewrite record_reports_end_test_calls. unfold st1. cbn [trace].
    rewrite end_test_calls_app. cbn. apply app_nil_r. }
  assert (Hres : resolve (record_reports backend item phases st1) item
                 = "failed").
  { unfold resolve.
    destruct (record_reports_globals backend item phases st1 Hen) as [_ ->].
    apply track_outcome_failed_absorbs. right.
    clear -Hfailed. induction Hfailed as [p ps Hp | p ps _ IH]; cbn.
    - by apply Exists_cons_hd.
    - by apply Exists_cons_tl. }
  split.
  - intros result.
    rewrite (protocol_started backend item _ st b1 _ _ Hen E
               (runtestprotocol_run backend item phases (Completes result) st1)).
    destruct (protocol_after_yield_run backend item
                (ending_result (Completes result))
                (record_reports backend item phases st1))
      as (r & st' & -> & _ & _ & Htr & _).
    cbn [snd]. rewrite Htr, Hcalls. cbn [ending_result]. by rewrite Hres.
  - intros e He.
    rewrite (protocol_started backend item _ st b1 _ _ Hen E
               (runtestprotocol_run backend item phases (Aborts e) st1)).
    destruct (protocol_after_yield_run backend item
                (ending_result (V:=V) (Aborts e))
                (record_reports backend item phases st1))
      as (r & st' & -> & _ & _ & Htr & _).
    cbn [snd]. rewrite Htr, Hcalls. cbn [ending_result]. by rewrite He.
Qed.

End LifecycleClaims.

(** Counterexample to C3 as stated: the call report is failed and then an
    [Exception] escapes the wrapped execution; the span is ended with
    "error", not with "failed". *)
Lemma C3_closing_outcome_counterexample :
  let item := {| nodeid := "t" |} in
  let phases := [plain_phase "setup" "passed"; plain_phase "call" "failed"] in
  Exists (fun p => failed (phase_report p) = true) phases /\
  end_test_calls
    (trace (snd (pytest_runtest_protocol registry_backend item
                   (runtestprotocol (V:=bool) registry_backend item phases
                      (Aborts (Exception "runner error")))
                   (enabled_state true))))
  = [("t", "error")] /\
  "error" <> "failed".
Proof.
  cbn zeta. split; [ | split ].
  - apply Exists_cons_tl, Exists_cons_hd. reflexivity.
  - vm_compute. reflexivity.
  - discriminate.
Qed.

(** Witness for C3: setup passes, the call fails, teardown passes, and the
    wrapped execution returns. *)
Lemma C3_closing_outcome_witness :
  let item := {| nodeid := "t" |} in
  let phases := [plain_phase "setup" "passed"; plain_phase "call" "failed";
                 plain_phase "teardown" "passed"] in
  end_test_calls
    (trace (snd (pytest_runtest_protocol registry_backend item
                   (runtestprotocol registry_backend item phases
                      (Completes true))
                   (enabled_state true))))
  = end_test_calls (trace (enabled_state true)) ++ [("t", "failed")].
Proof.
  cbn zeta.
  refine (proj1 (C3_closing_outcome registry_backend bool {| nodeid := "t" |}
                   [plain_phase "setup" "passed"; plain_phase "call" "failed";
                    plain_phase "teardown" "passed"]
                   (enabled_state true) eq_refl eq_refl _) true).
  apply Exists_cons_tl, Exists_cons_hd. reflexivity.
Defined.

Section StartFailure.
Context {B : Type} (backend : Backend B).

Lemma Exists_failed_reports (phases : list Phase) :
  Exists (fun p => failed (phase_report p) = true) phases ->
  Exists (fun r => failed r = true) (map phase_report phases).
Proof.
  induction 1 as [p ps Hp | p ps _ IH]; cbn.
  - by apply Exists_cons_hd.
  - by apply Exists_cons_tl.
Qed.

(** When [tracer.start_test] raises, the hook returns through the early
    [return (yield)]: the runner's result passes through, no span is ended,
    and the entry that the report hook wrote for a failed phase stays in
    [_test_outcomes]. *)
Lemma protocol_start_failed_keeps_entry {V} (item : Item)
    (phases : list Phase) (result : V) (st : State B) msg b1 :
  _enabled st = true ->
  tracer_start_test backend item (backend_state st) = (Some msg, b1) ->
  Exists (fun p => failed (phase_report p) = true) phases ->
  let run := pytest_runtest_protocol backend item
               (runtestprotocol backend item phases (Completes result)) st in
  fst run = Ok result /\
  _test_outcomes (snd run) !! nodeid item = Some "failed" /\
  end_test_calls (trace (snd run)) = end_test_calls (trace st).
Proof.
  intros Hen Hstart Hfailed. cbn zeta.
  rewrite (protocol_start_failed backend item _ st msg b1 Hen Hstart).
  rewrite runtestprotocol_run. cbn [fst snd ending_result].
  split; [ reflexivity | split ].
  - match goal with
    | |- _test_outcomes (record_reports _ _ _ ?s) !! _ = _ =>
        destruct (record_reports_globals backend item phases s Hen)
          as [_ ->];
        pose proof (track_outcome_failed_absorbs (nodeid item)
                      (map phase_report phases) (_test_outcomes s)
                      (or_intror (Exists_failed_reports phases Hfailed)))
          as Hres
    end.
    unfold dict_get in Hres.
    destruct (fold_left _ _ _ !! nodeid item) as [o |];
      [ by rewrite Hres | discriminate ].
  - rewrite record_reports_end_test_calls. cbn [trace].
    rewrite !end_test_calls_app. cbn. by rewrite !app_nil_r.
Qed.

End StartFailure.

(** C2: the code at the failing input.  The plugin is enabled, the tracing
    backend is down so [tracer.start_test] raises, and the test's call phase
    fails.  The hook passes the runner's result through, never ends a span,
    and leaves the entry that the report hook wrote for the test in
    [_test_outcomes]. *)
Theorem C2_start_failure_leaves_entry :
  let item := {| nodeid := "t" |} in
  let phases := [plain_phase "setup" "passed"; plain_phase "call" "failed";
                 plain_phase "teardown" "passed"] in
  let run := pytest_runtest_protocol registry_backend item
               (runtestprotocol registry_backend item phases (Completes true))
               (enabled_state false) in
  fst run = Ok true /\
  _test_outcomes (snd run) !! "t" = Some "failed" /\
  end_test_calls (trace (snd run)) = [].
Proof.
  cbn zeta. repeat split; vm_compute; reflexivity.
Qed.

(** Counterexample to C5 as stated: the call phase fails, so the test ends as
    "failed", and the teardown report, which is not itself failed, carries
    captured stdout; nothing at all is handed to the logger. *)
Lemma C5_capture_gate_counterexample :
  let item := {| nodeid := "t" |} in
  let teardown :=
    {| phase_call := {| excinfo := None |};
       phase_report := {| when := "teardown"; outcome := "passed";
                          failed := false; skipped := false;
                          capstdout := Some "teardown output";
                          capstderr := None; longrepr := None |} |} in
  let run := pytest_runtest_protocol registry_backend item
               (runtestprotocol registry_backend item
                  [plain_phase "call" "failed"; teardown] (Completes true))
               (enabled_state true) in
  end_test_calls (trace (snd run)) = [("t", "failed")] /\
  truthy_text (capstdout (phase_report teardown)) = Some "teardown output" /\
  stdio_artifacts (trace (snd run)) = [].
Proof.
  cbn zeta. repeat split; vm_compute; reflexivity.
Qed.

(** Witness for C5: a teardown report that is not failed. *)
Lemma C5_capture_gate_witness :
  let report := {| when := "teardown"; outcome := "passed";
                   failed := false; skipped := false;
                   capstdout := Some "teardown output";
                   capstderr := None; longrepr := None |} in
  _capture_test_output registry_backend {| nodeid := "t" |} report
    (enabled_state true)
  = (Ok tt, enabled_state true).
Proof.
  cbn zeta.
  apply (proj1 (C5_capture_gate registry_backend {| nodeid := "t" |} _)).
  - right. reflexivity.
  - reflexivity.
Defined.

(** Witness for C6: a call report with captured stdout and, for the cut,
    the text "hello" under a cap of 3 and of 8. *)
Lemma C6_artifact_truncation_witness :
  let report := {| when := "call"; outcome := "passed";
                   failed := false; skipped := false;
                   capstdout := Some "hello";
                   capstderr := None; longrepr := None |} in
  (exists st',
     _capture_test_output registry_backend {| nodeid := "t" |} report
       (enabled_state true) = (Ok tt, st') /\
     stdio_artifacts (trace st')
     = [("hello", stdio_attributes STDIO_STREAM_STDOUT false,
         context_get_current)]) /\
  String.length (slice_to 3 "hello") = 3 /\
  slice_to 8 "hello" = "hello".
Proof.
  cbn zeta.
  destruct (C6_artifact_truncation registry_backend {| nodeid := "t" |}
              {| when := "call"; outcome := "passed";
                 failed := false; skipped := false;
                 capstdout := Some "hello";
                 capstderr := None; longrepr := None |}
              None (enabled_state true)
              (or_introl eq_refl) eq_refl (fun b => eq_refl))
    as ((st' & Hrun & Harts) & Hcut & _).
  split; [ | split ].
  - exists st'. split; [ exact Hrun | exact Harts ].
  - apply (proj1 (Hcut 3 "hello")). cbn. lia.
  - apply (proj2 (Hcut 8 "hello")). cbn. lia.
Defined.

(** Witness for C9: a call report with captured stdout for a test whose
    span was never registered. *)
Lemma C9_missing_span_degrades_witness :
  let report := {| when := "call"; outcome := "passed";
                   failed := false; skipped := false;
                   capstdout := Some "hello";
                   capstderr := None; longrepr := None |} in
  exists st',
    _capture_test_output registry_backend {| nodeid := "t" |} report
      (enabled_state true) = (Ok tt, st') /\
    stdio_artifacts (trace st')
    = stdio_artifacts (trace (enabled_state true))
      ++ expected_artifacts report context_get_current.
Proof.
  cbn zeta.
  apply (proj2 (proj2 (C9_missing_span_degrades registry_backend
                         {| nodeid := "t" |} {| excinfo := None |}
                         {| when := "call"; outcome := "passed";
                            failed := false; skipped := false;
                            capstdout := Some "hello";
                            capstderr := None; longrepr := None |}
                         (enabled_state true) eq_refl (or_introl eq_refl)))).
  intros b. reflexivity.
Defined.

(** Witness for C10: a span that has stopped recording. *)
Lemma C10_non_recording_span_ignored_witness :
  let sp := {| span_name := "t"; is_recording := false |} in
  emit_stdio_log registry_backend "out" STDIO_STREAM_STDOUT (Some sp) false
    (enabled_state true)
  = emit_stdio_log registry_backend "out" STDIO_STREAM_STDOUT None false
      (enabled_state true).
Proof.
  cbn zeta.
  apply (proj1 (C10_non_recording_span_ignored registry_backend "out"
                  STDIO_STREAM_STDOUT false)).
  reflexivity.
Defined.

(** * Further properties of the hooks *)

(** ** The lifecycle hook is transparent to the runner *)

Section Transparency.
Context {B : Type} (backend : Backend B).

Lemma pytest_runtest_makereport_disabled item call report (st : State B) :
  _enabled st = false ->
  pytest_runtest_makereport backend item call report st = (Ok report, st).
Proof.
  intros Hen. unfold pytest_runtest_makereport.
  rewrite bind_run. cbn [get_enabled]. by rewrite Hen.
Qed.

Lemma record_reports_disabled item (phases : list Phase) (st : State B) :
  _enabled st = false -> record_reports backend item phases st = st.
Proof.
  intros Hen. induction phases as [| p phases IH]; [ reflexivity | ].
  cbn [record_reports fold_left].
  rewrite pytest_runtest_makereport_disabled by exact Hen. exact IH.
Qed.

(** How the hook ends when the wrapped execution raised [e] and recording
    the exception on the span did not itself raise. *)
Lemma protocol_after_yield_reraises {V} (item : Item) (e : Exn)
    (st2 : State B) :
  (forall b, fst (tracer_record_exception backend item e b) = None) ->
  fst (protocol_after_yield (V:=V) backend item (Raise e) st2) = Raise e.
Proof.
  intros Hrec. unfold protocol_after_yield.
  destruct (exn_is_exception e) eqn:He.
  all: unfold bind, attempt, try_except, log_event, backend_call,
         get_test_outcomes, set_test_outcomes, ret, resume, raise;
       cbn [backend_state trace _enabled _test_outcomes].
  - specialize (Hrec (backend_state st2)).
    destruct (tracer_record_exception backend item e (backend_state st2))
      as [[msg |] b1]; cbn in Hrec; [ discriminate | ].
    cbn [backend_state trace _enabled _test_outcomes].
    destruct (tracer_end_test backend item "error" b1) as [[msg |] b2];
      reflexivity.
  - destruct (tracer_end_test backend item "passed" (backend_state st2))
      as [[msg |] b2]; reflexivity.
Qed.

(** X1. The lifecycle hook never changes what the wrapped execution
    returns: whether the plugin is disabled, the span could not be started,
    or ending the span fails, a result of the wrapped execution is the
    result of the hook. *)
Theorem X1_protocol_passes_result {V} (item : Item) (body : M B V) (v : V)
    (st : State B) :
  (forall s, fst (body s) = Ok v) ->
  fst (pytest_runtest_protocol backend item body st) = Ok v.
Proof.
  intros Hbody.
  destruct (_enabled st) eqn:Hen;
    [ | by rewrite protocol_disabled ].
  destruct (tracer_start_test backend item (backend_state st))
    as [[msg |] b1] eqn:Hstart.
  - by rewrite (protocol_start_failed backend item body st msg b1 Hen Hstart).
  - match type of Hstart with
    | _ = (None, ?b) =>
        destruct (body {| _enabled := _enabled st;
                          _test_outcomes :=
                            dict_pop (_test_outcomes st) (nodeid item);
                          backend_state := b;
                          trace := trace st ++ [StartTest (nodeid item)] |})
          as [res st2] eqn:Hrun
    end.
    pose proof (f_equal fst Hrun) as Hres. rewrite Hbody in Hres.
    cbn in Hres. subst res.
    rewrite (protocol_started backend item body st b1 _ st2 Hen Hstart Hrun).
    destruct (protocol_after_yield_run backend item (Ok v) st2)
      as (r & st' & -> & _ & _ & _ & ->). reflexivity.
Qed.

(** X2. The lifecycle hook never swallows an exception of the wrapped
    execution: the hook raises too.  It raises the very same exception when
    that is not an [Exception] instance, and also when recording it on the
    span returns normally; only a failure of [tracer.record_exception]
    itself can replace it. *)
Theorem X2_protocol_never_swallows {V} (item : Item) (body : M B V) (e : Exn)
    (st : State B) :
  (forall s, fst (body s) = Raise e) ->
  exists e',
    fst (pytest_runtest_protocol backend item body st) = Raise e' /\
    (exn_is_exception e = false -> e' = e) /\
    ((forall b, fst (tracer_record_exception backend item e b) = None) ->
     e' = e).
Proof.
  intros Hbody.
  destruct (_enabled st) eqn:Hen.
  2: { exists e. rewrite protocol_disabled by exact Hen. auto. }
  destruct (tracer_start_test backend item (backend_state st))
    as [[msg |] b1] eqn:Hstart.
  { exists e.
    rewrite (protocol_start_failed backend item body st msg b1 Hen Hstart).
    auto. }
  match type of Hstart with
  | _ = (None, ?b) =>
      destruct (body {| _enabled := _enabled st;
                        _test_outcomes :=
                          dict_pop (_test_outcomes st) (nodeid item);
                        backend_state := b;
                        trace := trace st ++ [StartTest (nodeid item)] |})
        as [res st2] eqn:Hrun
  end.
  pose proof (f_equal fst Hrun) as Hres. rewrite Hbody in Hres.
  cbn in Hres. subst res.
  rewrite (protocol_started backend item body st b1 _ st2 Hen Hstart Hrun).
  destruct (protocol_after_yield_run backend item (Raise (A:=V) e) st2)
    as (r & st' & Hafter & _ & _ & _ & e' & -> & Hsame).
  exists e'. rewrite Hafter. cbn [fst]. split; [ reflexivity | ].
  split; [ exact Hsame | ].
  intros Hrec.
  pose proof (protocol_after_yield_reraises (V:=V) item e st2 Hrec) as Hre.
  rewrite Hafter in Hre. cbn in Hre. congruence.
Qed.

(** X3. With the plugin disabled the two per-test hooks together are the
    identity: wrapping the runner's execution of any phases changes no
    global, calls no collaborator, logs nothing, and ends the way the runner
    ended. *)
Theorem X3_disabled_is_identity {V} (item : Item) (phases : list Phase)
    (ending : Ending V) (st : State B) :
  _enabled st = false ->
  pytest_runtest_protocol backend item
    (runtestprotocol backend item phases ending) st
  = (ending_result ending, st).
Proof.
  intros Hen. rewrite protocol_disabled by exact Hen.
  rewrite runtestprotocol_run. by rewrite record_reports_disabled.
Qed.

End Transparency.

(** Witness for X1: the runner's execution of a passing test over a backend
    that is down. *)
Lemma X1_protocol_passes_result_witness :
  fst (pytest_runtest_protocol registry_backend {| nodeid := "t" |}
         (runtestprotocol registry_backend {| nodeid := "t" |}
            [plain_phase "call" "passed"] (Completes 7%Z))
         (enabled_state false))
  = Ok 7%Z.
Proof.
  apply (X1_protocol_passes_result registry_backend).
  intros s. by rewrite runtestprotocol_run.
Defined.

(** Witness for X2: the runner aborts with an [Exception] after a passing
    call phase. *)
Lemma X2_protocol_never_swallows_witness :
  exists e',
    fst (pytest_runtest_protocol registry_backend {| nodeid := "t" |}
           (runtestprotocol (V:=bool) registry_backend {| nodeid := "t" |}
              [plain_phase "call" "passed"]
              (Aborts (Exception "internal error")))
           (enabled_state true))
    = Raise e' /\
    e' = Exception "internal error".
Proof.
  destruct (X2_protocol_never_swallows registry_backend {| nodeid := "t" |}
              (runtestprotocol (V:=bool) registry_backend {| nodeid := "t" |}
                 [plain_phase "call" "passed"]
                 (Aborts (Exception "internal error")))
              (Exception "internal error") (enabled_state true)
              (fun s => f_equal fst
                 (runtestprotocol_run registry_backend _ _ _ s)))
    as (e' & Hraise & _ & Hsame).
  exists e'. split; [ exact Hraise | ].
  apply Hsame. intros b. reflexivity.
Defined.

(** Witness for X3: a failing test while the plugin is disabled. *)
Lemma X3_disabled_is_identity_witness :
  pytest_runtest_protocol registry_backend {| nodeid := "t" |}
    (runtestprotocol registry_backend {| nodeid := "t" |}
       [plain_phase "call" "failed"] (Completes true))
    (initial_state {| backend_up := true; spans := ∅; clock := 0 |})
  = (Ok true, initial_state {| backend_up := true; spans := ∅; clock := 0 |}).
Proof.
  apply (X3_disabled_is_identity registry_backend {| nodeid := "t" |}
           [plain_phase "call" "failed"] (Completes true)).
  reflexivity.
Defined.

(** ** What one test leaves behind *)

Section Lifecycle.
Context {B : Type} (backend : Backend B).

Lemma start_test_calls_app (tr1 tr2 : list Event) :
  start_test_calls (tr1 ++ tr2)
  = start_test_calls tr1 ++ start_test_calls tr2.
Proof. apply omap_app. Qed.

Lemma record_exception_calls_app (tr1 tr2 : list Event) :
  record_exception_calls (tr1 ++ tr2)
  = record_exception_calls tr1 ++ record_exception_calls tr2.
Proof. apply omap_app. Qed.

Lemma start_test_calls_report_events (tr evs : list Event) :
  Forall (fun e => is_report_event e = true) evs ->
  start_test_calls (tr ++ evs) = start_test_calls tr.
Proof.
  intros Hall. rewrite start_test_calls_app.
  induction Hall as [| e evs He _ IH]; [ apply app_nil_r | ].
  destruct e; cbn in *; (discriminate || exact IH).
Qed.

Lemma record_exception_calls_capture_events (tr evs : list Event) :
  Forall (fun e => is_capture_event e = true) evs ->
  record_exception_calls (tr ++ evs) = record_exception_calls tr.
Proof.
  intros Hall. rewrite record_exception_calls_app.
  induction Hall as [| e evs He _ IH]; [ apply app_nil_r | ].
  destruct e; cbn in *; (discriminate || exact IH).
Qed.

(** Capturing output produces diagnostics and logger records only. *)
Lemma _capture_test_output_events item report :
  adds (fun e => is_capture_event e = true)
    (_capture_test_output backend item report).
Proof.
  unfold _capture_test_output.
  destruct (negb (bool_decide (when report = "call")) && negb (failed report));
    [ apply adds_ret | ].
  apply adds_bind; [ apply adds_backend_query | intros test_span ].
  apply adds_bind;
    [ destruct test_span; [ apply adds_ret | by apply adds_log_event ]
    | intros _ ].
  apply adds_bind;
    [ destruct (truthy_text (capstdout report));
      [ by apply emit_stdio_log_adds | apply adds_ret ] | intros _ ].
  apply adds_bind;
    [ destruct (truthy_text (capstderr report));
      [ by apply emit_stdio_log_adds | apply adds_ret ] | intros _ ].
  destruct (if failed report then truthy_longrepr (longrepr report) else None);
    [ by apply emit_stdio_log_adds | apply adds_ret ].
Qed.

(** The part of the report hook after the outcome is tracked: recording the
    call-phase exception. *)
Lemma pytest_runtest_makereport_exceptions item call report (st : State B) :
  record_exception_calls
    (trace (snd (pytest_runtest_makereport backend item call report st)))
  = record_exception_calls (trace st)
    ++ (if _enabled st
        then match excinfo call with
             | Some value => if bool_decide (when report = "call")
                             then [(nodeid item, value)] else []
             | None => []
             end
        else []).
Proof.
  unfold pytest_runtest_makereport.
  rewrite bind_run. cbn [get_enabled].
  destruct (_enabled st) eqn:Hen; cbn [negb];
    [ | cbn; by rewrite app_nil_r ].
  rewrite bind_run. cbn [get_test_outcomes].
  rewrite bind_run. cbn [set_test_outcomes].
  rewrite bind_run.
  set (st1 := Build_State _ _ _ _).
  assert (Hrest : forall s : State B,
            record_exception_calls
              (trace (snd (bind
                 (try_except (_capture_test_output backend item report)
                    (fun e => log_event
                       (Diag LWARNING ("Failed to capture test output for "
                                       ++ nodeid item ++ ": " ++ exn_msg e)%string)))
                 (fun _ => ret report) s)))
            = record_exception_calls (trace s)).
  { intros s.
    match goal with
    | |- context [ bind ?c ?k s ] =>
        assert (Hadds : adds (fun e => is_capture_event e = true) (bind c k))
    end.
    { apply adds_bind; [ | intros _; apply adds_ret ].
      apply adds_try_except;
        [ apply _capture_test_output_events
        | intros e; by apply adds_log_event ]. }
    destruct (Hadds s) as (evs & -> & Hall).
    by apply record_exception_calls_capture_events. }
  destruct (excinfo call) as [value |].
  2: { cbn [ret]. rewrite Hrest. unfold st1. cbn [trace].
       by rewrite app_nil_r. }
  destruct (bool_decide (when report = "call")).
  2: { cbn [ret]. rewrite Hrest. unfold st1. cbn [trace].
       by rewrite app_nil_r. }
  unfold try_except at 1, bind at 1, log_event at 1 2, backend_call.
  cbn [backend_state trace _enabled _test_outcomes].
  destruct (tracer_record_exception backend item value (backend_state st1))
    as [[msg |] b1];
    cbn [exn_is_exception Exception backend_state trace _enabled
           _test_outcomes];
    rewrite Hrest; cbn [trace]; unfold st1; cbn [trace];
    rewrite ?record_exception_calls_app; cbn; by rewrite ?app_nil_r.
Qed.

Lemma record_reports_exceptions item (phases : list Phase) (st : State B) :
  _enabled st = true ->
  record_exception_calls (trace (record_reports backend item phases st))
  = record_exception_calls (trace st) ++ phase_exceptions item phases.
Proof.
  revert st. induction phases as [| p phases IH]; intros st Hen.
  { cbn. by rewrite app_nil_r. }
  cbn [record_reports fold_left phase_exceptions flat_map].
  destruct (pytest_runtest_makereport_globals backend item (phase_call p)
              (phase_report p) st) as [Hen' _].
  cbn zeta in Hen'. rewrite Hen in Hen'.
  unfold record_reports in IH. rewrite (IH _ Hen').
  rewrite pytest_runtest_makereport_exceptions, Hen.
  by rewrite <- app_assoc.
Qed.

Lemma pytest_runtest_makereport_events item call report :
  adds (fun e => is_report_event e = true)
    (pytest_runtest_makereport backend item call report).
Proof.
  assert (Hweaken : forall e, is_capture_event e = true ->
                              is_report_event e = true).
  { intros []; cbn; congruence. }
  unfold pytest_runtest_makereport.
  apply adds_bind; [ apply adds_get_enabled | intros enabled ].
  destruct (negb enabled); [ apply adds_ret | ].
  apply adds_bind; [ apply adds_get_test_outcomes | intros outcomes ].
  apply adds_bind; [ apply adds_set_test_outcomes | intros _ ].
  apply adds_bind.
  { destruct (excinfo call) as [value |]; [ | apply adds_ret ].
    destruct (bool_decide (when report = "call")); [ | apply adds_ret ].
    apply adds_try_except.
    - apply adds_bind; [ by apply adds_log_event | intros _ ].
      apply adds_backend_call.
    - intros e'. by apply adds_log_event. }
  intros _. apply adds_bind; [ | intros _; apply adds_ret ].
  apply adds_try_except; [ | intros e; by apply adds_log_event ].
  intros s. destruct (_capture_test_output_events item report s)
    as (evs & Htr & Hall).
  exists evs. split; [ exact Htr | ].
  eapply Forall_impl; [ exact Hall | exact Hweaken ].
Qed.

Lemma record_reports_start_test_calls item (phases : list Phase)
    (st : State B) :
  start_test_calls (trace (record_reports backend item phases st))
  = start_test_calls (trace st).
Proof.
  revert st. induction phases as [| p phases IH]; intros st; [ reflexivity | ].
  cbn [record_reports fold_left].
  unfold record_reports in IH. rewrite IH.
  destruct (pytest_runtest_makereport_events item (phase_call p)
              (phase_report p) st) as (evs & -> & Hall).
  by apply start_test_calls_report_events.
Qed.

(** The trace of the block after the [yield], seen through the calls to
    [tracer.start_test] and [tracer.record_exception]. *)
Lemma protocol_after_yield_calls {V} (item : Item) (yielded : Result V)
    (st2 : State B) :
  let st' := snd (protocol_after_yield backend item yielded st2) in
  start_test_calls (trace st') = start_test_calls (trace st2) /\
  record_exception_calls (trace st')
  = record_exception_calls (trace st2)
    ++ match yielded with
       | Ok _ => []
       | Raise e => if exn_is_exception e then [(nodeid item, e)] else []
       end.
Proof.
  cbn zeta. unfold protocol_after_yield.
  destruct yielded as [v | e]; [ | destruct (exn_is_exception e) eqn:He ].
  all: unfold bind, attempt, try_except, log_event, backend_call,
         get_test_outcomes, set_test_outcomes, ret, resume, raise;
       cbn [backend_state trace _enabled _test_outcomes].
  all: repeat match goal with
       | |- context [ tracer_record_exception backend ?i ?x ?b ] =>
           destruct (tracer_record_exception backend i x b) as [[? |] ?];
           cbn [backend_state trace _enabled _test_outcomes]
       | |- context [ tracer_end_test backend ?i ?x ?b ] =>
           destruct (tracer_end_test backend i x b) as [[? |] ?];
           cbn [backend_state trace _enabled _test_outcomes
                  exn_is_exception Exception]
       end.
  all: cbn -[start_test_calls record_exception_calls].
  all: rewrite ?start_test_calls_app, ?record_exception_calls_app.
  all: cbn; rewrite ?app_nil_r; split; reflexivity.
Qed.

Lemma track_outcome_delete id (r : TestReport) (m : gmap string string) :
  delete id (track_outcome id r m) = delete id m.
Proof.
  unfold track_outcome.
  repeat match goal with
         | |- context [ if ?b then _ else _ ] => destruct b
         end; rewrite ?delete_insert_eq; reflexivity.
Qed.

Lemma track_outcome_fold_delete id (rs : list TestReport)
    (m : gmap string string) :
  delete id (fold_left (fun m r => track_outcome id r m) rs m) = delete id m.
Proof.
  revert m. induction rs as [| r rs IH]; intros m; [ reflexivity | ].
  cbn [fold_left]. rewrite IH. apply track_outcome_delete.
Qed.

Lemma track_outcome_fold_other id id' (rs : list TestReport)
    (m : gmap string string) :
  id <> id' ->
  fold_left (fun m r => track_outcome id r m) rs m !! id' = m !! id'.
Proof.
  intros Hne. revert m. induction rs as [| r rs IH]; intros m; [ reflexivity | ].
  cbn [fold_left]. rewrite IH. by apply track_outcome_other.
Qed.

End Lifecycle.

Section LifecycleProperties.
Context {B : Type} (backend : Backend B).

(** The state in which the wrapped execution starts once the span is open. *)
Lemma protocol_started_run {V} (item : Item) (phases : list Phase)
    (ending : Ending V) (st : State B) b1 :
  _enabled st = true ->
  tracer_start_test backend item (backend_state st) = (None, b1) ->
  pytest_runtest_protocol backend item
    (runtestprotocol backend item phases ending) st
  = protocol_after_yield backend item (ending_result ending)
      (record_reports backend item phases
         {| _enabled := _enabled st;
            _test_outcomes := dict_pop (_test_outcomes st) (nodeid item);
            backend_state := b1;
            trace := trace st ++ [StartTest (nodeid item)] |}).
Proof.
  intros Hen Hstart.
  apply (protocol_started backend item _ st b1 _ _ Hen Hstart).
  apply runtestprotocol_run.
Qed.

(** The outcome with which a started span is ended. *)
Lemma protocol_started_end_test_calls {V} (item : Item) (phases : list Phase)
    (ending : Ending V) (st : State B) :
  _enabled st = true ->
  fst (tracer_start_test backend item (backend_state st)) = None ->
  end_test_calls
    (trace (snd (pytest_runtest_protocol backend item
                   (runtestprotocol backend item phases ending) st)))
  = end_test_calls (trace st)
    ++ [(nodeid item,
         match ending with
         | Completes _ =>
             dict_get
               (fold_left (fun m r => track_outcome (nodeid item) r m)
                  (map phase_report phases)
                  (dict_pop (_test_outcomes st) (nodeid item)))
               (nodeid item) "passed"
         | Aborts e => if exn_is_exception e then "error" else "passed"
         end)].
Proof.
  intros Hen Hstart.
  destruct (tracer_start_test backend item (backend_state st))
    as [r b1] eqn:E. cbn in Hstart. subst r.
  rewrite (protocol_started_run item phases ending st b1 Hen E).
  set (st1 := {| _enabled := _enabled st;
                 _test_outcomes := dict_pop (_test_outcomes st) (nodeid item);
                 backend_state := b1;
                 trace := trace st ++ [StartTest (nodeid item)] |}).
  destruct (protocol_after_yield_run backend item (ending_result ending)
              (record_reports backend item phases st1))
    as (r & st' & -> & _ & _ & Htr & _).
  cbn [snd]. rewrite Htr, record_reports_end_test_calls.
  unfold st1 at 1. cbn [trace]. rewrite end_test_calls_app. cbn [end_test_calls omap].
  rewrite app_nil_r. do 2 f_equal.
  destruct ending as [v | e]; cbn [ending_result]; [ | reflexivity ].
  unfold resolve.
  by destruct (record_reports_globals backend item phases st1 Hen) as [_ ->].
Qed.

(** X4. Spans are started and ended in pairs.  With the plugin enabled, one
    run of the lifecycle hook calls [tracer.start_test] exactly once, for
    this test; it calls [tracer.end_test] exactly once, for this test, when
    the start succeeded, however the wrapped execution ended, and not at all
    when the start failed. *)
Theorem X4_span_start_end_pairing {V} (item : Item) (phases : list Phase)
    (ending : Ending V) (st : State B) :
  _enabled st = true ->
  let st' := snd (pytest_runtest_protocol backend item
                    (runtestprotocol backend item phases ending) st) in
  start_test_calls (trace st') = start_test_calls (trace st) ++ [nodeid item] /\
  match fst (tracer_start_test backend item (backend_state st)) with
  | None => exists o,
      end_test_calls (trace st') = end_test_calls (trace st) ++ [(nodeid item, o)]
  | Some _ => end_test_calls (trace st') = end_test_calls (trace st)
  end.
Proof.
  intros Hen. cbn zeta.
  destruct (tracer_start_test backend item (backend_state st))
    as [[msg |] b1] eqn:Hstart; cbn [fst].
  - rewrite (protocol_start_failed backend item _ st msg b1 Hen Hstart).
    rewrite runtestprotocol_run. cbn [snd].
    rewrite record_reports_start_test_calls, record_reports_end_test_calls.
    cbn [trace].
    rewrite !start_test_calls_app, !end_test_calls_app. cbn.
    by rewrite !app_nil_r.
  - split.
    + rewrite (protocol_started_run item phases ending st b1 Hen Hstart).
      destruct (protocol_after_yield_calls backend item
                  (ending_result ending)
                  (record_reports backend item phases
                     {| _enabled := _enabled st;
                        _test_outcomes :=
                          dict_pop (_test_outcomes st) (nodeid item);
                        backend_state := b1;
                        trace := trace st ++ [StartTest (nodeid item)] |}))
        as [-> _].
      rewrite record_reports_start_test_calls. cbn [trace].
      by rewrite start_test_calls_app.
    + eexists. apply protocol_started_end_test_calls; [ exact Hen | ].
      by rewrite Hstart.
Qed.

(** X5. One run of the lifecycle hook touches the tracked outcome of its own
    test only: every other test's entry is as before, on every path.  When
    the span started, the dictionary afterwards is exactly the one before
    without this test's key. *)
Theorem X5_lifecycle_frame {V} (item : Item) (phases : list Phase)
    (ending : Ending V) (st : State B) :
  let st' := snd (pytest_runtest_protocol backend item
                    (runtestprotocol backend item phases ending) st) in
  (forall id, id <> nodeid item ->
     _test_outcomes st' !! id = _test_outcomes st !! id) /\
  (_enabled st = true ->
   fst (tracer_start_test backend item (backend_state st)) = None ->
   _test_outcomes st' = delete (nodeid item) (_test_outcomes st)).
Proof.
  cbn zeta.
  destruct (_enabled st) eqn:Hen.
  2: { rewrite protocol_disabled by exact Hen. rewrite runtestprotocol_run. cbn [snd]. rewrite record_reports_disabled by exact Hen. split; [ done | discriminate ]. }
  destruct (tracer_start_test backend item (backend_state st))
    as [[msg |] b1] eqn:Hstart; cbn [fst].
  - split; [ | discriminate ].
    intros id Hne.
    rewrite (protocol_start_failed backend item _ st msg b1 Hen Hstart).
    rewrite runtestprotocol_run. cbn [snd].
    match goal with
    | |- _test_outcomes (record_reports _ _ _ ?s) !! _ = _ =>
        destruct (record_reports_globals backend item phases s Hen) as [_ ->]
    end.
    cbn [_test_outcomes].
    rewrite track_outcome_fold_other by done.
    by apply lookup_delete_ne.
  - assert (Hdict :
      _test_outcomes
        (snd (pytest_runtest_protocol backend item
                (runtestprotocol backend item phases ending) st))
      = delete (nodeid item) (_test_outcomes st)).
    { rewrite (protocol_started_run item phases ending st b1 Hen Hstart).
      match goal with
      | |- context [ record_reports backend item phases ?s ] =>
          destruct (protocol_after_yield_run backend item
                      (ending_result ending)
                      (record_reports backend item phases s))
            as (r & st' & -> & _ & Hout & _);
          destruct (record_reports_globals backend item phases s Hen)
            as [_ Hfold]
      end.
      cbn [snd]. rewrite Hout, Hfold. cbn [_test_outcomes]. unfold dict_pop.
      rewrite track_outcome_fold_delete. apply delete_delete_eq. }
    split; [ | intros _ _; exact Hdict ].
    intros id Hne. rewrite Hdict. by apply lookup_delete_ne.
Qed.

End LifecycleProperties.

Section OutcomeProperties.
Context {B : Type} (backend : Backend B).

(** X6. An entry that an earlier run left behind for the same node id does
    not influence the outcome of the next run: the hook pops the entry
    before the test starts, so the span is ended with the same outcome
    whatever was stored. *)
Theorem X6_stale_entry_ignored {V} (item : Item) (phases : list Phase)
    (ending : Ending V) (st : State B) (stale : string) :
  _enabled st = true ->
  fst (tracer_start_test backend item (backend_state st)) = None ->
  end_test_calls
    (trace (snd (pytest_runtest_protocol backend item
                   (runtestprotocol backend item phases ending)
                   (with_test_outcomes st
                      (<[ nodeid item := stale ]> (_test_outcomes st))))))
  = end_test_calls
      (trace (snd (pytest_runtest_protocol backend item
                     (runtestprotocol backend item phases ending) st))).
Proof.
  intros Hen Hstart.
  rewrite (protocol_started_end_test_calls backend item phases ending st
             Hen Hstart).
  rewrite (protocol_started_end_test_calls backend item phases ending
             (with_test_outcomes st _) Hen Hstart).
  cbn [with_test_outcomes trace _test_outcomes]. unfold dict_pop.
  by rewrite delete_insert_eq.
Qed.

(** X7. A failed report is final.  With the plugin enabled, once a report
    with failed=true has been recorded for a test, the test resolves to
    "failed" after any further reports, whatever they contain and whatever
    was tracked before. *)
Theorem X7_failed_is_final (item : Item) (phases : list Phase)
    (st : State B) :
  _enabled st = true ->
  Exists (fun p => failed (phase_report p) = true) phases ->
  resolve (record_reports backend item phases st) item = "failed".
Proof.
  intros Hen Hfailed. unfold resolve.
  destruct (record_reports_globals backend item phases st Hen) as [_ ->].
  apply track_outcome_failed_absorbs. right.
  by apply Exists_failed_reports.
Qed.

Lemma track_outcome_idempotent id (r : TestReport) (m : gmap string string) :
  track_outcome id r (track_outcome id r m) = track_outcome id r m.
Proof.
  pose proof (track_outcome_cases id r) as Hcases. cbn zeta in Hcases.
  destruct (Hcases m) as (Hf & Hsk & Hcall & Hkeep & Hside).
  destruct (failed r) eqn:Ef.
  { rewrite Hf by done.
    destruct (Hcases (<[ id := "failed" ]> m)) as (Hf' & _).
    rewrite Hf' by done. apply insert_insert_eq. }
  destruct (decide (dict_get m id "passed" = "passed")) as [Hcur | Hcur].
  2: { rewrite (Hkeep eq_refl Hcur). by apply Hkeep. }
  destruct (skipped r) eqn:Es.
  { rewrite (Hsk eq_refl eq_refl Hcur).
    destruct (Hcases (<[ id := "skipped" ]> m)) as (_ & _ & _ & Hkeep' & _).
    apply Hkeep'; [ done | ]. rewrite dict_get_insert. discriminate. }
  destruct (decide (when r = "call")) as [Hw | Hw].
  2: { rewrite (Hside eq_refl eq_refl Hw). by apply Hside. }
  rewrite (Hcall eq_refl eq_refl Hw Hcur).
  destruct (Hcases (<[ id := outcome r ]> m))
    as (_ & _ & Hcall' & Hkeep' & _).
  destruct (decide (outcome r = "passed")) as [Ho | Ho].
  - rewrite Hcall'; [ apply insert_insert_eq | done | done | done | ].
    by rewrite dict_get_insert.
  - apply Hkeep'; [ done | ]. by rewrite dict_get_insert.
Qed.

(** X8. Recording is idempotent: handing the same report to the report hook
    a second time leaves the tracked outcomes exactly as after the first
    time. *)
Theorem X8_record_idempotent (item : Item) (call call' : CallInfo)
    (report : TestReport) (st : State B) :
  _test_outcomes
    (snd (pytest_runtest_makereport backend item call' report
            (snd (pytest_runtest_makereport backend item call report st))))
  = _test_outcomes
      (snd (pytest_runtest_makereport backend item call report st)).
Proof.
  destruct (pytest_runtest_makereport_globals backend item call report st)
    as [Hen Hout].
  destruct (pytest_runtest_makereport_globals backend item call' report
              (snd (pytest_runtest_makereport backend item call report st)))
    as [_ Hout'].
  cbn zeta in *. rewrite Hout', Hen, Hout.
  destruct (_enabled st); [ apply track_outcome_idempotent | reflexivity ].
Qed.

(** X9. The outcome with which a started span is ended, for every way the
    wrapped execution can end: on a normal return, the outcome that this
    run's reports resolve to from a cleared entry; "error" when an
    [Exception] escapes; and "passed", the initial value, when an exception
    that is not an [Exception] escapes (a keyboard interrupt), whatever the
    reports said. *)
Theorem X9_closing_outcome_by_ending {V} (item : Item) (phases : list Phase)
    (st : State B) :
  _enabled st = true ->
  fst (tracer_start_test backend item (backend_state st)) = None ->
  let closes (ending : Ending V) (o : string) :=
    end_test_calls
      (trace (snd (pytest_runtest_protocol backend item
                     (runtestprotocol backend item phases ending) st)))
    = end_test_calls (trace st) ++ [(nodeid item, o)] in
  (forall result,
     closes (Completes result)
       (resolve (record_reports backend item phases
                   (with_test_outcomes st
                      (dict_pop (_test_outcomes st) (nodeid item)))) item)) /\
  (forall e, exn_is_exception e = true -> closes (Aborts e) "error") /\
  (forall e, exn_is_exception e = false -> closes (Aborts e) "passed").
Proof.
  intros Hen Hstart closes. unfold closes. split; [ | split ].
  - intros result.
    rewrite (protocol_started_end_test_calls backend item phases _ st
               Hen Hstart).
    unfold resolve.
    by destruct (record_reports_globals backend item phases
                   (with_test_outcomes st
                      (dict_pop (_test_outcomes st) (nodeid item))) Hen)
      as [_ ->].
  - intros e He.
    rewrite (protocol_started_end_test_calls backend item phases _ st
               Hen Hstart).
    by rewrite He.
  - intros e He.
    rewrite (protocol_started_end_test_calls backend item phases _ st
               Hen Hstart).
    by rewrite He.
Qed.

(** X10. Which exceptions reach the span.  Over one started run the hooks
    hand to [tracer.record_exception] exactly the exceptions of the call
    phase, in order, and then the exception that escaped the wrapped
    execution if it is an [Exception]; exceptions of setup and teardown
    phases and escaping non-[Exception]s are never recorded. *)
Theorem X10_recorded_exceptions {V} (item : Item) (phases : list Phase)
    (ending : Ending V) (st : State B) :
  _enabled st = true ->
  fst (tracer_start_test backend item (backend_state st)) = None ->
  record_exception_calls
    (trace (snd (pytest_runtest_protocol backend item
                   (runtestprotocol backend item phases ending) st)))
  = record_exception_calls (trace st)
    ++ phase_exceptions item phases
    ++ match ending with
       | Completes _ => []
       | Aborts e => if exn_is_exception e then [(nodeid item, e)] else []
       end.
Proof.
  intros Hen Hstart.
  destruct (tracer_start_test backend item (backend_state st))
    as [r b1] eqn:E. cbn in Hstart. subst r.
  rewrite (protocol_started_run backend item phases ending st b1 Hen E).
  match goal with
  | |- context [ record_reports backend item phases ?s ] =>
      destruct (protocol_after_yield_calls backend item
                  (ending_result ending)
                  (record_reports backend item phases s)) as [_ ->];
      rewrite (record_reports_exceptions backend item phases s Hen)
  end.
  cbn [trace]. rewrite record_exception_calls_app. cbn [record_exception_calls omap].
  rewrite app_nil_r, <- app_assoc. do 2 f_equal.
  by destruct ending.
Qed.

End OutcomeProperties.

(** Witness for X4: a failing test over a backend that is up. *)
Lemma X4_span_start_end_pairing_witness :
  let st' := snd (pytest_runtest_protocol registry_backend {| nodeid := "t" |}
                    (runtestprotocol registry_backend {| nodeid := "t" |}
                       [plain_phase "call" "failed"] (Completes true))
                    (enabled_state true)) in
  start_test_calls (trace st') = ["t"] /\
  exists o, end_test_calls (trace st') = [("t", o)].
Proof.
  exact (X4_span_start_end_pairing registry_backend {| nodeid := "t" |}
           [plain_phase "call" "failed"] (Completes true)
           (enabled_state true) eq_refl).
Defined.

(** Witness for X5: test "t" runs while test "u" has an entry. *)
Lemma X5_lifecycle_frame_witness :
  let st := with_test_outcomes (enabled_state true) {[ "u" := "skipped" ]} in
  let st' := snd (pytest_runtest_protocol registry_backend {| nodeid := "t" |}
                    (runtestprotocol registry_backend {| nodeid := "t" |}
                       [plain_phase "call" "failed"] (Completes true)) st) in
  "u" <> "t" /\
  _test_outcomes st' !! "u" = _test_outcomes st !! "u" /\
  _test_outcomes st' = delete "t" (_test_outcomes st).
Proof.
  cbn zeta.
  destruct (X5_lifecycle_frame registry_backend {| nodeid := "t" |}
              [plain_phase "call" "failed"] (Completes true)
              (with_test_outcomes (enabled_state true) {[ "u" := "skipped" ]}))
    as [Hother Hown].
  split; [ discriminate | split ].
  - apply Hother. discriminate.
  - apply Hown; reflexivity.
Defined.

(** Witness for X6: a leftover "failed" entry before a passing run. *)
Lemma X6_stale_entry_ignored_witness :
  end_test_calls
    (trace (snd (pytest_runtest_protocol registry_backend {| nodeid := "t" |}
                   (runtestprotocol registry_backend {| nodeid := "t" |}
                      [plain_phase "call" "passed"] (Completes true))
                   (with_test_outcomes (enabled_state true)
                      (<[ "t" := "failed" ]>
                         (_test_outcomes (enabled_state true)))))))
  = end_test_calls
      (trace (snd (pytest_runtest_protocol registry_backend {| nodeid := "t" |}
                     (runtestprotocol registry_backend {| nodeid := "t" |}
                        [plain_phase "call" "passed"] (Completes true))
                     (enabled_state true)))).
Proof.
  apply (X6_stale_entry_ignored registry_backend {| nodeid := "t" |}
           [plain_phase "call" "passed"] (Completes true)
           (enabled_state true) "failed"); reflexivity.
Defined.

(** Witness for X7: setup fails, then a call report claims "passed". *)
Lemma X7_failed_is_final_witness :
  resolve (record_reports registry_backend {| nodeid := "t" |}
             [plain_phase "setup" "failed"; plain_phase "call" "passed";
              plain_phase "teardown" "skipped"]
             (enabled_state true)) {| nodeid := "t" |}
  = "failed".
Proof.
  apply (X7_failed_is_final registry_backend); [ reflexivity | ].
  apply Exists_cons_hd. reflexivity.
Defined.

(** Witness for X9: a failed call phase, then a keyboard interrupt. *)
Lemma X9_closing_outcome_by_ending_witness :
  let interrupt := {| exn_is_exception := false;
                      exn_msg := "KeyboardInterrupt" |} in
  end_test_calls
    (trace (snd (pytest_runtest_protocol registry_backend {| nodeid := "t" |}
                   (runtestprotocol (V:=bool) registry_backend
                      {| nodeid := "t" |}
                      [plain_phase "call" "failed"] (Aborts interrupt))
                   (enabled_state true))))
  = end_test_calls (trace (enabled_state true)) ++ [("t", "passed")].
Proof.
  cbn zeta.
  apply (proj2 (proj2 (X9_closing_outcome_by_ending (V:=bool) registry_backend
                         {| nodeid := "t" |} [plain_phase "call" "failed"]
                         (enabled_state true) eq_refl eq_refl))).
  reflexivity.
Defined.

(** Witness for X10: exceptions in setup and in the call phase, then the
    runner aborts with an [Exception]. *)
Lemma X10_recorded_exceptions_witness :
  let item := {| nodeid := "t" |} in
  let setup := {| phase_call := {| excinfo := Some (Exception "fixture") |};
                  phase_report := plain_report "setup" "failed" |} in
  let call := {| phase_call := {| excinfo := Some (Exception "assert") |};
                 phase_report := plain_report "call" "failed" |} in
  record_exception_calls
    (trace (snd (pytest_runtest_protocol registry_backend item
                   (runtestprotocol (V:=bool) registry_backend item
                      [setup; call] (Aborts (Exception "internal")))
                   (enabled_state true))))
  = [("t", Exception "assert"); ("t", Exception "internal")].
Proof.
  cbn zeta.
  apply (X10_recorded_exceptions (V:=bool) registry_backend {| nodeid := "t" |}
           [ {| phase_call := {| excinfo := Some (Exception "fixture") |};
                phase_report := plain_report "setup" "failed" |};
             {| phase_call := {| excinfo := Some (Exception "assert") |};
                phase_report := plain_report "call" "failed" |} ]
           (Aborts (Exception "internal")) (enabled_state true));
    reflexivity.
Defined.

(** ** Bounds and failure modes of the artifact path *)

Section ArtifactProperties.
Context {B : Type} (backend : Backend B).

Lemma stdio_artifacts_no_emit (tr evs : list Event) :
  Forall (fun e => is_logger_emit e = false) evs ->
  stdio_artifacts (tr ++ evs) = stdio_artifacts tr.
Proof.
  intros Hall. rewrite stdio_artifacts_app.
  induction Hall as [| e evs He _ IH]; [ apply app_nil_r | ].
  destruct e; cbn in *; (discriminate || exact IH).
Qed.

(** When the logger cannot be obtained, one emission raises that failure
    before any record is built. *)
Lemma emit_stdio_log_unavailable text stream span eof (st : State B) msg :
  fst (config_get_logger backend (backend_state st)) = Some msg ->
  fst (emit_stdio_log backend text stream span eof st) = Raise (Exception msg) /\
  trace (snd (emit_stdio_log backend text stream span eof st)) = trace st.
Proof.
  intros Hlogger. unfold emit_stdio_log. rewrite bind_run.
  unfold backend_call.
  destruct (config_get_logger backend (backend_state st)) as [[m |] b1];
    cbn in Hlogger; [ | discriminate ].
  injection Hlogger as ->. split; reflexivity.
Qed.

(** X11. A log pipeline that is down costs only the artifacts.  If
    [get_logger] raises whenever it is called, [emit_stdio_log] raises that
    exception without handing anything to the logger, and the report hook
    still returns its report, still tracks the outcome, and hands no record
    to the logger. *)
Theorem X11_pipeline_down (item : Item) (call : CallInfo)
    (report : TestReport) (st : State B) :
  (forall b, exists msg, fst (config_get_logger backend b) = Some msg) ->
  (forall text stream span eof (s : State B),
     exists msg,
       fst (emit_stdio_log backend text stream span eof s)
       = Raise (Exception msg) /\
       trace (snd (emit_stdio_log backend text stream span eof s)) = trace s) /\
  let run := pytest_runtest_makereport backend item call report st in
  fst run = Ok report /\
  _test_outcomes (snd run)
  = (if _enabled st
     then track_outcome (nodeid item) report (_test_outcomes st)
     else _test_outcomes st) /\
  stdio_artifacts (trace (snd run)) = stdio_artifacts (trace st).
Proof.
  intros Hdown.
  assert (Hemit : forall text stream span eof (s : State B),
             exists msg,
               fst (emit_stdio_log backend text stream span eof s)
               = Raise (Exception msg) /\
               trace (snd (emit_stdio_log backend text stream span eof s))
               = trace s).
  { intros text stream span eof s.
    destruct (Hdown (backend_state s)) as [msg Hmsg]. exists msg.
    by apply emit_stdio_log_unavailable. }
  split; [ exact Hemit | ]. cbn zeta.
  split; [ | split ].
  - destruct (pytest_runtest_makereport_returns backend item call report st)
      as (r & Hr & ->). exact Hr.
  - apply pytest_runtest_makereport_globals.
  - set (P := fun e => is_logger_emit e = false).
    assert (Hsilent : forall text stream span eof,
               adds (B:=B) P (emit_stdio_log backend text stream span eof)).
    { intros text stream span eof s.
      destruct (Hemit text stream span eof s) as (msg & _ & Htr).
      exists []. rewrite app_nil_r. split; [ exact Htr | constructor ]. }
    assert (Hhook : adds P (pytest_runtest_makereport backend item call report)).
    { unfold pytest_runtest_makereport.
      apply adds_bind; [ apply adds_get_enabled | intros enabled ].
      destruct (negb enabled); [ apply adds_ret | ].
      apply adds_bind; [ apply adds_get_test_outcomes | intros outcomes ].
      apply adds_bind; [ apply adds_set_test_outcomes | intros _ ].
      apply adds_bind.
      { destruct (excinfo call) as [value |]; [ | apply adds_ret ].
        destruct (bool_decide (when report = "call")); [ | apply adds_ret ].
        apply adds_try_except.
        - apply adds_bind; [ by apply adds_log_event | intros _ ].
          apply adds_backend_call.
        - intros e'. by apply adds_log_event. }
      intros _. apply adds_bind; [ | intros _; apply adds_ret ].
      apply adds_try_except; [ | intros e; by apply adds_log_event ].
      unfold _capture_test_output.
      destruct (negb (bool_decide (when report = "call"))
                && negb (failed report)); [ apply adds_ret | ].
      apply adds_bind; [ apply adds_backend_query | intros test_span ].
      apply adds_bind;
        [ destruct test_span; [ apply adds_ret | by apply adds_log_event ]
        | intros _ ].
      apply adds_bind;
        [ destruct (truthy_text (capstdout report));
          [ apply Hsilent | apply adds_ret ] | intros _ ].
      apply adds_bind;
        [ destruct (truthy_text (capstderr report));
          [ apply Hsilent | apply adds_ret ] | intros _ ].
      destruct (if failed report then truthy_longrepr (longrepr report)
                else None); [ apply Hsilent | apply adds_ret ]. }
    destruct (Hhook st) as (evs & -> & Hall).
    by apply stdio_artifacts_no_emit.
Qed.

(** X12. Every record that capturing a report hands to the logger is
    bounded and tagged: its body has at most 16384 units, at most 8192 on
    the stdout stream; its stream attribute is 1 or 2; and it never carries
    the end-of-stream attribute.  Besides such records, capturing adds only
    local diagnostics to the trace. *)
Theorem X12_captured_records_bounded (item : Item) (report : TestReport)
    (st : State B) :
  exists evs,
    trace (snd (_capture_test_output backend item report st))
    = trace st ++ evs /\
    Forall
      (fun e =>
         match e with
         | LoggerEmit r =>
             String.length (body r) <= N.to_nat 16384 /\
             attributes r !! STDIO_EOF_ATTR = None /\
             ((attributes r !! STDIO_STREAM_ATTR = Some (AInt 1) /\
               String.length (body r) <= N.to_nat 8192) \/
              attributes r !! STDIO_STREAM_ATTR = Some (AInt 2))
         | Diag _ _ => True
         | _ => False
         end) evs.
Proof.
  set (P := fun e : Event => match e with
                             | LoggerEmit r => _
                             | Diag _ _ => True
                             | _ => False
                             end).
  assert (Hle : N.to_nat 8192 <= N.to_nat 16384) by lia.
  assert (Hout : forall text span,
             adds (B:=B) P
               (emit_stdio_log backend (slice_to (N.to_nat 8192) text)
                  STDIO_STREAM_STDOUT span false)).
  { intros text span. apply emit_stdio_log_adds. intros r Hb Ha _.
    unfold P. rewrite Hb, Ha, slice_to_length.
    split; [ lia | ]. split; [ reflexivity | ].
    left. split; [ reflexivity | lia ]. }
  assert (Herr : forall cap text span,
             cap <= N.to_nat 16384 ->
             adds (B:=B) P
               (emit_stdio_log backend (slice_to cap text)
                  STDIO_STREAM_STDERR span false)).
  { intros cap text span Hcap. apply emit_stdio_log_adds. intros r Hb Ha _.
    unfold P. rewrite Hb, Ha, slice_to_length.
    split; [ lia | ]. split; [ reflexivity | ].
    right. reflexivity. }
  assert (Hadds : adds P (_capture_test_output backend item report)).
  { unfold _capture_test_output.
    destruct (negb (bool_decide (when report = "call"))
              && negb (failed report)); [ apply adds_ret | ].
    apply adds_bind; [ apply adds_backend_query | intros test_span ].
    apply adds_bind;
      [ destruct test_span; [ apply adds_ret | by apply adds_log_event ]
      | intros _ ].
    apply adds_bind;
      [ destruct (truthy_text (capstdout report));
        [ apply Hout | apply adds_ret ] | intros _ ].
    apply adds_bind;
      [ destruct (truthy_text (capstderr report));
        [ by apply Herr | apply adds_ret ] | intros _ ].
    destruct (if failed report then truthy_longrepr (longrepr report)
              else None); [ by apply Herr | apply adds_ret ]. }
  exact (Hadds st).
Qed.

End ArtifactProperties.

(** A backend whose log pipeline is down: [get_logger] always raises. *)
Lemma X11_pipeline_down_witness :
  let down : Backend Registry :=
    {| tracer_start_test := tracer_start_test registry_backend;
       tracer_end_test := tracer_end_test registry_backend;
       tracer_record_exception := tracer_record_exception registry_backend;
       tracer_get_test_span := tracer_get_test_span registry_backend;
       config_get_logger b := (Some "logger provider not configured", b);
       logger_emit := logger_emit registry_backend;
       time_ns := time_ns registry_backend |} in
  let report := {| when := "call"; outcome := "failed";
                   failed := true; skipped := false;
                   capstdout := Some "out"; capstderr := None;
                   longrepr := None |} in
  let run := pytest_runtest_makereport down {| nodeid := "t" |}
               {| excinfo := None |} report (enabled_state true) in
  fst run = Ok report /\
  _test_outcomes (snd run) = <[ "t" := "failed" ]> ∅ /\
  stdio_artifacts (trace (snd run)) = [].
Proof.
  cbn zeta.
  refine (proj2 (X11_pipeline_down _ {| nodeid := "t" |} {| excinfo := None |}
                   _ (enabled_state true) _)).
  intros b. eexists. reflexivity.
Defined.

(** ** Configuration and session hooks *)

Section Configuration.
Context {B S : Type} (sb : SessionBackend B S).

Ltac run_plugin :=
  unfold pytest_configure, pytest_unconfigure, ptry_except, pbind, plift,
    pret, new_OtelLogHandler, set_log_handler, update_root_handlers,
    backend_call, log_event, set_enabled;
  cbn [hooks _log_handler root_handlers next_object
       _enabled _test_outcomes backend_state trace].

Lemma remove_first_app_fresh (x : nat) (l : list nat) :
  x ∉ l -> remove_first x (l ++ [x]) = l.
Proof.
  induction l as [| y l IH]; intros Hx; cbn.
  - by rewrite decide_True.
  - rewrite decide_False; [ | intros ->; apply Hx; left ].
    f_equal. apply IH. intros Hin. apply Hx. by right.
Qed.

Lemma removeHandler_addHandler_fresh (h : nat) (l : list nat) :
  h ∉ l -> removeHandler h (addHandler h l) = l.
Proof.
  intros Hh. unfold addHandler.
  rewrite decide_False by exact Hh.
  unfold removeHandler.
  rewrite decide_True by (apply elem_of_app; right; by left).
  by apply remove_first_app_fresh.
Qed.

(** X13. What [pytest_configure] leaves behind.  With [--no-otel] it only
    logs: the plugin's globals, the root logger and the backend stay as they
    are.  Otherwise it never raises, and afterwards the plugin is enabled
    exactly when [otel_config.configure()] returned normally: then a new
    handler is the plugin's [_log_handler] and is on the root logger; when
    [configure()] raised, the plugin is disabled and no handler was
    created or installed.  The tracked outcomes are never touched. *)
Theorem X13_configure_outcome (p : Plugin B) :
  (exists tr,
     pytest_configure sb true p
     = (Ok tt, {| hooks := {| _enabled := _enabled (hooks p);
                              _test_outcomes := _test_outcomes (hooks p);
                              backend_state := backend_state (hooks p);
                              trace := trace (hooks p) ++ [Diag LDEBUG tr] |};
                  _log_handler := _log_handler p;
                  root_handlers := root_handlers p;
                  next_object := next_object p |})) /\
  let run := pytest_configure sb false p in
  fst run = Ok tt /\
  _test_outcomes (hooks (snd run)) = _test_outcomes (hooks p) /\
  match fst (otel_config_configure sb (backend_state (hooks p))) with
  | None =>
      _enabled (hooks (snd run)) = true /\
      _log_handler (snd run) = Some (next_object p) /\
      root_handlers (snd run) = addHandler (next_object p) (root_handlers p) /\
      next_object p ∈ root_handlers (snd run)
  | Some msg =>
      _enabled (hooks (snd run)) = false /\
      _log_handler (snd run) = _log_handler p /\
      root_handlers (snd run) = root_handlers p /\
      next_object (snd run) = next_object p
  end.
Proof.
  split; [ eexists; reflexivity | ].
  cbn zeta. run_plugin.
  destruct (otel_config_configure sb (backend_state (hooks p)))
    as [[msg |] b1]; cbn; repeat split.
  unfold addHandler. case_decide; [ assumption | ].
  apply elem_of_app. right. by left.
Qed.

(** X14. Configuring and unconfiguring is a round trip for the root logger.
    If the handlers on the root logger are objects that already exist, then
    after a successful [pytest_configure] followed by [pytest_unconfigure]
    the root logger has exactly the handlers it had, the plugin holds no
    handler, and the plugin is disabled, whether or not
    [otel_config.shutdown()] raised. *)
Theorem X14_configure_unconfigure_round_trip (p : Plugin B) :
  Forall (fun h => h < next_object p) (root_handlers p) ->
  fst (otel_config_configure sb (backend_state (hooks p))) = None ->
  let p' := snd (pytest_unconfigure sb (snd (pytest_configure sb false p))) in
  root_handlers p' = root_handlers p /\
  _log_handler p' = None /\
  _enabled (hooks p') = false /\
  _test_outcomes (hooks p') = _test_outcomes (hooks p).
Proof.
  intros Hold Hok. cbn zeta.
  assert (Hfresh : next_object p ∉ root_handlers p).
  { intros Hin. rewrite Forall_forall in Hold. specialize (Hold _ Hin). lia. }
  run_plugin.
  destruct (otel_config_configure sb (backend_state (hooks p)))
    as [[msg |] b1]; cbn in Hok; [ discriminate | ].
  cbn [exn_is_exception Exception fst snd hooks _log_handler root_handlers
       next_object _enabled _test_outcomes backend_state trace negb].
  destruct (otel_config_shutdown sb b1) as [[msg |] b2];
    cbn [exn_is_exception Exception fst snd hooks _log_handler root_handlers
         next_object _enabled _test_outcomes backend_state trace];
    rewrite removeHandler_addHandler_fresh by exact Hfresh; auto.
Qed.


(** X16. The session hooks never raise and never touch the per-test
    globals.  With the plugin disabled they do nothing; with it enabled they
    make their one tracer call and log one diagnostic: a debug line when the
    call returned, a warning that carries the error when it raised. *)
Theorem X16_session_hooks (session : S) (exitstatus : Z) (st : State B) :
  let start := pytest_sessionstart sb session st in
  let finish := pytest_sessionfinish sb session exitstatus st in
  (fst start = Ok tt /\ fst finish = Ok tt) /\
  (_enabled (snd start) = _enabled st /\
   _test_outcomes (snd start) = _test_outcomes st /\
   _enabled (snd finish) = _enabled st /\
   _test_outcomes (snd finish) = _test_outcomes st) /\
  (_enabled st = false -> snd start = st /\ snd finish = st) /\
  (_enabled st = true ->
   backend_state (snd start)
   = snd (tracer_start_session sb session (backend_state st)) /\
   backend_state (snd finish)
   = snd (tracer_end_session sb exitstatus (backend_state st)) /\
   trace (snd start)
   = trace st
     ++ [match fst (tracer_start_session sb session (backend_state st)) with
         | None => Diag LDEBUG "Started session span"
         | Some msg =>
             Diag LWARNING ("Failed to start session span: " ++ msg)%string
         end] /\
   trace (snd finish)
   = trace st
     ++ [match fst (tracer_end_session sb exitstatus (backend_state st)) with
         | None =>
             Diag LDEBUG ("Ended session span with exit status "
                          ++ pretty exitstatus)%string
         | Some msg =>
             Diag LWARNING ("Failed to end session span: " ++ msg)%string
         end]).
Proof.
  cbn zeta.
  unfold pytest_sessionstart, pytest_sessionfinish, bind, try_except,
    get_enabled, backend_call, log_event, ret.
  cbn [_enabled _test_outcomes backend_state trace].
  destruct (_enabled st) eqn:Hen; cbn [negb].
  2: { cbn. repeat split; try done; by destruct st. }
  destruct (tracer_start_session sb session (backend_state st))
    as [[msg |] b1];
    destruct (tracer_end_session sb exitstatus (backend_state st))
      as [[msg' |] b2];
    cbn; repeat split; try done.
Qed.

End Configuration.

(** ** The logging handler *)

Section HandlerProperties.
Context {B L : Type} (env : Handler.Env B L).

Ltac run_handler :=
  unfold Handler.emit, Handler.emit_to_pipeline, Handler.handleError,
    Handler.with_env;
  cbn [Handler.level Handler._otel_logger Handler.env_state Handler.events].

Ltac split_env :=
  repeat match goal with
  | |- context [ Handler.format env ?r ?b ] =>
      destruct (Handler.format env r b) as [[? | ?] ?]
  | |- context [ Handler.get_current_span env ?b ] =>
      let sp := fresh "sp" in
      destruct (Handler.get_current_span env b) as [sp ?];
      destruct (is_recording sp) eqn:?
  | |- context [ Handler.add_event env ?s ?n ?a ?b ] =>
      destruct (Handler.add_event env s n a b) as [[? |] ?]
  | |- context [ Handler.get_logger env ?b ] =>
      destruct (Handler.get_logger env b) as [[? | ?] ?]
  | |- context [ Handler.logger_emit env ?l ?r ?b ] =>
      destruct (Handler.logger_emit env l r b) as [? ?]
  | |- context [ Handler._otel_logger ?h ] =>
      is_var h; destruct (Handler._otel_logger h) eqn:?
  end;
  cbn [Handler.level Handler._otel_logger Handler.env_state Handler.events].

(** X19. One call of [emit] does at most one of each thing: it adds at most
    one span event, calls [get_logger] at most once, and either hands at
    most one record to the log pipeline or calls [handleError] once, never
    both.  It keeps the handler's level, and it never forgets or replaces a
    logger it has cached. *)
Theorem X19_emit_at_most_once (record : Handler.LoggingRecord)
    (h : Handler.State B L) :
  let h' := Handler.emit env record h in
  Handler.level h' = Handler.level h /\
  (forall logger, Handler._otel_logger h = Some logger ->
                  Handler._otel_logger h' = Some logger) /\
  exists evs,
    Handler.events h' = Handler.events h ++ evs /\
    length (Handler.span_events evs) <= 1 /\
    Handler.get_logger_calls evs <= 1 /\
    length (Handler.emitted evs) + length (Handler.handled_errors evs) <= 1.
Proof.
  cbn zeta. run_handler. split_env.
  all: split; [ reflexivity | ].
  all: split; [ intros logger; congruence | ].
  all: rewrite <- ?app_assoc; eexists; split; [ reflexivity | ].
  all: cbn; lia.
Qed.

Lemma build_attributes_core (record : Handler.LoggingRecord) (msg : string) :
  Handler.build_attributes record msg !! "log.logger"
  = Some (Handler.VStr (Handler.name record)) /\
  Handler.build_attributes record msg !! "log.level"
  = Some (Handler.VStr (Handler.levelname record)) /\
  Handler.build_attributes record msg !! "log.message"
  = Some (Handler.VStr msg).
Proof.
  unfold Handler.build_attributes. cbn zeta.
  destruct (Handler.exc_info record) as [[exc |] |];
    destruct (Handler.funcName record) as [f |];
    repeat case_decide;
    repeat split;
    repeat (rewrite lookup_insert_ne by discriminate);
    first [ apply lookup_insert_eq | apply lookup_singleton_eq ].
Qed.

(** X18. A log line shows up in both places with the same content.  When
    formatting succeeds, the current span is recording, adding the span
    event returns and a logger is at hand (cached, or [get_logger]
    returns one), [emit] adds one span event named "log." followed by the
    lower-cased level name and hands one record to the log pipeline; both
    carry the same attributes, which hold the logger name, level name and
    message; the record's body is the formatted message, its severity is
    [_get_severity] of the record's level number, and [handleError] is not
    called. *)
Theorem X18_emit_dual (record : Handler.LoggingRecord)
    (h : Handler.State B L) (msg : string) (span : Span) (logger : L)
    (b1 b2 b3 : B) :
  Handler.format env record (Handler.env_state h) = (inr msg, b1) ->
  Handler.get_current_span env b1 = (span, b2) ->
  is_recording span = true ->
  let attributes := Handler.build_attributes record msg in
  let event_name := ("log." ++ Handler.lower env (Handler.levelname record))%string in
  Handler.add_event env span event_name attributes b2 = (None, b3) ->
  match Handler._otel_logger h with
  | Some cached => cached = logger
  | None => fst (Handler.get_logger env b3) = inr logger
  end ->
  let h' := Handler.emit env record h in
  exists evs,
    Handler.events h' = Handler.events h ++ evs /\
    Handler.span_events evs = [(span, event_name, attributes)] /\
    Handler.emitted evs
    = [ {| Handler.timestamp := Handler.created_ns record;
           Handler.observed_timestamp := Handler.created_ns record;
           Handler.severity_text := Handler.levelname record;
           Handler.severity_number := _get_severity (Handler.levelno record);
           Handler.body := msg;
           Handler.resource := Handler.logger_resource env logger;
           Handler.attributes := attributes;
           Handler.context := context_get_current |} ] /\
    Handler.handled_errors evs = [] /\
    Handler._otel_logger h' = Some logger /\
    attributes !! "log.logger" = Some (Handler.VStr (Handler.name record)) /\
    attributes !! "log.level" = Some (Handler.VStr (Handler.levelname record)) /\
    attributes !! "log.message" = Some (Handler.VStr msg).
Proof.
  intros Hfmt Hspan Hrec attributes event_name Hadd Hlogger. cbn zeta.
  destruct (build_attributes_core record msg) as (Hc1 & Hc2 & Hc3).
  run_handler. rewrite Hfmt, Hspan, Hrec.
  fold attributes. fold event_name. rewrite Hadd.
  cbn [Handler.level Handler._otel_logger Handler.env_state Handler.events].
  destruct (Handler._otel_logger h) as [cached |] eqn:Hcached.
  - subst cached.
    destruct (Handler.logger_emit env logger _ b3) as [r b4].
    cbn [Handler.level Handler._otel_logger Handler.env_state Handler.events].
    rewrite <- app_assoc. eexists. split; [ reflexivity | ].
    cbn. repeat split; assumption.
  - destruct (Handler.get_logger env b3) as [[err | lg] b4];
      cbn in Hlogger; [ discriminate | ].
    injection Hlogger as ->.
    cbn [Handler.level Handler._otel_logger Handler.env_state Handler.events].
    destruct (Handler.logger_emit env logger _ b4) as [r b5].
    cbn [Handler.level Handler._otel_logger Handler.env_state Handler.events].
    rewrite <- !app_assoc. eexists. split; [ reflexivity | ].
    cbn. repeat split; assumption.
Qed.

(** X20. Which failures reach [handleError].  A failing [format] ends the
    call at once: [handleError] is called and nothing else happens.  A
    failing [span.add_event] also ends in [handleError], and the record is
    then not handed to the log pipeline.  A failure of the log pipeline
    itself, [get_logger] or the logger's [emit] raising, never reaches
    [handleError]. *)
Theorem X20_emit_failures (record : Handler.LoggingRecord)
    (h : Handler.State B L) :
  let h' := Handler.emit env record h in
  let '(formatted, b1) := Handler.format env record (Handler.env_state h) in
  match formatted with
  | inl _ =>
      Handler.events h' = Handler.events h ++ [Handler.HandleError record] /\
      Handler._otel_logger h' = Handler._otel_logger h
  | inr msg =>
      let '(span, b2) := Handler.get_current_span env b1 in
      let attributes := Handler.build_attributes record msg in
      let event_name :=
        ("log." ++ Handler.lower env (Handler.levelname record))%string in
      if is_recording span then
        match fst (Handler.add_event env span event_name attributes b2) with
        | Some _ =>
            Handler.events h'
            = Handler.events h
              ++ [Handler.AddEvent span event_name attributes;
                  Handler.HandleError record]
        | None =>
            exists evs,
              Handler.events h'
              = Handler.events h
                ++ Handler.AddEvent span event_name attributes :: evs /\
              Handler.handled_errors evs = []
        end
      else
        exists evs,
          Handler.events h' = Handler.events h ++ evs /\
          Handler.handled_errors evs = [] /\
          Handler.span_events evs = []
  end.
Proof.
  cbn zeta. run_handler.
  destruct (Handler.format env record (Handler.env_state h))
    as [[err | msg] b1].
  { cbn [Handler.level Handler._otel_logger Handler.env_state Handler.events].
    by rewrite app_nil_r. }
  destruct (Handler.get_current_span env b1) as [span b2].
  destruct (is_recording span).
  - destruct (Handler.add_event env span _ _ b2) as [[err |] b3];
      cbn [fst Handler.level Handler._otel_logger Handler.env_state
           Handler.events].
    + by rewrite <- app_assoc.
    + split_env.
      all: rewrite <- ?app_assoc; eexists; split; [ reflexivity | ].
      all: reflexivity.
  - cbn [Handler.level Handler._otel_logger Handler.env_state Handler.events].
    split_env.
    all: rewrite ?app_nil_r, <- ?app_assoc; eexists; split; [ reflexivity | ].
    all: split; reflexivity.
Qed.

Lemma emit_cached (record : Handler.LoggingRecord) (h : Handler.State B L)
    (logger : L) :
  Handler._otel_logger h = Some logger ->
  Handler._otel_logger (Handler.emit env record h) = Some logger /\
  Handler.get_logger_calls (Handler.events (Handler.emit env record h))
  = Handler.get_logger_calls (Handler.events h).
Proof.
  intros Hcached. run_handler.
  destruct (Handler.format env record (Handler.env_state h))
    as [[err | msg] b1];
    cbn [Handler.level Handler._otel_logger Handler.env_state Handler.events].
  { split; [ first [ exact Hcached | reflexivity ] | ].
    unfold Handler.get_logger_calls. rewrite !omap_app, !length_app.
    cbn. lia. }
  destruct (Handler.get_current_span env b1) as [span b2].
  destruct (is_recording span).
  - destruct (Handler.add_event env span _ _ b2) as [[err |] b3];
      cbn [Handler.level Handler._otel_logger Handler.env_state
           Handler.events];
      rewrite ?Hcached;
      try match goal with
      | |- context [ Handler.logger_emit env ?l ?r ?b ] =>
          destruct (Handler.logger_emit env l r b) as [? ?]
      end;
      cbn [Handler.level Handler._otel_logger Handler.env_state
           Handler.events];
      (split; [ first [ exact Hcached | reflexivity ] | ]);
      unfold Handler.get_logger_calls; rewrite !omap_app, !length_app;
      cbn; lia.
  - cbn [Handler.level Handler._otel_logger Handler.env_state Handler.events].
    rewrite Hcached.
    destruct (Handler.logger_emit env logger _ b2) as [r b3].
    cbn [Handler.level Handler._otel_logger Handler.env_state Handler.events].
    split; [ first [ exact Hcached | reflexivity ] | ].
    unfold Handler.get_logger_calls. rewrite !omap_app, !length_app.
    cbn. lia.
Qed.

Lemma emit_get_logger_calls (record : Handler.LoggingRecord)
    (h : Handler.State B L) :
  Handler.get_logger_calls (Handler.events (Handler.emit env record h))
  <= Handler.get_logger_calls (Handler.events h) + 1.
Proof.
  run_handler. split_env.
  all: unfold Handler.get_logger_calls; rewrite ?omap_app, ?length_app.
  all: cbn; lia.
Qed.

(** X21. The logger is obtained once.  A handler that holds a logger keeps
    that logger over any number of records and never calls [get_logger]
    again; and a handler without one asks [get_logger] at most once per
    record, so a pipeline that stays unavailable never stops the span
    events. *)
Theorem X21_logger_cached (records : list Handler.LoggingRecord)
    (h : Handler.State B L) :
  (forall logger,
     Handler._otel_logger h = Some logger ->
     Handler._otel_logger (Handler.emit_all env records h) = Some logger /\
     Handler.get_logger_calls (Handler.events (Handler.emit_all env records h))
     = Handler.get_logger_calls (Handler.events h)) /\
  Handler.get_logger_calls (Handler.events (Handler.emit_all env records h))
  <= Handler.get_logger_calls (Handler.events h) + length records.
Proof.
  split.
  - intros logger. revert h.
    induction records as [| record records IH]; intros h Hcached.
    { split; [ exact Hcached | reflexivity ]. }
    cbn [Handler.emit_all fold_left].
    destruct (emit_cached record h logger Hcached) as [Hkept Hcalls].
    destruct (IH _ Hkept) as [IH1 IH2]. unfold Handler.emit_all in IH1, IH2.
    split; [ exact IH1 | by rewrite IH2 ].
  - revert h. induction records as [| record records IH]; intros h.
    { cbn. lia. }
    cbn [Handler.emit_all fold_left length].
    specialize (IH (Handler.emit env record h)).
    unfold Handler.emit_all in IH.
    pose proof (emit_get_logger_calls record h). lia.
Qed.

End HandlerProperties.

(** ** From configuration to the per-test hooks *)

Section Inert.
Context {B S : Type} (backend : Backend B) (sb : SessionBackend B S).

Lemma pytest_unconfigure_disables (p : Plugin B) :
  _enabled (hooks (snd (pytest_unconfigure sb p))) = false.
Proof.
  unfold pytest_unconfigure, ptry_except, pbind, plift, pret,
    set_log_handler, update_root_handlers, backend_call, log_event,
    set_enabled.
  destruct (_enabled (hooks p)) eqn:Hen; cbn [negb]; [ | exact Hen ].
  destruct (_log_handler p);
    cbn [hooks _log_handler root_handlers next_object
         _enabled _test_outcomes backend_state trace];
    destruct (otel_config_shutdown sb (backend_state (hooks p)))
      as [[msg |] b1]; reflexivity.
Qed.

Lemma pytest_configure_failure_disables (p : Plugin B) :
  fst (otel_config_configure sb (backend_state (hooks p))) <> None ->
  _enabled (hooks (snd (pytest_configure sb false p))) = false.
Proof.
  intros Hfail.
  unfold pytest_configure, ptry_except, pbind, plift, backend_call,
    log_event, set_enabled.
  destruct (otel_config_configure sb (backend_state (hooks p)))
    as [[msg |] b1]; [ reflexivity | ].
  by destruct Hfail.
Qed.

(** X17. A plugin that is not configured is inert.  After
    [pytest_unconfigure], and after a [pytest_configure] whose
    [otel_config.configure()] raised, the per-test hooks are the identity:
    wrapping the runner's execution of any phases changes nothing, calls no
    collaborator, and ends the way the runner ended. *)
Theorem X17_inert_when_not_configured {V} (p : Plugin B) (item : Item)
    (phases : list Phase) (ending : Ending V) :
  let inert (st : State B) :=
    pytest_runtest_protocol backend item
      (runtestprotocol backend item phases ending) st
    = (ending_result ending, st) in
  inert (hooks (snd (pytest_unconfigure sb p))) /\
  (fst (otel_config_configure sb (backend_state (hooks p))) <> None ->
   inert (hooks (snd (pytest_configure sb false p)))).
Proof.
  assert (Hinert : forall st : State B,
             _enabled st = false ->
             pytest_runtest_protocol backend item
               (runtestprotocol backend item phases ending) st
             = (ending_result ending, st)).
  { intros st Hen. rewrite protocol_disabled by exact Hen.
    rewrite runtestprotocol_run. by rewrite record_reports_disabled. }
  cbn zeta. split.
  - apply Hinert, pytest_unconfigure_disables.
  - intros Hfail. by apply Hinert, pytest_configure_failure_disables.
Qed.

End Inert.

(** Witness for X14: a fresh plugin whose root logger already has two
    handlers, over a backend that is up. *)
Lemma X14_configure_unconfigure_round_trip_witness :
  let p := initial_plugin {| backend_up := true; spans := ∅; clock := 0 |}
             [0; 1] 2 in
  let p' := snd (pytest_unconfigure registry_session_backend
                   (snd (pytest_configure registry_session_backend false p))) in
  root_handlers p' = [0; 1] /\
  _log_handler p' = None /\
  _enabled (hooks p') = false /\
  _test_outcomes (hooks p') = ∅.
Proof.
  cbn zeta.
  apply (X14_configure_unconfigure_round_trip registry_session_backend
           (initial_plugin {| backend_up := true; spans := ∅; clock := 0 |}
              [0; 1] 2)).
  - repeat constructor.
  - reflexivity.
Defined.


(** Witness for X16: the session hooks on a disabled plugin. *)
Lemma X16_session_hooks_witness :
  let st := initial_state {| backend_up := true; spans := ∅; clock := 0 |} in
  snd (pytest_sessionstart registry_session_backend "session" st) = st /\
  snd (pytest_sessionfinish registry_session_backend "session" 1 st) = st.
Proof.
  cbn zeta.
  apply (X16_session_hooks registry_session_backend "session" 1%Z
           (initial_state {| backend_up := true; spans := ∅; clock := 0 |})).
  reflexivity.
Defined.

(** Witness for X17: configuration fails because the backend is down. *)
Lemma X17_inert_when_not_configured_witness :
  let p := initial_plugin {| backend_up := false; spans := ∅; clock := 0 |}
             [] 0 in
  let st := hooks (snd (pytest_configure registry_session_backend false p)) in
  pytest_runtest_protocol registry_backend {| nodeid := "t" |}
    (runtestprotocol registry_backend {| nodeid := "t" |}
       [plain_phase "call" "failed"] (Completes true)) st
  = (Ok true, st).
Proof.
  cbn zeta.
  apply (proj2 (X17_inert_when_not_configured registry_backend
                  registry_session_backend
                  (initial_plugin
                     {| backend_up := false; spans := ∅; clock := 0 |} [] 0)
                  {| nodeid := "t" |} [plain_phase "call" "failed"]
                  (Completes true))).
  discriminate.
Defined.

(** Witness for X18: a warning while the pipeline is available and no logger
    is cached yet. *)
Lemma X18_emit_dual_witness :
  let h := Handler.__init__ Handler.NOTSET true in
  let h' := Handler.emit example_env example_record h in
  exists evs,
    Handler.events h' = Handler.events h ++ evs /\
    Handler.span_events evs
    = [({| span_name := "test"; is_recording := true |}, "log.warning",
        Handler.build_attributes example_record "app.db:WARNING")] /\
    Handler.severity_number <$> Handler.emitted evs = [SeverityNumber.WARN] /\
    Handler._otel_logger h' = Some "otel".
Proof.
  cbn zeta.
  destruct (X18_emit_dual example_env example_record
              (Handler.__init__ Handler.NOTSET true) "app.db:WARNING"
              {| span_name := "test"; is_recording := true |} "otel"
              true true true eq_refl eq_refl eq_refl eq_refl eq_refl)
    as (evs & Hevs & Hspan & Hemit & _ & Hlogger & _).
  exists evs. split; [ exact Hevs | ]. split; [ exact Hspan | ].
  split; [ by rewrite Hemit | exact Hlogger ].
Defined.

(** Witness for X19: a handler that already holds a logger. *)
Lemma X19_emit_at_most_once_witness :
  let h := {| Handler.level := Handler.NOTSET;
              Handler._otel_logger := Some "otel";
              Handler.env_state := true;
              Handler.events := [] |} in
  Handler._otel_logger (Handler.emit example_env example_record h)
  = Some "otel".
Proof.
  cbn zeta.
  apply (proj1 (proj2 (X19_emit_at_most_once example_env example_record
                         {| Handler.level := Handler.NOTSET;
                            Handler._otel_logger := Some "otel";
                            Handler.env_state := true;
                            Handler.events := [] |}))).
  reflexivity.
Defined.

(** Witness for X21: three records through a handler that holds a logger. *)
Lemma X21_logger_cached_witness :
  let h := {| Handler.level := Handler.NOTSET;
              Handler._otel_logger := Some "otel";
              Handler.env_state := true;
              Handler.events := [] |} in
  let h' := Handler.emit_all example_env
              [example_record; example_record; example_record] h in
  Handler._otel_logger h' = Some "otel" /\
  Handler.get_logger_calls (Handler.events h') = 0.
Proof.
  cbn zeta.
  apply (proj1 (X21_logger_cached example_env
                  [example_record; example_record; example_record]
                  {| Handler.level := Handler.NOTSET;
                     Handler._otel_logger := Some "otel";
                     Handler.env_state := true;
                     Handler.events := [] |})).
  reflexivity.
Defined.

(** ** The severity table and the stdio attributes *)

Lemma _SEVERITY_MAP_entries (level : Z) (severity : SeverityNumber.t) :
  _SEVERITY_MAP !! level = Some severity <->
  (level = 10%Z /\ severity = SeverityNumber.DEBUG) \/
  (level = 20%Z /\ severity = SeverityNumber.INFO) \/
  (level = 30%Z /\ severity = SeverityNumber.WARN) \/
  (level = 40%Z /\ severity = SeverityNumber.ERROR) \/
  (level = 50%Z /\ severity = SeverityNumber.FATAL).
Proof.
  unfold _SEVERITY_MAP, logging.CRITICAL, logging.ERROR, logging.WARNING,
    logging.INFO, logging.DEBUG.
  rewrite !lookup_insert_Some, lookup_singleton_Some.
  split.
  - intros [[<- <-] | [? [[<- <-] | [? [[<- <-] | [? [[<- <-] | [? [<- <-]]]]]]]]];
      auto 10.
  - intros [[-> ->] | [[-> ->] | [[-> ->] | [[-> ->] | [-> ->]]]]];
      intuition lia.
Qed.

(** X22. [_get_severity] is the floor lookup of [_SEVERITY_MAP]: on every key
    of the table it returns the table's value; for any level it returns the
    value at the greatest key that does not exceed the level; and below
    every key it returns DEBUG.  So it never returns a severity that is not
    in the table. *)
Theorem X22_severity_floor_lookup (level : Z) :
  (forall severity,
     _SEVERITY_MAP !! level = Some severity ->
     _get_severity level = severity) /\
  (forall key severity,
     _SEVERITY_MAP !! key = Some severity ->
     (key <= level)%Z ->
     (forall key', is_Some (_SEVERITY_MAP !! key') ->
                   (key' <= level)%Z -> (key' <= key)%Z) ->
     _get_severity level = severity) /\
  ((forall key, is_Some (_SEVERITY_MAP !! key) -> (level < key)%Z) ->
   _get_severity level = SeverityNumber.DEBUG) /\
  (exists key, _SEVERITY_MAP !! key = Some (_get_severity level)).
Proof.
  assert (Hkey : forall k, k = 10%Z \/ k = 20%Z \/ k = 30%Z \/ k = 40%Z
                           \/ k = 50%Z -> is_Some (_SEVERITY_MAP !! k)).
  { intros k Hk.
    destruct Hk as [-> | [-> | [-> | [-> | ->]]]]; eexists;
      apply _SEVERITY_MAP_entries; auto 10. }
  split; [ | split; [ | split ] ].
  - intros severity Hs. apply _SEVERITY_MAP_entries in Hs.
    destruct Hs as [[-> ->] | [[-> ->] | [[-> ->] | [[-> ->] | [-> ->]]]]];
      reflexivity.
  - intros key severity Hs Hle Hmax. apply _SEVERITY_MAP_entries in Hs.
    pose proof (fun k Hk => Hmax k (Hkey k Hk)) as Hmax'.
    pose proof (Hmax' 10%Z) as H10. pose proof (Hmax' 20%Z) as H20.
    pose proof (Hmax' 30%Z) as H30. pose proof (Hmax' 40%Z) as H40.
    pose proof (Hmax' 50%Z) as H50.
    destruct (_get_severity_cases level)
      as [[? ->] | [[? ->] | [[? ->] | [[? ->] | [? ->]]]]];
      destruct Hs as [[-> ->] | [[-> ->] | [[-> ->] | [[-> ->] | [-> ->]]]]];
      first [ reflexivity | exfalso; intuition lia ].
  - intros Hbelow.
    pose proof (Hbelow 10%Z (Hkey 10%Z (or_introl eq_refl))) as H10.
    destruct (_get_severity_cases level)
      as [[? ->] | [[? ->] | [[? ->] | [[? ->] | [? ->]]]]];
      first [ reflexivity | lia ].
  - destruct (_get_severity_cases level)
      as [[? ->] | [[? ->] | [[? ->] | [[? ->] | [? ->]]]]];
      [ exists 10%Z | exists 20%Z | exists 30%Z | exists 40%Z | exists 50%Z ];
      apply _SEVERITY_MAP_entries; auto 10.
Qed.

(** Witness for X22: level 35, between WARNING and ERROR, gets the value at
    the key 30. *)
Lemma X22_severity_floor_lookup_witness :
  _get_severity 35 = SeverityNumber.WARN.
Proof.
  apply (proj1 (proj2 (X22_severity_floor_lookup 35)) 30%Z).
  - reflexivity.
  - lia.
  - intros key' [severity Hs] Hle. apply _SEVERITY_MAP_entries in Hs.
    destruct Hs as [[-> _] | [[-> _] | [[-> _] | [[-> _] | [-> _]]]]]; lia.
Defined.

Section StdioAttributes.
Context {B : Type} (backend : Backend B).

(** X23. The attribute contract of a stdio record.  When the logger is
    available, the record that [emit_stdio_log] hands over has the stream
    selector under "stdio.stream", has "stdio.eof" set to true exactly when
    [eof] was passed, and has no other attribute; its two timestamps are two
    successive readings of the clock. *)
Theorem X23_stdio_attribute_contract (text : string) (stream : Z)
    (span : option Span) (eof : bool) (st : State B) :
  fst (config_get_logger backend (backend_state st)) = None ->
  exists r,
    trace (snd (emit_stdio_log backend text stream span eof st))
    = trace st ++ [LoggerEmit r] /\
    attributes r !! STDIO_STREAM_ATTR = Some (AInt stream) /\
    attributes r !! STDIO_EOF_ATTR
    = (if eof then Some (ABool true) else None) /\
    (forall key, key <> STDIO_STREAM_ATTR -> key <> STDIO_EOF_ATTR ->
                 attributes r !! key = None) /\
    let b1 := snd (config_get_logger backend (backend_state st)) in
    timestamp r = fst (time_ns backend b1) /\
    observed_timestamp r
    = fst (time_ns backend (snd (time_ns backend b1))).
Proof.
  intros Hlogger.
  unfold emit_stdio_log, bind, try_except, backend_call, backend_read,
    log_event, ret.
  cbn [backend_state trace _enabled _test_outcomes].
  destruct (config_get_logger backend (backend_state st)) as [[msg |] b1];
    cbn in Hlogger; [ discriminate | ].
  cbn [backend_state trace _enabled _test_outcomes snd].
  destruct (time_ns backend b1) as [t1 b2].
  cbn [backend_state trace _enabled _test_outcomes fst snd].
  destruct (time_ns backend b2) as [t2 b3].
  cbn [backend_state trace _enabled _test_outcomes fst snd].
  destruct (logger_emit backend _ b3) as [[msg |] b4];
    cbn [exn_is_exception Exception snd trace];
    eexists; (split; [ reflexivity | ]);
    cbn [attributes timestamp observed_timestamp];
    unfold stdio_attributes, STDIO_STREAM_ATTR, STDIO_EOF_ATTR;
    destruct eof;
    repeat split;
    try (intros key Hk1 Hk2);
    rewrite ?lookup_insert_ne by done;
    rewrite ?lookup_insert_eq, ?lookup_singleton_eq, ?lookup_singleton_ne
      by done;
    try reflexivity.
Qed.

End StdioAttributes.

(** Witness for X23: the last chunk of stdout, marked as end of stream. *)
Lemma X23_stdio_attribute_contract_witness :
  exists r,
    trace (snd (emit_stdio_log registry_backend "bye" STDIO_STREAM_STDOUT
                  None true (enabled_state true)))
    = trace (enabled_state true) ++ [LoggerEmit r] /\
    attributes r !! STDIO_STREAM_ATTR = Some (AInt 1) /\
    attributes r !! STDIO_EOF_ATTR = Some (ABool true).
Proof.
  destruct (X23_stdio_attribute_contract registry_backend "bye"
              STDIO_STREAM_STDOUT None true (enabled_state true) eq_refl)
    as (r & Htr & Hs & He & _).
  exists r. split; [ exact Htr | ]. split; [ exact Hs | exact He ].
Defined.
